(** * gw_eccentricity: extrema finding by frequency fits

    A shallow embedding of
      - [src/gw_eccentricity/eccDefinitionUsingFrequencyFits.py]
      - [src/gw_eccentricity/eccDefinitionUsingAmplitude.py]

    Conventions of the embedding.
      - Python integers (array indices, counters) are [Z].
      - numpy floats are exact rationals [Q]; rounding is not modelled.
        Comparisons are the decidable comparisons of [Q]. The statements
        below are about control flow, indices, lengths and comparisons of
        values taken from the data; none of them rests on an identity of
        real arithmetic that rounding would break. A float division by
        zero (which gives [inf] or [nan]) has no counterpart in [Q]:
        [f0 = 0] in the trend model is outside the model.
      - A Python exception is a value of [exn]; code that may raise
        returns [result A].
      - The scipy/numpy collaborators that are not part of the repository
        ([scipy.signal.find_peaks], [scipy.optimize.curve_fit],
        [numpy.polynomial.Polynomial.fit], real powers) are parameters of
        the sections that use them. *)

From Stdlib Require Import ZArith QArith Qabs Qpower List Sorted String Bool Lia Lqa.
Import ListNotations.

Open Scope Z_scope.

(** ** Exceptions and the error monad *)

Inductive exn : Type :=
| UnknownExtremaType       (* FrequencyFits.find_extrema, line 166 *)
| BadExtremaType           (* Amplitude.find_extrema, line 55 *)
| MergerTimeWithinSeries   (* envelope_fitting_function.__call__, line 39 *)
| DataSetTooShort          (* find_extrema, line 301 *)
| SafetyException          (* find_extrema, line 356 *)
| CouldNotIdentifyLeft     (* FindExtremaNearIdxRef, line 677 *)
| IndexError               (* list / array index out of range *)
| ValueError               (* reduction of an empty array, bad shape *)
| OverflowError            (* int() of an infinite float *)
| LibraryError             (* raised inside a scipy / numpy collaborator *)
| ShouldNeverGetHere.      (* FindExtremaNearIdxRef, line 808 *)

Inductive result (A : Type) : Type :=
| Ok (a : A)
| Raise (e : exn).
Arguments Ok {A} a.
Arguments Raise {A} e.

Definition bind {A B : Type} (m : result A) (f : A -> result B) : result B :=
  match m with
  | Ok a => f a
  | Raise e => Raise e
  end.

Notation "'let*' x ':=' m 'in' k" := (bind m (fun x => k))
  (at level 10, x pattern, m at level 100, k at level 200).

Definition raises {A : Type} (m : result A) : Prop := exists e, m = Raise e.
Definition returns {A : Type} (m : result A) : Prop := exists a, m = Ok a.

(** ** Rational helpers *)

Definition Qltb (a b : Q) : bool := negb (Qle_bool b a).
Definition Qgtb (a b : Q) : bool := Qltb b a.

(** [int(x)] of a finite float: truncation toward zero. *)
Definition py_int (x : Q) : Z := Z.quot (Qnum x) (Zpos (Qden x)).

(** [int((a + b)/2)] for two integers. *)
Definition int_mid (a b : Z) : Z := Z.quot (a + b) 2.

(** The double nearest to [4*np.pi] is 884279719003555 / 2^46. *)
Definition four_pi : Q := 884279719003555 # 70368744177664.
(** [0.5 * 2 * np.pi] *)
Definition one_pi : Q := 884279719003555 # 281474976710656.

(** ** Python sequences *)

Section PySeq.
Context {A : Type}.

Definition len (l : list A) : Z := Z.of_nat (List.length l).

(** [l[i]] with Python's wrap-around of negative indices. *)
Definition py_index (l : list A) (i : Z) : result A :=
  let j := if i <? 0 then i + len l else i in
  if (j <? 0) || (len l <=? j) then Raise IndexError
  else match nth_error l (Z.to_nat j) with
       | Some a => Ok a
       | None => Raise IndexError
       end.

(** Clamp a slice bound as Python does (step 1). *)
Definition slice_bound (n i : Z) : Z :=
  if i <? 0 then Z.max 0 (i + n) else Z.min i n.

(** [l[lo:hi]] *)
Definition py_slice (l : list A) (lo hi : Z) : list A :=
  let n := len l in
  let lo' := slice_bound n lo in
  let hi' := slice_bound n hi in
  firstn (Z.to_nat (hi' - lo')) (skipn (Z.to_nat lo') l).

(** [l[:hi]] *)
Definition py_prefix (l : list A) (hi : Z) : list A := py_slice l 0 hi.

(** [a[idx]] for an integer index array [idx] (a copy). *)
Fixpoint take_at (l : list A) (idx : list Z) : result (list A) :=
  match idx with
  | [] => Ok []
  | i :: rest =>
      let* a := py_index l i in
      let* r := take_at l rest in
      Ok (a :: r)
  end.

(** [l[k] = v] for [0 <= k < len l] (the only use in the source). *)
Fixpoint set_nth (l : list A) (k : nat) (v : A) : list A :=
  match l, k with
  | [], _ => []
  | _ :: tl, O => v :: tl
  | h :: tl, S k' => h :: set_nth tl k' v
  end.
End PySeq.

(** [np.argmax(mask)]: index of the first [True], 0 when there is none
    (and 0 for a mask whose first entry is [True]). *)
Fixpoint first_true (mask : list bool) (i : Z) : option Z :=
  match mask with
  | [] => None
  | b :: rest => if b then Some i else first_true rest (i + 1)
  end.

Definition argmax_mask (mask : list bool) : Z :=
  match first_true mask 0 with
  | Some i => i
  | None => 0
  end.

(** [np.argmax(a > x)] *)
Definition argmax_gt (a : list Q) (x : Q) : Z :=
  argmax_mask (map (fun v => Qgtb v x) a).

(** [sum(mask)] *)
Definition count_true (mask : list bool) : Z :=
  len (filter (fun b => b) mask).

(** [max(a)] / [min(a)] of a float array; [ValueError] on an empty one. *)
Definition Qmaxb (a b : Q) : Q := if Qltb a b then b else a.
Definition Qminb (a b : Q) : Q := if Qltb b a then b else a.

Definition np_max (a : list Q) : result Q :=
  match a with
  | [] => Raise ValueError
  | x :: rest => Ok (fold_left Qmaxb rest x)
  end.

Definition np_min (a : list Q) : result Q :=
  match a with
  | [] => Raise ValueError
  | x :: rest => Ok (fold_left Qminb rest x)
  end.

(** [np.diff(a)] *)
Fixpoint np_diff (a : list Q) : list Q :=
  match a with
  | x :: ((y :: _) as rest) => (y - x)%Q :: np_diff rest
  | _ => []
  end.

(** ** Choice of polarity from [extrema_type] *)

Module Amplitude.

(** eccDefinitionUsingAmplitude.find_extrema, lines 50-56. *)
Definition sign_of (extrema_type : string) : result Z :=
  if (String.eqb extrema_type "maxima" || String.eqb extrema_type "pericenters")%bool
  then Ok 1
  else if (String.eqb extrema_type "minima" || String.eqb extrema_type "apocenters")%bool
  then Ok (-1)
  else Raise BadExtremaType.

Section FindExtrema.
(** [find_peaks(x, **self.extrema_finding_kwargs)[0]]: the keyword
    arguments are fixed by the object; the call may raise. *)
Variable find_peaks_kw : list Q -> result (list Z).

Definition find_extrema (data_for_finding_extrema : list Q)
           (extrema_type : string) : result (list Z) :=
  let* sign := sign_of extrema_type in
  find_peaks_kw (map (fun v => (inject_Z sign * v)%Q) data_for_finding_extrema).
End FindExtrema.

End Amplitude.

Module FrequencyFits.

(** eccDefinitionUsingFrequencyFits.find_extrema, lines 161-166. *)
Definition sign_of (extrema_type : string) : result Z :=
  if (String.eqb extrema_type "maxima" || String.eqb extrema_type "peaks")%bool
  then Ok 1
  else if (String.eqb extrema_type "minima" || String.eqb extrema_type "troughs")%bool
  then Ok (-1)
  else Raise UnknownExtremaType.

End FrequencyFits.

(** ** The trend model *)

(** Fit parameters [(f0, f1, T)]. *)
Record params : Type := mkParams { f0 : Q; f1 : Q; T : Q }.

Section TrendModel.
(** [x ** y] on floats. *)
Variable rpow : Q -> Q -> Q.

(** envelope_fitting_function, with member [t0]. *)
Definition exponent_n (t0 : Q) (p : params) : Q :=
  (- (T p - t0) * f1 p / f0 p)%Q.

Definition amplitude_A (t0 : Q) (p : params) : Q :=
  (f0 p * rpow (T p - t0) (- exponent_n t0 p))%Q.

(** envelope_fitting_function.__call__, lines 29-43 (verbose off).
    For [f0 = 0] the exponent is a float division by zero, which [Q]
    does not model: statements about the values returned exclude it. *)
Definition envelope_call (t0 : Q) (t : list Q) (p : params) : result (list Q) :=
  let n := exponent_n t0 p in
  let A := amplitude_A t0 p in
  let* tmax := np_max t in
  if Qgtb tmax (T p) then Raise MergerTimeWithinSeries
  else Ok (map (fun ti => (A * rpow (T p - ti) n)%Q) t).
End TrendModel.

(** ** The windowed extrema tracker *)

(** [bounds = [[lo...], [hi...]]] as passed to [curve_fit]. *)
Record bounds : Type := mkBounds { lower : params; upper : params }.

(** What [FindExtremaNearIdxRef] returns:
    [idx_extrema, p, K, idx_ref, [t_extrema, omega22_extrema, phase22_extrema]]. *)
Record tracker_result : Type := mkResult {
  r_idx_extrema : list Z;
  r_p : params;
  r_K : Q;
  r_idx_ref : Z;
  r_t_extrema : list Q;
  r_omega22_extrema : list Q;
  r_phase22_extrema : list Q
}.

(** The local variables of [FindExtremaNearIdxRef] that live across
    iterations of its [while True]. [s_peakcfg = None] is
    [prominence is None]; otherwise it holds [(width, prominence)]. *)
Record tstate : Type := mkState {
  s_idx_lo : Z;
  s_idx_hi : Z;
  s_idx_ref : Z;
  s_K : Q;
  s_p : params;
  s_it : Z;
  s_old_extrema : list Q;
  s_old_idx_lo : Z;
  s_old_idx_hi : Z;
  s_Count_Nright_short : Z;
  s_peakcfg : option (Z * Q)
}.

(** The three [return] statements of the loop body. *)
Inductive exit_site : Type :=
| ExitEarly        (* line 580: [N_extrema==0 or it>20] *)
| ExitShortfall    (* line 761: [Count_Nright_short>=5 or N_extrema<5 or it>20] *)
| ExitConverged.   (* line 772: [max_delta_omega < TOL] *)

(** The two ways back to the top of the loop. *)
Inductive again : Type :=
| WindowChanged    (* line 725: [continue] *)
| Refitted.        (* end of the body, after [curve_fit] *)

Inductive step : Type :=
| Return (site : exit_site) (r : tracker_result)
| Next (why : again) (s : tstate)
| Fail (e : exn).

(** A step without its payload. *)
Inductive outcome_kind : Type :=
| KReturn (site : exit_site)
| KNext (why : again)
| KFail (e : exn).

(** What one iteration saw: recorded for the statements about the run. *)
Record observation : Type := mkObs {
  o_it : Z;
  o_width : Z;
  o_prominence : Q;
  o_Nleft : Z;
  o_Nright : Z;
  o_N_extrema : Z;
  o_fresh_cfg : bool   (* the peak-detector configuration was computed in this iteration *)
}.

(** Element-wise [a - b] of two arrays of the same shape. *)
Fixpoint np_sub (a b : list Q) : result (list Q) :=
  match a, b with
  | [], [] => Ok []
  | x :: a', y :: b' => let* r := np_sub a' b' in Ok ((x - y)%Q :: r)
  | _, _ => Raise ValueError
  end.

(** [a[mask]] for a boolean mask. *)
Fixpoint mask_select {A : Type} (mask : list bool) (a : list A) : list A :=
  match mask, a with
  | b :: mask', x :: a' => if b then x :: mask_select mask' a' else mask_select mask' a'
  | _, _ => []
  end.

Definition last_and_first (a : list Q) : result (Q * Q) :=
  let* l := py_index a (-1) in
  let* f := py_index a 0 in
  Ok (l, f).

(** What lines 521-559 compute from the window in one iteration. *)
Record detection : Type := mkDetection {
  d_width : Z;
  d_prominence : Q;
  d_fresh : bool;            (* [prominence is None] held on entry *)
  d_idx_extrema : list Z;
  d_Nleft : Z;
  d_Nright : Z;
  d_t_extrema : list Q;
  d_omega22_extrema : list Q;
  d_phase22_extrema : list Q
}.

Definition d_N_extrema (d : detection) : Z := len (d_idx_extrema d).

Section Tracker.
(** Collaborators. *)
Variable rpow : Q -> Q -> Q.
(** [scipy.signal.find_peaks(x, width=, prominence=)[0]] *)
Variable find_peaks : list Q -> Z -> Q -> result (list Z).
(** [scipy.optimize.curve_fit(f_fit, xdata, ydata, p0=, bounds=, maxfev=)[0]],
    for [f_fit = envelope_fitting_function(t0)]; the last argument is
    [maxfev] when the call passes it. *)
Variable curve_fit :
  Q -> list Q -> list Q -> params -> bounds -> option Z -> result params.
(** [parabola = Polynomial.fit(x, y, 2)]; returns
    [(parabola.deriv().roots()[0], parabola(t_max))]. *)
Variable parabola_fit : list Q -> list Q -> result (Q * Q).
(** [Polynomial.fit(x, y, 3)(t_max)] *)
Variable cubic_fit_at : list Q -> list Q -> Q -> result Q.

(** Arguments of [FindExtremaNearIdxRef] that the loop only reads. *)
Variable t0 : Q.                (* [f_fit.t0] *)
Variables t phase22 omega22 : list Q.
Variable sign : Z.
Variables Nbefore Nafter : Z.
Variable bnds : bounds.
Variable TOL : Q.
Variable increase_idx_ref_if_needed : bool.
Variable refine_extrema : bool.

Definition f_fit (ts : list Q) (p : params) : result (list Q) :=
  envelope_call rpow t0 ts p.

(** Lines 535-539. *)
Definition fresh_peak_config (idx_lo idx_hi : Z) (omega_residual : list Q)
  : result (Z * Q) :=
  let* maxdt := np_max (np_diff (py_slice t idx_lo idx_hi)) in
  let* maxom := np_max (py_slice omega22 idx_lo idx_hi) in
  if Qeq_bool maxom 0 || Qeq_bool maxdt 0 then Raise OverflowError
  else
    let width := py_int (one_pi / maxom / maxdt)%Q in
    let* rmax := np_max omega_residual in
    let* rmin := np_min omega_residual in
    let omega_residual_amp := (rmax - rmin)%Q in
    Ok (width, (omega_residual_amp * (3 # 100))%Q).

(** Line 521: [omega22[idx_lo:idx_hi] - f_fit(t[idx_lo:idx_hi], *p)]. *)
Definition window_residual (idx_lo idx_hi : Z) (p : params) : result (list Q) :=
  let* trend := f_fit (py_slice t idx_lo idx_hi) p in
  np_sub (py_slice omega22 idx_lo idx_hi) trend.

(** Lines 521-559. *)
Definition detect (s : tstate) : result detection :=
  let idx_lo := s_idx_lo s in
  let idx_hi := s_idx_hi s in
  let* omega_residual := window_residual idx_lo idx_hi (s_p s) in
  let* cfg := match s_peakcfg s with
              | None => fresh_peak_config idx_lo idx_hi omega_residual
              | Some c => Ok c
              end in
  let* peaks := find_peaks (map (fun v => (inject_Z sign * v)%Q) omega_residual)
                           (fst cfg) (snd cfg) in
  let idx_extrema := map (fun i => i + idx_lo) peaks in
  let Nleft := count_true (map (fun i => i <? s_idx_ref s) idx_extrema) in
  let Nright := count_true (map (fun i => s_idx_ref s <=? i) idx_extrema) in
  let* t_extrema := take_at t idx_extrema in
  let* omega22_extrema := take_at omega22 idx_extrema in
  let* phase22_extrema := take_at phase22 idx_extrema in
  let* _ := take_at omega_residual (map (fun i => i - idx_lo) idx_extrema) in
  Ok (mkDetection (fst cfg) (snd cfg)
                  (match s_peakcfg s with None => true | Some _ => false end)
                  idx_extrema Nleft Nright
                  t_extrema omega22_extrema phase22_extrema).

(** Lines 590-615: the body of [for k in range(N_extrema)]. *)
Definition refine_one (p : params) (arrs : list Q * list Q * list Q) (k : nat)
  : result (list Q * list Q * list Q) :=
  let '(t_extrema, omega22_extrema, phase22_extrema) := arrs in
  let* om_k := py_index omega22_extrema (Z.of_nat k) in
  let* t_k := py_index t_extrema (Z.of_nat k) in
  let idx_refine :=
    if Qeq_bool om_k 0 then map (fun _ => true) t
    else map (fun ti => Qltb (Qabs (ti - t_k)) ((5 # 100) / om_k)) t in
  let N_refine := count_true idx_refine in
  if 7 <=? N_refine then
    let t_parafit := mask_select idx_refine t in
    let* trend := f_fit t_parafit p in
    let* omg_resi_parafit := np_sub (mask_select idx_refine omega22) trend in
    let* (t_max, parabola_at_max) := parabola_fit t_parafit omg_resi_parafit in
    let* f_at_max := f_fit [t_max] p in
    let* f_at_max0 := py_index f_at_max 0 in
    let* phase_at_max := cubic_fit_at t_parafit (mask_select idx_refine phase22) t_max in
    Ok (set_nth t_extrema k t_max,
        set_nth omega22_extrema k (parabola_at_max + f_at_max0)%Q,
        set_nth phase22_extrema k phase_at_max)
  else Ok arrs.

Fixpoint refine_from (p : params) (arrs : list Q * list Q * list Q)
         (k : nat) (n : nat) : result (list Q * list Q * list Q) :=
  match n with
  | O => Ok arrs
  | S n' => let* arrs' := refine_one p arrs k in refine_from p arrs' (S k) n'
  end.

(** Lines 582-615. *)
Definition refine (p : params) (d : detection) : result (list Q * list Q * list Q) :=
  let arrs := (d_t_extrema d, d_omega22_extrema d, d_phase22_extrema d) in
  if refine_extrema
  then refine_from p arrs 0%nat (List.length (d_idx_extrema d))
  else Ok arrs.

(** Lines 629-631. *)
Definition update_K (K : Q) (N_extrema : Z) (phase22_extrema : list Q) : result Q :=
  if 2 <=? N_extrema then
    let* (l, f) := last_and_first phase22_extrema in
    Ok ((l - f) / (four_pi * inject_Z (N_extrema - 1)))%Q
  else Ok K.

(** Lines 652-688: the left boundary. Returns the new
    [(idx_lo, idx_ref, Nright)]. *)
Definition adjust_left (idx_extrema : list Z) (idx_lo idx_ref : Z) (K : Q)
           (Nleft Nright : Z) : result (Z * Z * Z) :=
  if Nbefore <? Nleft then
    let* a := py_index idx_extrema (Nleft - Nbefore - 1) in
    let* b := py_index idx_extrema (Nleft - Nbefore) in
    Ok (int_mid a b, idx_ref, Nright)
  else if Nleft <? Nbefore then
    if idx_lo =? 0 then
      if increase_idx_ref_if_needed then
        if 2 <=? Nright then
          let tmp := argmax_mask (map (fun i => idx_ref <=? i) idx_extrema) in
          let* a := py_index idx_extrema tmp in
          let* b := py_index idx_extrema (tmp + 1) in
          Ok (idx_lo, int_mid a b, Nright - 1)
        else Ok (idx_lo, idx_ref, Nright)
      else Raise CouldNotIdentifyLeft
    else
      let* ph := py_index phase22 idx_lo in
      let phase_lo := (ph - K * four_pi * (6 # 10))%Q in
      Ok (argmax_gt phase22 phase_lo, idx_ref, Nright)
  else Ok (idx_lo, idx_ref, Nright).

(** Lines 691-717: the right boundary. Returns the new [idx_hi]. *)
Definition adjust_right (idx_extrema : list Z) (idx_hi : Z) (K : Q)
           (Nright : Z) : result Z :=
  if Nafter <? Nright then
    let* a := py_index idx_extrema (Nafter - Nright) in
    let* b := py_index idx_extrema (Nafter - Nright - 1) in
    Ok (int_mid a b)
  else if Nright <? Nafter then
    if idx_hi <? len phase22 then
      let* ph := py_index phase22 idx_hi in
      let phase_hi := (ph + K * four_pi * (6 # 10))%Q in
      let h := argmax_gt phase22 phase_hi in
      Ok (if h =? 0 then len phase22 else h)
    else Ok idx_hi
  else Ok idx_hi.

(** Lines 742-747. *)
Definition max_delta_omega (omega22_extrema old_extrema : list Q) : result Q :=
  if len omega22_extrema =? len old_extrema then
    let* diff := np_sub omega22_extrema old_extrema in
    np_max (map Qabs diff)
  else Ok (inject_Z (10 ^ 99)).

(** Lines 742-807, entered with the final [idx_lo, idx_hi, idx_ref]. *)
Definition conclude (s : tstate) (d : detection) (it : Z)
           (arrs : list Q * list Q * list Q) (K : Q) (Count_Nright_short : Z)
           (idx_lo idx_hi idx_ref : Z) : result step :=
  let '(t_extrema, omega22_extrema, phase22_extrema) := arrs in
  let* mdo := max_delta_omega omega22_extrema (s_old_extrema s) in
  let res := mkResult (d_idx_extrema d) (s_p s) K idx_ref
                      t_extrema omega22_extrema phase22_extrema in
  if (5 <=? Count_Nright_short) || (d_N_extrema d <? 5) || (20 <? it) then
    Ok (Return ExitShortfall res)
  else if Qltb mdo TOL then
    Ok (Return ExitConverged res)
  else
    let* p' := curve_fit t0 t_extrema omega22_extrema (s_p s) bnds (Some 10000) in
    Ok (Next Refitted
             (mkState idx_lo idx_hi idx_ref K p' it omega22_extrema
                      (s_old_idx_lo s) (s_old_idx_hi s)
                      Count_Nright_short None)).

(** Lines 565-807: what the iteration does with what it detected. *)
Definition decide (s : tstate) (d : detection) : result step :=
  let it := s_it s + 1 in
  if (d_N_extrema d =? 0) || (20 <? it) then
    Ok (Return ExitEarly
               (mkResult (d_idx_extrema d) (s_p s) (s_K s) (s_idx_ref s)
                         (d_t_extrema d) (d_omega22_extrema d) (d_phase22_extrema d)))
  else
    let* arrs := refine (s_p s) d in
    let* K := update_K (s_K s) (d_N_extrema d) (snd arrs) in
    let Count_Nright_short :=
      if d_Nright d <? Nafter then s_Count_Nright_short s + 1
      else s_Count_Nright_short s in
    if negb (d_Nleft d =? Nbefore) || negb (d_Nright d =? Nafter) then
      let* (idx_lo, idx_ref, Nright) :=
        adjust_left (d_idx_extrema d) (s_idx_lo s) (s_idx_ref s) K
                    (d_Nleft d) (d_Nright d) in
      let* idx_hi := adjust_right (d_idx_extrema d) (s_idx_hi s) K Nright in
      if negb ((idx_lo =? s_old_idx_lo s) && (idx_hi =? s_old_idx_hi s)) then
        Ok (Next WindowChanged
                 (mkState idx_lo idx_hi idx_ref K (s_p s) it (s_old_extrema s)
                          idx_lo idx_hi Count_Nright_short
                          (Some (d_width d, d_prominence d))))
      else
        conclude s d it arrs K Count_Nright_short idx_lo idx_hi idx_ref
    else
      conclude s d it arrs K Count_Nright_short
               (s_idx_lo s) (s_idx_hi s) (s_idx_ref s).

(** One pass through the body of [while True] (lines 518-807). *)
Definition body (s : tstate) : step :=
  match (let* d := detect s in decide s d) with
  | Ok st => st
  | Raise e => Fail e
  end.

(** [while True]: [None] when [fuel] passes did not reach a [return]
    or a [raise]. *)
Fixpoint tracker_loop (fuel : nat) (s : tstate) : option (result tracker_result) :=
  match fuel with
  | O => None
  | S fuel' =>
      match body s with
      | Return _ r => Some (Ok r)
      | Fail e => Some (Raise e)
      | Next _ s' => tracker_loop fuel' s'
      end
  end.

(** Lines 483-516: the state on entry to the loop. *)
Definition initial_state (idx_ref : Z) (K : Q) (p_initial : params) : result tstate :=
  let DeltaPhase := (four_pi * K)%Q in
  let* ph_ref := py_index phase22 idx_ref in
  let idx_lo := argmax_gt phase22 (ph_ref - DeltaPhase * inject_Z Nbefore)%Q in
  let idx_hi0 := argmax_gt phase22 (ph_ref + DeltaPhase * inject_Z Nafter)%Q in
  let idx_hi := if idx_hi0 =? 0 then len phase22 else idx_hi0 in
  if Nbefore + Nafter <? 0 then Raise ValueError
  else
    Ok (mkState idx_lo idx_hi idx_ref K p_initial 0
                (repeat 0%Q (Z.to_nat (Nbefore + Nafter)))
                (-1) (-1) 0 None).

(** FindExtremaNearIdxRef (lines 400-808). The loop body returns or
    raises by its 21st pass (see [tracker_loop_fuel] below), so the
    statement after the loop, line 808, is the [None] case. *)
Definition FindExtremaNearIdxRef (idx_ref : Z) (K : Q) (p_initial : params)
  : result tracker_result :=
  let* s0 := initial_state idx_ref K p_initial in
  match tracker_loop 21 s0 with
  | Some r => r
  | None => Raise ShouldNeverGetHere
  end.

(** The states at the top of the loop, in order, for a run from [s]. *)
Fixpoint visited (fuel : nat) (s : tstate) : list tstate :=
  match fuel with
  | O => []
  | S fuel' =>
      s :: match body s with
           | Next _ s' => visited fuel' s'
           | _ => []
           end
  end.

(** What the pass starting in [s] sees at lines 521-559. *)
Definition observe (s : tstate) : result observation :=
  let* d := detect s in
  Ok (mkObs (s_it s + 1) (d_width d) (d_prominence d)
            (d_Nleft d) (d_Nright d) (d_N_extrema d) (d_fresh d)).

(** How the pass starting in [s] ends. *)
Definition outcome (s : tstate) : outcome_kind :=
  match body s with
  | Return site _ => KReturn site
  | Next why _ => KNext why
  | Fail e => KFail e
  end.

End Tracker.

(** ** The driving loop: eccDefinitionUsingFrequencyFits.find_extrema *)

(** [N = 3], line 176. *)
Definition N : Z := 3.

(** What [find_extrema] leaves behind: the returned [np.array(extrema)]
    and the three lists stored in [periastron_info] / [apastron_info]. *)
Record extrema_out : Type := mkOut {
  extrema : list Z;
  t_extrema_refined : list Q;
  omega22_extrema_refined : list Q;
  phase22_extrema_refined : list Q
}.

(** The variables of the [while True] of [find_extrema], lines 285-303. *)
Record dstate : Type := mkDState {
  g_count : Z;
  g_out : extrema_out;
  g_idx_ref : Z;
  g_p : params;
  g_K : Q
}.

Inductive dstep : Type :=
| DBreak (o : extrema_out)       (* line 348, then line 369 *)
| DNext (g : dstate)
| DFail (e : exn).

(** Lines 330-333 / 340-343: append entry [k] of the tracker's arrays. *)
Definition append_at (o : extrema_out) (r : tracker_result) (k : Z)
  : result extrema_out :=
  let* i := py_index (r_idx_extrema r) k in
  let* tk := py_index (r_t_extrema r) k in
  let* ok := py_index (r_omega22_extrema r) k in
  let* pk := py_index (r_phase22_extrema r) k in
  Ok (mkOut (extrema o ++ [i]) (t_extrema_refined o ++ [tk])
            (omega22_extrema_refined o ++ [ok])
            (phase22_extrema_refined o ++ [pk])).

(** [for k in range(0, n)], lines 329-333. *)
Fixpoint append_range (o : extrema_out) (r : tracker_result) (k : Z) (n : nat)
  : result extrema_out :=
  match n with
  | O => Ok o
  | S n' => let* o' := append_at o r k in append_range o' r (k + 1) n'
  end.

(** Lines 323-343. *)
Definition report (count : Z) (o : extrema_out) (r : tracker_result)
  : result extrema_out :=
  if 2 * N - 1 <=? len (r_idx_extrema r) then
    let* o1 := if count =? 1 then append_range o r 0 (Z.to_nat N) else Ok o in
    append_at o1 r N
  else Ok o.

(** The global fit set-up, lines 209-254 ([UseAlphaFit = False]). *)
Record global_setup : Type := mkSetup {
  gs_idx_end : Z;
  gs_fit_center_time : Q;
  gs_p0 : params;
  gs_bounds0 : bounds
}.

Definition setup_global_fit (t_analyse phase22_analyse omega22_analyse : list Q)
  : result global_setup :=
  let N_orbits_for_global_fit := 10%Q in
  let* ph0 := py_index phase22_analyse 0 in
  let idx_end0 := argmax_gt phase22_analyse (ph0 + N_orbits_for_global_fit * four_pi)%Q in
  let idx_end := if idx_end0 =? 0 then -1 else idx_end0 in
  let* t_first := py_index t_analyse 0 in
  let* t_last := py_index t_analyse (-1) in
  let fit_center_time := ((1 # 2) * (t_first + t_last))%Q in
  let nPN := (- (3 # 8))%Q in
  let* om_first := py_index omega22_analyse 0 in
  let* om_end := py_index omega22_analyse idx_end in
  let f0 := ((1 # 2) * (om_first + om_end))%Q in
  let p0 := mkParams f0 (- nPN * f0 / (- fit_center_time))%Q 0%Q in
  let bounds0 :=
    mkBounds (mkParams 0 0 ((8 # 10) * t_last))%Q
             (mkParams (10 * f0) (10 * f0 / (- fit_center_time)) (- fit_center_time))%Q in
  Ok (mkSetup idx_end fit_center_time p0 bounds0).

(** The samples handed to the global fit, line 270: [t_analyse[:idx_end]]. *)
Definition global_fit_times (t_analyse : list Q) (gs : global_setup) : list Q :=
  py_prefix t_analyse (gs_idx_end gs).

Section DrivingLoop.
Variable rpow : Q -> Q -> Q.
Variable find_peaks : list Q -> Z -> Q -> result (list Z).
Variable curve_fit :
  Q -> list Q -> list Q -> params -> bounds -> option Z -> result params.
Variable parabola_fit : list Q -> list Q -> result (Q * Q).
Variable cubic_fit_at : list Q -> list Q -> Q -> result Q.

(** Member data of the object. *)
Variables t_analyse phase22_analyse omega22_analyse : list Q.
Variable refine_extrema : bool.    (* [extra_kwargs["refine_extrema"]] *)

(** The call of lines 308-318. *)
Definition tracker (t0 : Q) (sign : Z) (bounds0 : bounds)
           (idx_ref : Z) (K : Q) (p : params) : result tracker_result :=
  FindExtremaNearIdxRef rpow find_peaks curve_fit parabola_fit cubic_fit_at
                        t0 t_analyse phase22_analyse omega22_analyse
                        sign N (N + 1) bounds0 (1 # 100000000)
                        true refine_extrema idx_ref K p.

(** One pass through lines 305-357. *)
Definition drive_body (t0 : Q) (sign : Z) (bounds0 : bounds) (g : dstate) : dstep :=
  let count := g_count g + 1 in
  match tracker t0 sign bounds0 (g_idx_ref g) (g_K g) (g_p g) with
  | Raise e => DFail e
  | Ok r =>
      match report count (g_out g) r with
      | Raise e => DFail e
      | Ok o =>
          if len (r_idx_extrema r) <? 2 * N + 1 then DBreak o
          else
            match (let* a := py_index (r_idx_extrema r) N in
                   let* b := py_index (r_idx_extrema r) (N + 1) in
                   Ok (int_mid a b)) with
            | Raise e => DFail e
            | Ok idx_ref =>
                if 1000 <? count then DFail SafetyException
                else DNext (mkDState count o idx_ref (r_p r) (r_K r))
            end
      end
  end.

Fixpoint drive (fuel : nat) (t0 : Q) (sign : Z) (bounds0 : bounds) (g : dstate)
  : option (result extrema_out) :=
  match fuel with
  | O => None
  | S fuel' =>
      match drive_body t0 sign bounds0 g with
      | DBreak o => Some (Ok o)
      | DFail e => Some (Raise e)
      | DNext g' => drive fuel' t0 sign bounds0 g'
      end
  end.

(** Lines 297-303: the state on entry to the loop. *)
Definition initial_dstate (p_global : params) : result dstate :=
  let K := (12 # 10)%Q in
  let* ph0 := py_index phase22_analyse 0 in
  let idx_ref :=
    argmax_gt phase22_analyse
              (ph0 + K * (inject_Z N - (1 # 1000)) * four_pi)%Q in
  if idx_ref =? 0 then Raise DataSetTooShort
  else Ok (mkDState 0 (mkOut [] [] [] []) idx_ref p_global K).

(** eccDefinitionUsingFrequencyFits.find_extrema with [debug] off.
    The loop raises or breaks by its 1001st pass (see
    [drive_fuel] below). *)
Definition find_extrema (extrema_type : string) : result extrema_out :=
  let* sign := FrequencyFits.sign_of extrema_type in
  let* gs := setup_global_fit t_analyse phase22_analyse omega22_analyse in
  let t0 := gs_fit_center_time gs in
  let* p_global :=
    curve_fit t0 (global_fit_times t_analyse gs)
              (py_prefix omega22_analyse (gs_idx_end gs))
              (gs_p0 gs) (gs_bounds0 gs) None in
  let* g0 := initial_dstate p_global in
  match drive 1001 t0 sign (gs_bounds0 gs) g0 with
  | Some r => r
  | None => Raise ShouldNeverGetHere
  end.

End DrivingLoop.

(** ** The analysed stretch of data: eccDefinitionUsingFrequencyFits.__init__ *)

(** [np.argmin(a)]: the index of the first smallest entry. *)
Fixpoint argmin_from (best_i : Z) (best : Q) (i : Z) (a : list Q) : Z :=
  match a with
  | [] => best_i
  | v :: rest =>
      if Qltb v best then argmin_from i v (i + 1) rest
      else argmin_from best_i best (i + 1) rest
  end.

Definition np_argmin (a : list Q) : result Z :=
  match a with
  | [] => Raise ValueError
  | v :: rest => Ok (argmin_from 0 v 1 rest)
  end.

(** [np.argmin(np.abs(a - x))] *)
Definition argmin_abs (a : list Q) (x : Q) : result Z :=
  np_argmin (map (fun v => Qabs (v - x)) a).

(** The member data set by lines 114-137. *)
Record analysed : Type := mkAnalysed {
  a_t_analyse : list Q;
  a_omega22_analyse : list Q;
  a_phase22_analyse : list Q
}.

(** Lines 114-137. [t], [phase22], [omega22] and [t_merger] are members
    set by the base class; [num_orbits] is
    [extra_kwargs["num_orbits_to_exclude_before_merger"]]. *)
Definition init_analyse (t phase22 omega22 : list Q) (t_merger : Q)
           (num_orbits : option Q) : result analysed :=
  match num_orbits with
  | Some k =>
      let* merger_idx := argmin_abs t t_merger in
      let* phase22_at_merger := py_index phase22 merger_idx in
      let phase22_num_orbits_earlier_than_merger :=
        (phase22_at_merger - four_pi * k)%Q in
      let* idx_num_orbit_earlier_than_merger :=
        argmin_abs phase22 phase22_num_orbits_earlier_than_merger in
      Ok (mkAnalysed (py_prefix t idx_num_orbit_earlier_than_merger)
                     (py_prefix omega22 idx_num_orbit_earlier_than_merger)
                     (py_prefix phase22 idx_num_orbit_earlier_than_merger))
  | None => Ok (mkAnalysed t omega22 phase22)
  end.

(** The values of [extrema_type] each method accepts. *)
Definition amplitude_names : list string :=
  ["maxima"; "pericenters"; "minima"; "apocenters"]%string.
Definition frequency_fit_names : list string :=
  ["maxima"; "peaks"; "minima"; "troughs"]%string.

(** ** What [scipy.signal.find_peaks] guarantees

    The peaks of an array of [n] samples are strict interior positions
    in increasing order, and no two of them are neighbours. *)
Definition apart (a b : Z) : Prop := a + 2 <= b.

Definition peaks_ok (n : Z) (l : list Z) : Prop :=
  StronglySorted apart l /\ Forall (fun i => 1 <= i < n - 1) l.

Definition find_peaks_contract (fp : list Q -> Z -> Q -> result (list Z)) : Prop :=
  forall x w pr l, fp x w pr = Ok l -> peaks_ok (len x) l.

(** Two triples of arrays with the same lengths. *)
Definition same_shape (a b : list Q * list Q * list Q) : Prop :=
  List.length (fst (fst a)) = List.length (fst (fst b)) /\
  List.length (snd (fst a)) = List.length (snd (fst b)) /\
  List.length (snd a) = List.length (snd b).

(** The reference index a pass hands on, to the next pass or to the caller. *)
Definition step_idx_ref (st : step) : option Z :=
  match st with
  | Return _ r => Some (r_idx_ref r)
  | Next _ s => Some (s_idx_ref s)
  | Fail _ => None
  end.

(** An extremum list that only grew. *)
Definition extends (o o' : extrema_out) (new : list Z) : Prop :=
  extrema o' = extrema o ++ new /\
  exists nt no np,
    t_extrema_refined o' = t_extrema_refined o ++ nt /\
    omega22_extrema_refined o' = omega22_extrema_refined o ++ no /\
    phase22_extrema_refined o' = phase22_extrema_refined o ++ np /\
    List.length nt = List.length new /\ List.length no = List.length new /\
    List.length np = List.length new.

(** A tracker result whose three arrays have one entry per extremum. *)
Definition well_shaped (r : tracker_result) : Prop :=
  List.length (r_t_extrema r) = List.length (r_idx_extrema r) /\
  List.length (r_omega22_extrema r) = List.length (r_idx_extrema r) /\
  List.length (r_phase22_extrema r) = List.length (r_idx_extrema r).

(** The search window as the loop keeps it: the remembered window is
    either still the initial [(-1, -1)] or the current one, and both
    bounds are valid slice bounds. *)
Definition window_inv (s : tstate) : Prop :=
  ((s_old_idx_lo s = -1 /\ s_old_idx_hi s = -1) \/
   (s_old_idx_lo s = s_idx_lo s /\ s_old_idx_hi s = s_idx_hi s)) /\
  0 <= s_idx_lo s /\ 0 <= s_idx_hi s.

(** [Nbefore] of the returned extrema lie strictly before the returned
    reference index and [Nafter] at or after it. *)
Definition counts_ok (Nbefore Nafter : Z) (r : tracker_result) : Prop :=
  count_true (map (fun i => i <? r_idx_ref r) (r_idx_extrema r)) = Nbefore /\
  count_true (map (fun i => r_idx_ref r <=? i) (r_idx_extrema r)) = Nafter.

(** ** Sample data and collaborators

    Small concrete inputs on which the statements below are evaluated. *)

(** A stand-in for [x ** y]: the integer power [x ** int(y)]. *)
Definition int_rpow (x y : Q) : Q := Qpower x (py_int y).

(** Time samples in strictly increasing order. *)
Fixpoint increasingb (l : list Q) : bool :=
  match l with
  | x :: ((y :: _) as rest) => Qltb x y && increasingb rest
  | _ => true
  end.

(** A stand-in for [find_peaks]: the strict interior local maxima,
    whatever the width and the prominence. *)
Fixpoint local_maxima_from (i : Z) (x : list Q) : list Z :=
  match x with
  | a :: ((b :: c :: _) as rest) =>
      if Qltb a b && Qltb c b then (i + 1) :: local_maxima_from (i + 1) rest
      else local_maxima_from (i + 1) rest
  | _ => []
  end.

Definition local_maxima (x : list Q) (width : Z) (prominence : Q) : result (list Z) :=
  Ok (local_maxima_from 0 x).

(** A stand-in for [curve_fit]: the fit returns its initial guess [p0]. *)
Definition fit_keeps_guess (t0 : Q) (xdata ydata : list Q) (p0 : params)
           (b : bounds) (maxfev : option Z) : result params := Ok p0.

(** A stand-in for [curve_fit]: the fit lands on fixed parameters. *)
Definition fit_lands_on (q : params) (t0 : Q) (xdata ydata : list Q) (p0 : params)
           (b : bounds) (maxfev : option Z) : result params := Ok q.

(** Stand-ins for the local polynomial fits: the vertex is the middle
    sample of the fit interval. *)
Definition middle_vertex (x y : list Q) : result (Q * Q) :=
  let* xm := py_index x (Z.quot (len x) 2) in
  let* ym := py_index y (Z.quot (len y) 2) in
  Ok (xm, ym).

Definition middle_value (x y : list Q) (t_max : Q) : result Q :=
  py_index y (Z.quot (len y) 2).

(** [range(a, a + n)] *)
Fixpoint zrange (a : Z) (n : nat) : list Z :=
  match n with
  | O => []
  | S n' => a :: zrange (a + 1) n'
  end.

(** A sampled inspiral of [n] samples: unit time steps ending at [t = -1],
    phase equal to the sample number, and a frequency that is 1 except
    for a bump of height 1 at the listed samples. *)
Definition sample_t (n : nat) : list Q :=
  map (fun i => inject_Z (i - Z.of_nat n)) (zrange 0 n).
Definition sample_phase22 (n : nat) : list Q :=
  map inject_Z (zrange 0 n).
Definition sample_omega22 (n : nat) (bumps : list Z) : list Q :=
  map (fun i => if existsb (Z.eqb i) bumps then 2%Q else 1%Q) (zrange 0 n).

(** Bumps every 15 samples, the first at sample 7. *)
Definition regular_bumps (k : nat) : list Z :=
  map (fun j => 7 + 15 * j) (zrange 0 k).

(** A tracker call on the sampled inspiral with the stand-ins, looking
    for maxima with [Nbefore = 3], [Nafter = 4], refinement off, a flat
    trend [(f0, f1, T) = (1, 0, 0)] and [t0 = -100]. *)
Definition sample_bounds : bounds := mkBounds (mkParams 0 0 (-1)) (mkParams 10 10 100).
Definition sample_p : params := mkParams 1 0 0.

Definition sample_tracker (n : nat) (bumps : list Z) (idx_ref : Z) (K : Q)
  : result tracker_result :=
  FindExtremaNearIdxRef int_rpow local_maxima fit_keeps_guess middle_vertex middle_value
                        (-100) (sample_t n) (sample_phase22 n) (sample_omega22 n bumps)
                        1 3 4 sample_bounds (1 # 100000000) true false
                        idx_ref K sample_p.

(** The driving loop on the sampled inspiral, with the stand-ins:
    the tracker call of lines 308-318, one pass of the loop, and the loop. *)
Definition sample_drive_body (n : nat) (bumps : list Z) (g : dstate) : dstep :=
  drive_body int_rpow local_maxima fit_keeps_guess middle_vertex middle_value
             (sample_t n) (sample_phase22 n) (sample_omega22 n bumps) false
             (-100) 1 sample_bounds g.

Definition sample_drive (n : nat) (bumps : list Z) (fuel : nat) (g : dstate)
  : option (result extrema_out) :=
  drive int_rpow local_maxima fit_keeps_guess middle_vertex middle_value
        (sample_t n) (sample_phase22 n) (sample_omega22 n bumps) false
        fuel (-100) 1 sample_bounds g.

Definition sample_find_extrema (n : nat) (bumps : list Z) (extrema_type : string)
  : result extrema_out :=
  find_extrema int_rpow local_maxima fit_keeps_guess middle_vertex middle_value
               (sample_t n) (sample_phase22 n) (sample_omega22 n bumps) false
               extrema_type.

(** A call on an inspiral with a quiet stretch: five bumps 15 samples
    apart around [idx_ref = 210], nothing before them, and after a long
    gap two bumps three samples apart. [K] is such that [4*pi*K = 15]. *)
Definition gap_bumps : list Z := [185; 200; 215; 230; 245; 461; 464].
Definition gap_K : Q := (15 / four_pi)%Q.

Definition gap_tracker : result tracker_result :=
  sample_tracker 480 gap_bumps 210 gap_K.

Definition gap_initial_state : result tstate :=
  initial_state (sample_phase22 480) 3 4 210 gap_K sample_p.




(** A call on the regular inspiral in which the fit lands on the
    sloping trend [(f0, f1, T) = (1, -1/100, 0)], that is
    [f(t) = -t/100] for [t0 = -100]. *)
Definition sloping_p : params := mkParams 1 (- (1 # 100)) 0.

Definition refit_initial_state : result tstate :=
  initial_state (sample_phase22 200) 3 4 46 (12 # 10) sample_p.

Definition refit_visited (fuel : nat) (s0 : tstate) : list tstate :=
  visited int_rpow local_maxima (fit_lands_on sloping_p) middle_vertex middle_value
          (-100) (sample_t 200) (sample_phase22 200)
          (sample_omega22 200 (regular_bumps 13))
          1 3 4 sample_bounds (1 # 100000000) true false fuel s0.

Definition refit_observe (s : tstate) : result observation :=
  observe int_rpow local_maxima (-100) (sample_t 200) (sample_phase22 200)
          (sample_omega22 200 (regular_bumps 13)) 1 s.

Definition refit_outcome (s : tstate) : outcome_kind :=
  outcome int_rpow local_maxima (fit_lands_on sloping_p) middle_vertex middle_value
          (-100) (sample_t 200) (sample_phase22 200)
          (sample_omega22 200 (regular_bumps 13))
          1 3 4 sample_bounds (1 # 100000000) true false s.

(** One pass of the tracker loop in the three sample calls. *)
Definition sample_body (n : nat) (bumps : list Z) (s : tstate) : step :=
  body int_rpow local_maxima fit_keeps_guess middle_vertex middle_value
       (-100) (sample_t n) (sample_phase22 n) (sample_omega22 n bumps)
       1 3 4 sample_bounds (1 # 100000000) true false s.

Definition refit_body (s : tstate) : step :=
  body int_rpow local_maxima (fit_lands_on sloping_p) middle_vertex middle_value
       (-100) (sample_t 200) (sample_phase22 200)
       (sample_omega22 200 (regular_bumps 13))
       1 3 4 sample_bounds (1 # 100000000) true false s.


(** States of the sample calls, evaluated once: the second state of the
    late call, and the first two states of the sloping-fit call and of
    the quiet-stretch call. *)
Definition no_state : tstate := mkState 0 0 0 0 sample_p 0 [] (-1) (-1) 0 None.


Definition refit_s0 : tstate :=
  Eval vm_compute in
    match refit_initial_state with Ok s => s | Raise _ => no_state end.

Definition refit_s1 : tstate :=
  Eval vm_compute in
    match refit_body refit_s0 with Next _ s => s | _ => no_state end.

Definition gap_s0 : tstate :=
  Eval vm_compute in
    match gap_initial_state with Ok s => s | Raise _ => no_state end.

Definition gap_s1 : tstate :=
  Eval vm_compute in
    match sample_body 480 gap_bumps gap_s0 with Next _ s => s | _ => no_state end.

(** ** What [scipy.optimize.curve_fit] asks of its bounds and of [p0]

    Each lower bound strictly below its upper bound, and the initial
    guess inside the box; otherwise the call raises. *)
Definition strict_bounds (b : bounds) : Prop :=
  (f0 (lower b) < f0 (upper b))%Q /\ (f1 (lower b) < f1 (upper b))%Q /\
  (T (lower b) < T (upper b))%Q.

Definition within_bounds (b : bounds) (p : params) : Prop :=
  (f0 (lower b) <= f0 p <= f0 (upper b))%Q /\
  (f1 (lower b) <= f1 p <= f1 (upper b))%Q /\
  (T (lower b) <= T p <= T (upper b))%Q.

(** All four output lists of [find_extrema] have one entry per extremum. *)
Definition aligned (o : extrema_out) : Prop :=
  List.length (t_extrema_refined o) = List.length (extrema o) /\
  List.length (omega22_extrema_refined o) = List.length (extrema o) /\
  List.length (phase22_extrema_refined o) = List.length (extrema o).

(** The first state of the call on the regular inspiral at
    [idx_ref = 150], and of the call at [idx_ref = 10]. *)
Definition near_end_s0 : tstate :=
  Eval vm_compute in
    match initial_state (sample_phase22 200) 3 4 150 (12 # 10) sample_p with
    | Ok s => s
    | Raise _ => no_state
    end.

Definition near_start_s0 : tstate :=
  Eval vm_compute in
    match initial_state (sample_phase22 200) 3 4 10 (12 # 10) sample_p with
    | Ok s => s
    | Raise _ => no_state
    end.

(** ** Runs of the driving loop and the window check of a pass *)

(** The state of the driving loop after [n] passes that all went round
    again ([None] when one of them broke out of the loop or raised). *)
Fixpoint after_passes (pass : dstate -> dstep) (n : nat) (g : dstate) : option dstate :=
  match n with
  | O => Some g
  | S n' =>
      match pass g with
      | DNext g' => after_passes pass n' g'
      | _ => None
      end
  end.

(** The entries of one of the tracker's lists that lines 323-343 report
    in pass [count], for a tracker result of [n] extrema: none when
    [n < 2N-1]; otherwise entry [N], after entries [0 .. N-1] in the
    first pass. *)
Definition reported {A : Type} (count n : Z) (l : list A) : list A :=
  if 2 * N - 1 <=? n then
    if count =? 1 then firstn (Z.to_nat (N + 1)) l
    else firstn 1 (skipn (Z.to_nat N) l)
  else [].

(** The output lists after a pass with count [count] that got the
    tracker result [r]. *)
Definition report_of (count : Z) (o : extrema_out) (r : tracker_result) : extrema_out :=
  let n := len (r_idx_extrema r) in
  mkOut (extrema o ++ reported count n (r_idx_extrema r))
        (t_extrema_refined o ++ reported count n (r_t_extrema r))
        (omega22_extrema_refined o ++ reported count n (r_omega22_extrema r))
        (phase22_extrema_refined o ++ reported count n (r_phase22_extrema r)).

(** Lines 650-725 of a pass that found [d] and updated [K]: [Ok true]
    when the pass goes back to the top of the loop with a changed window
    (the [continue] of line 725), [Ok false] when it goes on to the exits
    of lines 742-772, because both counts are as wanted or because the
    adjusted window is the one remembered from the pass before. *)
Definition window_changed (phase22 : list Q) (Nbefore Nafter : Z)
           (increase_idx_ref_if_needed : bool) (s : tstate) (d : detection) (K : Q)
  : result bool :=
  if negb (d_Nleft d =? Nbefore) || negb (d_Nright d =? Nafter) then
    let* (idx_lo, idx_ref, Nright) :=
      adjust_left phase22 Nbefore increase_idx_ref_if_needed
                  (d_idx_extrema d) (s_idx_lo s) (s_idx_ref s) K
                  (d_Nleft d) (d_Nright d) in
    let* idx_hi := adjust_right phase22 Nafter (d_idx_extrema d) (s_idx_hi s) K Nright in
    Ok (negb ((idx_lo =? s_old_idx_lo s) && (idx_hi =? s_old_idx_hi s)))
  else Ok false.

(** [Count_Nright_short] after lines 645-646 of a pass that found [d]. *)
Definition count_short (Nafter : Z) (s : tstate) (d : detection) : Z :=
  if d_Nright d <? Nafter then s_Count_Nright_short s + 1 else s_Count_Nright_short s.

(** The whole method on the regular inspiral: the set-up of the global
    fit, the state on entry to the loop, and the state after seven
    passes, each evaluated once. *)
Definition no_setup : global_setup := mkSetup 0 0 sample_p sample_bounds.
Definition no_dstate : dstate := mkDState 0 (mkOut [] [] [] []) 0 sample_p 0.

Definition run_setup : global_setup :=
  Eval vm_compute in
    match setup_global_fit (sample_t 200) (sample_phase22 200)
                           (sample_omega22 200 (regular_bumps 13)) with
    | Ok gs => gs
    | Raise _ => no_setup
    end.

Definition run_g0 : dstate :=
  Eval vm_compute in
    match initial_dstate (sample_phase22 200) (gs_p0 run_setup) with
    | Ok g => g
    | Raise _ => no_dstate
    end.

Definition run_g7 : dstate :=
  Eval vm_compute in
    match after_passes
            (drive_body int_rpow local_maxima fit_keeps_guess middle_vertex middle_value
                        (sample_t 200) (sample_phase22 200)
                        (sample_omega22 200 (regular_bumps 13)) false
                        (gs_fit_center_time run_setup) 1 (gs_bounds0 run_setup))
            7 run_g0 with
    | Some g => g
    | None => no_dstate
    end.

Definition run_r7 : tracker_result :=
  Eval vm_compute in
    match tracker int_rpow local_maxima fit_keeps_guess middle_vertex middle_value
                  (sample_t 200) (sample_phase22 200)
                  (sample_omega22 200 (regular_bumps 13)) false
                  (gs_fit_center_time run_setup) 1 (gs_bounds0 run_setup)
                  (g_idx_ref run_g7) (g_K run_g7) (g_p run_g7) with
    | Ok r => r
    | Raise _ => mkResult [] sample_p 0 0 [] [] []
    end.

(** * Properties *)

(** ** Comparisons and maxima of float arrays *)

Lemma Qltb_lt (a b : Q) : Qltb a b = true <-> (a < b)%Q.
Proof.
  unfold Qltb. rewrite negb_true_iff. split; intro H.
  - apply Qnot_le_lt. intro Hle. apply Qle_bool_iff in Hle. congruence.
  - destruct (Qle_bool b a) eqn:E; [|reflexivity].
    apply Qle_bool_iff in E. exfalso. exact (Qlt_not_le _ _ H E).
Qed.

Lemma Qltb_ge (a b : Q) : Qltb a b = false <-> (b <= a)%Q.
Proof.
  unfold Qltb. rewrite negb_false_iff. apply Qle_bool_iff.
Qed.

Lemma fold_Qmaxb_ge (l : list Q) (x : Q) :
  (x <= fold_left Qmaxb l x)%Q /\
  (forall y, In y l -> (y <= fold_left Qmaxb l x)%Q).
Proof.
  revert x. induction l as [|a l IH]; intro x; simpl.
  - split; [apply Qle_refl | intros y []].
  - destruct (IH (Qmaxb x a)) as [H1 H2].
    assert (Hx : (x <= Qmaxb x a)%Q /\ (a <= Qmaxb x a)%Q).
    { unfold Qmaxb. destruct (Qltb x a) eqn:E.
      - apply Qltb_lt in E. split; [apply Qlt_le_weak; exact E | apply Qle_refl].
      - apply Qltb_ge in E. split; [apply Qle_refl | exact E]. }
    destruct Hx as [Hx Ha]. split.
    + eapply Qle_trans; eauto.
    + intros y [<-|Hy]; [eapply Qle_trans; eauto | auto].
Qed.

Lemma fold_Qmaxb_in (l : list Q) (x : Q) :
  fold_left Qmaxb l x = x \/ In (fold_left Qmaxb l x) l.
Proof.
  revert x. induction l as [|a l IH]; intro x; simpl; [now left|].
  destruct (IH (Qmaxb x a)) as [H|H]; [|now right; right].
  rewrite H. unfold Qmaxb. destruct (Qltb x a); [right; now left | now left].
Qed.

Lemma np_max_spec (l : list Q) (m : Q) :
  np_max l = Ok m -> In m l /\ forall y, In y l -> (y <= m)%Q.
Proof.
  destruct l as [|x l]; simpl; [discriminate|].
  intro H. injection H as <-. split.
  - destruct (fold_Qmaxb_in l x) as [->|Hin]; [now left | now right].
  - destruct (fold_Qmaxb_ge l x) as [H1 H2].
    intros y [<-|Hy]; [exact H1 | exact (H2 y Hy)].
Qed.

Lemma np_max_nonempty (l : list Q) : l <> [] -> exists m, np_max l = Ok m.
Proof. destruct l; [congruence | eexists; reflexivity]. Qed.

(** ** C10: the accepted values of [extrema_type] *)


Lemma amplitude_sign_of_raises (s : string) :
  raises (Amplitude.sign_of s) <-> ~ In s amplitude_names.
Proof.
  unfold Amplitude.sign_of, amplitude_names, raises. simpl.
  destruct (String.eqb_spec s "maxima"); simpl.
  { split; [intros [x Hx]; discriminate | intro H; exfalso; apply H; auto]. }
  destruct (String.eqb_spec s "pericenters"); simpl.
  { split; [intros [x Hx]; discriminate | intro H; exfalso; apply H; auto]. }
  destruct (String.eqb_spec s "minima"); simpl.
  { split; [intros [x Hx]; discriminate | intro H; exfalso; apply H; auto]. }
  destruct (String.eqb_spec s "apocenters"); simpl.
  { split; [intros [x Hx]; discriminate | intro H; exfalso; apply H; auto 6]. }
  split; [|intros _; eexists; reflexivity].
  intros _ [H|[H|[H|[H|[]]]]]; congruence.
Qed.

Lemma frequency_sign_of_raises (s : string) :
  raises (FrequencyFits.sign_of s) <-> ~ In s frequency_fit_names.
Proof.
  unfold FrequencyFits.sign_of, frequency_fit_names, raises. simpl.
  destruct (String.eqb_spec s "maxima"); simpl.
  { split; [intros [x Hx]; discriminate | intro H; exfalso; apply H; auto]. }
  destruct (String.eqb_spec s "peaks"); simpl.
  { split; [intros [x Hx]; discriminate | intro H; exfalso; apply H; auto]. }
  destruct (String.eqb_spec s "minima"); simpl.
  { split; [intros [x Hx]; discriminate | intro H; exfalso; apply H; auto]. }
  destruct (String.eqb_spec s "troughs"); simpl.
  { split; [intros [x Hx]; discriminate | intro H; exfalso; apply H; auto 6]. }
  split; [|intros _; eexists; reflexivity].
  intros _ [H|[H|[H|[H|[]]]]]; congruence.
Qed.

Lemma sign_of_raise_frequency (s : string) :
  ~ In s frequency_fit_names -> FrequencyFits.sign_of s = Raise UnknownExtremaType.
Proof.
  intro H. apply frequency_sign_of_raises in H. destruct H as [e He].
  unfold FrequencyFits.sign_of in *.
  repeat match goal with
         | H : context [if ?b then _ else _] |- _ => destruct b; try discriminate
         end.
  reflexivity.
Qed.

Lemma sign_of_raise_amplitude (s : string) :
  ~ In s amplitude_names -> Amplitude.sign_of s = Raise BadExtremaType.
Proof.
  intro H. apply amplitude_sign_of_raises in H. destruct H as [e He].
  unfold Amplitude.sign_of in *.
  repeat match goal with
         | H : context [if ?b then _ else _] |- _ => destruct b; try discriminate
         end.
  reflexivity.
Qed.

(** ** C3: evaluation of the trend model *)

(** C3 as stated fails: at an evaluation time equal to [T] the guard
    [t.max() > T] does not fire and the call returns. Here
    [t = [3, 5]], [(f0, f1, T) = (1, -1, 5)], [t0 = 0]. *)
Lemma C3_counterexample_t_equal_T :
  let p := mkParams 1 (-1) 5 in
  (exists ti, In ti [3; 5]%Q /\ (T p <= ti)%Q) /\
  ~ raises (envelope_call int_rpow 0 [3; 5]%Q p) /\
  returns (envelope_call int_rpow 0 [3; 5]%Q p).
Proof.
  simpl. split; [|split].
  - exists 5%Q. split; [right; now left | apply Qle_refl].
  - intros [e He]. vm_compute in He. discriminate.
  - eexists. vm_compute. reflexivity.
Qed.

(** C3 (amended). For a non-empty array of evaluation times and
    [f0 <> 0], envelope_fitting_function.__call__ raises its
    merger-time exception whenever some evaluation time is strictly
    greater than [T]; when every evaluation time is at most [T]
    (equality included) it returns [A*(T-t)^n] element-wise, with
    [n = -(T-t0)*f1/f0] and [A = f0*(T-t0)^(-n)]. *)
Theorem C3_envelope_call_guard (rpow : Q -> Q -> Q) (t0 : Q) (t : list Q) (p : params)
  (Hne : t <> []) (Hf0 : ~ (f0 p == 0)%Q) :
  ((exists ti, In ti t /\ (T p < ti)%Q) ->
     envelope_call rpow t0 t p = Raise MergerTimeWithinSeries) /\
  ((forall ti, In ti t -> (ti <= T p)%Q) ->
     let n := (- (T p - t0) * f1 p / f0 p)%Q in
     let A := (f0 p * rpow (T p - t0) (- n))%Q in
     envelope_call rpow t0 t p = Ok (map (fun ti => (A * rpow (T p - ti) n)%Q) t)).
Proof.
  destruct (np_max_nonempty t Hne) as [m Hm].
  destruct (np_max_spec t m Hm) as [Hin Hub].
  unfold envelope_call. rewrite Hm. simpl. split.
  - intros [ti [Hti Hlt]].
    assert (E : Qgtb m (T p) = true).
    { apply Qltb_lt. eapply Qlt_le_trans; [exact Hlt | exact (Hub ti Hti)]. }
    now rewrite E.
  - intros Hall.
    assert (E : Qgtb m (T p) = false).
    { apply Qltb_ge. exact (Hall m Hin). }
    rewrite E. reflexivity.
Qed.

Lemma C3_envelope_call_guard_witness :
  envelope_call int_rpow 0 [3; 6]%Q (mkParams 1 (-1) 5) = Raise MergerTimeWithinSeries /\
  envelope_call int_rpow 0 [3; 5]%Q (mkParams 1 (-1) 5)
  = Ok (map (fun ti => (1 * int_rpow (5 - 0) (- (- (5 - 0) * (-1) / 1))
                        * int_rpow (5 - ti) (- (5 - 0) * (-1) / 1))%Q) [3; 5]%Q).
Proof.
  assert (Hne6 : [3; 6]%Q <> []) by discriminate.
  assert (Hne5 : [3; 5]%Q <> []) by discriminate.
  assert (Hf0 : ~ (f0 (mkParams 1 (-1) 5) == 0)%Q) by (simpl; discriminate).
  split.
  - apply (proj1 (C3_envelope_call_guard int_rpow 0 [3; 6]%Q (mkParams 1 (-1) 5) Hne6 Hf0)).
    exists 6%Q. split; [right; now left | reflexivity].
  - apply (proj2 (C3_envelope_call_guard int_rpow 0 [3; 5]%Q (mkParams 1 (-1) 5) Hne5 Hf0)).
    intros ti [<-|[<-|[]]]; discriminate.
Defined.

(** ** C7: the bounds on [T] in the global fit *)

Lemma first_true_bound (mask : list bool) (i j : Z) :
  first_true mask i = Some j -> i <= j < i + len mask.
Proof.
  revert i. induction mask as [|b mask IH]; intro i; cbn [first_true]; [discriminate|].
  assert (Hl : len (b :: mask) = 1 + len mask)
    by (unfold len; cbn [List.length]; lia).
  rewrite Hl. assert (H0 : 0 <= len mask) by (unfold len; lia).
  destruct b.
  - intro H. injection H as <-. lia.
  - intro H. apply IH in H. lia.
Qed.

Lemma argmax_mask_bound (mask : list bool) :
  0 <= argmax_mask mask /\ (mask <> [] -> argmax_mask mask < len mask).
Proof.
  unfold argmax_mask. destruct (first_true mask 0) eqn:E.
  - apply first_true_bound in E. lia.
  - split; [lia|]. intro H. destruct mask; [congruence|].
    unfold len. cbn [List.length]. lia.
Qed.

Lemma increasingb_head (x : Q) (l : list Q) :
  increasingb (x :: l) = true -> forall y, In y l -> (x < y)%Q.
Proof.
  revert x. induction l as [|a l IH]; intros x H y Hy; [destruct Hy|].
  simpl in H. apply andb_true_iff in H. destruct H as [Hxa Hrest].
  apply Qltb_lt in Hxa. destruct Hy as [<-|Hy]; [exact Hxa|].
  eapply Qlt_trans; [exact Hxa | exact (IH a Hrest y Hy)].
Qed.

Lemma increasingb_tail (x : Q) (l : list Q) :
  increasingb (x :: l) = true -> increasingb l = true.
Proof.
  destruct l as [|a l]; [reflexivity|].
  simpl. intro H. apply andb_true_iff in H. exact (proj2 H).
Qed.

Lemma increasingb_firstn_lt_last (l : list Q) (k : nat) (d : Q) :
  increasingb l = true -> (k < List.length l)%nat ->
  forall y, In y (firstn k l) -> (y < last l d)%Q.
Proof.
  revert k. induction l as [|x l IH]; intros k Hinc Hk y Hy.
  - simpl in Hk. lia.
  - destruct k as [|k]; [destruct Hy|].
    simpl in Hk. destruct l as [|a l]; [simpl in Hk; lia|].
    change (last (x :: a :: l) d) with (last (a :: l) d).
    simpl firstn in Hy. destruct Hy as [<-|Hy].
    + apply (increasingb_head x (a :: l) Hinc).
      destruct (exists_last (l := a :: l)) as [l' [z Hz]]; [discriminate|].
      rewrite Hz, last_last. apply in_or_app. right. now left.
    + apply (IH k); [exact (increasingb_tail _ _ Hinc) | simpl in Hk |- *; lia | exact Hy].
Qed.

Lemma py_index_last (l : list Q) (v d : Q) :
  py_index l (-1) = Ok v -> v = last l d.
Proof.
  unfold py_index. change (-1 <? 0) with true. cbv zeta iota.
  destruct ((-1 + len l <? 0) || (len l <=? -1 + len l)) eqn:E; [discriminate|].
  destruct (nth_error l (Z.to_nat (-1 + len l))) eqn:En; [|discriminate].
  intro H. injection H as <-.
  destruct (exists_last (l := l)) as [l' [z Hz]].
  { intro Hnil. subst l. discriminate. }
  subst l. rewrite last_last.
  unfold len in En. rewrite length_app in En. cbn [List.length] in En.
  replace (Z.to_nat (-1 + Z.of_nat (List.length l' + 1))) with (List.length l') in En by lia.
  rewrite nth_error_app2 in En by lia.
  rewrite Nat.sub_diag in En. simpl in En. congruence.
Qed.

Lemma py_prefix_firstn (l : list Q) (hi : Z) :
  py_prefix l hi = firstn (Z.to_nat (slice_bound (len l) hi)) l.
Proof.
  unfold py_prefix, py_slice.
  assert (H0 : slice_bound (len l) 0 = 0).
  { unfold slice_bound. simpl. unfold len. lia. }
  rewrite H0. simpl. now rewrite Z.sub_0_r.
Qed.

Lemma py_index_ok_nonempty {A : Type} (l : list A) (i : Z) (a : A) :
  py_index l i = Ok a -> 0 < len l.
Proof.
  unfold py_index. cbv zeta.
  destruct ((_ <? 0) || (len l <=? _)) eqn:E; [discriminate|].
  intros _. apply orb_false_iff in E. destruct E as [E1 E2].
  apply Z.ltb_ge in E1. apply Z.leb_gt in E2. lia.
Qed.

(** C7 as stated fails when the analysed series ends after [t = 0]: for
    [t = [-100, 9, 10]] the fit uses the samples [[-100, 9]] and the
    bounds admit [T = 8]. *)
Lemma C7_counterexample_positive_end_time :
  exists gs,
    setup_global_fit [-100; 9; 10]%Q [0; 1; 2]%Q [1; 1; 1]%Q = Ok gs /\
    global_fit_times [-100; 9; 10]%Q gs = [-100; 9]%Q /\
    (T (lower (gs_bounds0 gs)) <= 8)%Q /\ (8 <= T (upper (gs_bounds0 gs)))%Q /\
    In 9%Q (global_fit_times [-100; 9; 10]%Q gs) /\ ~ (9 < 8)%Q.
Proof.
  eexists. split; [vm_compute; reflexivity|].
  split; [vm_compute; reflexivity|].
  split; [vm_compute; discriminate|].
  split; [vm_compute; discriminate|].
  split; [vm_compute; right; now left|].
  intro H. vm_compute in H. discriminate.
Qed.

(** C7 (amended). When the time samples are strictly increasing, the
    phase array has as many entries as the time array, and the last time
    sample is not positive (the series ends at or before the merger at
    [t = 0]), every value of [T] admitted by the bounds passed to the
    global least-squares fit is strictly greater than every time sample
    being fitted. *)
Theorem C7_T_bounds_beyond_fitted_times
  (t_analyse phase22_analyse omega22_analyse : list Q) (gs : global_setup)
  (Hsetup : setup_global_fit t_analyse phase22_analyse omega22_analyse = Ok gs)
  (Hlen : len phase22_analyse = len t_analyse)
  (Hinc : increasingb t_analyse = true)
  (Hend : (last t_analyse 0 <= 0)%Q) :
  forall Tv, (T (lower (gs_bounds0 gs)) <= Tv)%Q -> (Tv <= T (upper (gs_bounds0 gs)))%Q ->
  forall ti, In ti (global_fit_times t_analyse gs) -> (ti < Tv)%Q.
Proof.
  intros Tv Hlo _ ti Hti.
  unfold setup_global_fit in Hsetup.
  destruct (py_index phase22_analyse 0) as [ph0|] eqn:E1; [|discriminate].
  cbn [bind] in Hsetup.
  destruct (py_index t_analyse 0) as [tf|] eqn:E2; [|discriminate].
  cbn [bind] in Hsetup.
  destruct (py_index t_analyse (-1)) as [tl|] eqn:E3; [|discriminate].
  cbn [bind] in Hsetup.
  destruct (py_index omega22_analyse 0) as [o0|] eqn:E4; [|discriminate].
  cbn [bind] in Hsetup.
  match type of Hsetup with
  | context [py_index omega22_analyse ?i] =>
      destruct (py_index omega22_analyse i) as [oe|] eqn:E5; [|discriminate]
  end.
  cbn [bind] in Hsetup. injection Hsetup as <-.
  unfold global_fit_times in Hti. cbn [gs_idx_end gs_bounds0 lower T] in *.
  rewrite py_prefix_firstn in Hti.
  pose proof (py_index_ok_nonempty _ _ _ E2) as Hpos.
  pose proof (py_index_last _ _ 0%Q E3) as Hlast. subst tl.
  match type of Hti with
  | In _ (firstn ?k _) => assert (Hk : (k < List.length t_analyse)%nat)
  end.
  { unfold argmax_gt.
    match goal with
    | |- context [argmax_mask ?m] => set (mask := m)
    end.
    destruct (argmax_mask_bound mask) as [H0 Hlt].
    assert (Hm : len mask = len t_analyse).
    { unfold mask, len. rewrite length_map. exact Hlen. }
    assert (Hne : mask <> []).
    { intro Hnil. rewrite Hnil in Hm. unfold len in Hm, Hpos. simpl in Hm. lia. }
    specialize (Hlt Hne). unfold len in *.
    destruct (argmax_mask mask =? 0) eqn:Ez; unfold slice_bound.
    - change (-1 <? 0) with true. cbv iota. lia.
    - apply Z.eqb_neq in Ez.
      replace (argmax_mask mask <? 0) with false by (symmetry; apply Z.ltb_ge; lia).
      lia. }
  pose proof (increasingb_firstn_lt_last t_analyse _ 0%Q Hinc Hk ti Hti) as Hlt.
  eapply Qlt_le_trans; [exact Hlt|].
  eapply Qle_trans; [|exact Hlo]. lra.
Qed.

Lemma C7_T_bounds_beyond_fitted_times_witness :
  exists gs,
    setup_global_fit [-10; -2; -1]%Q [0; 1; 2]%Q [1; 1; 1]%Q = Ok gs /\
    forall Tv, (T (lower (gs_bounds0 gs)) <= Tv)%Q -> (Tv <= T (upper (gs_bounds0 gs)))%Q ->
    forall ti, In ti (global_fit_times [-10; -2; -1]%Q gs) -> (ti < Tv)%Q.
Proof.
  eexists. split; [vm_compute; reflexivity|].
  apply (C7_T_bounds_beyond_fitted_times [-10; -2; -1]%Q [0; 1; 2]%Q [1; 1; 1]%Q).
  - vm_compute. reflexivity.
  - reflexivity.
  - reflexivity.
  - vm_compute. discriminate.
Defined.

(** ** The tracker loop: decomposition of one pass *)

Ltac break_bind H :=
  match type of H with
  | context [bind ?m _] =>
      let E := fresh "E" in
      destruct m eqn:E; cbn [bind] in H; try discriminate
  end.

Ltac break_if H :=
  match type of H with
  | context [if ?b then _ else _] =>
      let E := fresh "E" in
      destruct b eqn:E; try discriminate
  end.

Section TrackerFacts.
Variable rpow : Q -> Q -> Q.
Variable find_peaks : list Q -> Z -> Q -> result (list Z).
Variable curve_fit :
  Q -> list Q -> list Q -> params -> bounds -> option Z -> result params.
Variable parabola_fit : list Q -> list Q -> result (Q * Q).
Variable cubic_fit_at : list Q -> list Q -> Q -> result Q.
Variable t0 : Q.
Variables t phase22 omega22 : list Q.
Variable sign : Z.
Variables Nbefore Nafter : Z.
Variable bnds : bounds.
Variable TOL : Q.
Variable increase_idx_ref_if_needed : bool.
Variable refine_extrema : bool.

Local Abbreviation detect' :=
  (detect rpow find_peaks t0 t phase22 omega22).
Local Abbreviation decide' :=
  (decide rpow curve_fit parabola_fit cubic_fit_at t0 t phase22 omega22
          Nbefore Nafter bnds TOL increase_idx_ref_if_needed refine_extrema).
Local Abbreviation body' :=
  (body rpow find_peaks curve_fit parabola_fit cubic_fit_at t0 t phase22 omega22
        sign Nbefore Nafter bnds TOL increase_idx_ref_if_needed refine_extrema).
Local Abbreviation loop' :=
  (tracker_loop rpow find_peaks curve_fit parabola_fit cubic_fit_at t0 t phase22
                omega22 sign Nbefore Nafter bnds TOL increase_idx_ref_if_needed
                refine_extrema).
Local Abbreviation conclude' :=
  (conclude curve_fit t0 bnds TOL).

Lemma body_decide (s : tstate) (st : step) :
  body' s = st -> (forall e, st <> Fail e) ->
  exists d, detect' sign s = Ok d /\ decide' s d = Ok st.
Proof.
  unfold body. intros H Hnf.
  destruct (detect' sign s) as [d|e] eqn:Ed; cbn [bind] in H.
  - exists d. split; [reflexivity|].
    destruct (decide' s d) as [st'|e] eqn:Edec; [congruence|].
    exfalso. exact (Hnf e (eq_sym H)).
  - exfalso. exact (Hnf e (eq_sym H)).
Qed.

(** What [conclude] can produce. *)
Lemma conclude_cases (s : tstate) (d : detection) (it : Z)
      (arrs : list Q * list Q * list Q) (K : Q) (C lo hi ref : Z) (st : step) :
  conclude' s d it arrs K C lo hi ref = Ok st ->
  let res := mkResult (d_idx_extrema d) (s_p s) K ref
                      (fst (fst arrs)) (snd (fst arrs)) (snd arrs) in
  (st = Return ExitShortfall res /\
   ((5 <=? C) || (d_N_extrema d <? 5) || (20 <? it)) = true) \/
  (st = Return ExitConverged res /\
   ((5 <=? C) || (d_N_extrema d <? 5) || (20 <? it)) = false) \/
  (exists p',
      curve_fit t0 (fst (fst arrs)) (snd (fst arrs)) (s_p s) bnds (Some 10000) = Ok p' /\
      st = Next Refitted
                (mkState lo hi ref K p' it (snd (fst arrs))
                         (s_old_idx_lo s) (s_old_idx_hi s) C None) /\
      ((5 <=? C) || (d_N_extrema d <? 5) || (20 <? it)) = false).
Proof.
  unfold conclude. destruct arrs as [[te oe] pe]. cbn [fst snd].
  intro H. break_bind H.
  destruct ((5 <=? C) || (d_N_extrema d <? 5) || (20 <? it)) eqn:Eexit.
  - left. injection H as <-. auto.
  - break_if H.
    + right. left. injection H as <-. auto.
    + break_bind H. right. right. injection H as <-. eauto.
Qed.

(** Every outcome of [decide] that is not an exception. *)
Lemma decide_cases (s : tstate) (d : detection) (st : step) :
  decide' s d = Ok st ->
  let it := s_it s + 1 in
  (st = Return ExitEarly
               (mkResult (d_idx_extrema d) (s_p s) (s_K s) (s_idx_ref s)
                         (d_t_extrema d) (d_omega22_extrema d) (d_phase22_extrema d)) /\
   (d_N_extrema d = 0 \/ 20 < it)) \/
  (d_N_extrema d <> 0 /\ it <= 20 /\
   exists arrs K,
     refine rpow parabola_fit cubic_fit_at t0 t phase22 omega22 refine_extrema (s_p s) d
       = Ok arrs /\
     update_K (s_K s) (d_N_extrema d) (snd arrs) = Ok K /\
     let C := if d_Nright d <? Nafter then s_Count_Nright_short s + 1
              else s_Count_Nright_short s in
     ((d_Nleft d = Nbefore /\ d_Nright d = Nafter /\
       conclude' s d it arrs K C (s_idx_lo s) (s_idx_hi s) (s_idx_ref s) = Ok st) \/
      ((d_Nleft d <> Nbefore \/ d_Nright d <> Nafter) /\
       exists lo hi ref Nright',
         adjust_left phase22 Nbefore increase_idx_ref_if_needed
                     (d_idx_extrema d) (s_idx_lo s) (s_idx_ref s) K
                     (d_Nleft d) (d_Nright d) = Ok (lo, ref, Nright') /\
         adjust_right phase22 Nafter (d_idx_extrema d) (s_idx_hi s) K Nright' = Ok hi /\
         (((lo <> s_old_idx_lo s \/ hi <> s_old_idx_hi s) /\
           st = Next WindowChanged
                     (mkState lo hi ref K (s_p s) it (s_old_extrema s)
                              lo hi C (Some (d_width d, d_prominence d)))) \/
          (lo = s_old_idx_lo s /\ hi = s_old_idx_hi s /\
           conclude' s d it arrs K C lo hi ref = Ok st))))).
Proof.
  unfold decide. intro H. cbv zeta.
  destruct ((d_N_extrema d =? 0) || (20 <? s_it s + 1)) eqn:Eearly.
  { left. injection H as <-. split; [reflexivity|].
    apply orb_true_iff in Eearly. destruct Eearly as [E|E];
      [left; apply Z.eqb_eq in E | right; apply Z.ltb_lt in E]; assumption. }
  right. apply orb_false_iff in Eearly. destruct Eearly as [E1 E2].
  apply Z.eqb_neq in E1. apply Z.ltb_ge in E2.
  split; [exact E1|]. split; [exact E2|].
  break_bind H. break_bind H.
  match type of E with _ = Ok ?x => exists x end.
  match type of E0 with _ = Ok ?x => exists x end.
  split; [first [reflexivity | eassumption]|].
  split; [first [reflexivity | eassumption]|]. cbv zeta.
  destruct (negb (d_Nleft d =? Nbefore) || negb (d_Nright d =? Nafter)) eqn:Emis.
  - right. split.
    { apply orb_true_iff in Emis. destruct Emis as [Em|Em];
        apply negb_true_iff in Em; apply Z.eqb_neq in Em; auto. }
    break_bind H. destruct a1 as [[lo ref] Nright']. break_bind H.
    exists lo, a1, ref, Nright'.
    split; [first [reflexivity | eassumption]|].
    split; [first [reflexivity | eassumption]|].
    destruct (negb ((lo =? s_old_idx_lo s) && (a1 =? s_old_idx_hi s))) eqn:Ech.
    + left. split.
      * apply negb_true_iff in Ech. apply andb_false_iff in Ech.
        destruct Ech as [Ec|Ec]; apply Z.eqb_neq in Ec; auto.
      * now injection H as <-.
    + right. apply negb_false_iff in Ech. apply andb_true_iff in Ech.
      destruct Ech as [Ec1 Ec2]. apply Z.eqb_eq in Ec1. apply Z.eqb_eq in Ec2.
      auto.
  - left. apply orb_false_iff in Emis. destruct Emis as [Em1 Em2].
    apply negb_false_iff in Em1. apply negb_false_iff in Em2.
    apply Z.eqb_eq in Em1. apply Z.eqb_eq in Em2. auto.
Qed.

(** The pass counter goes up by one on every way back to the top, and
    no pass beyond the 20th goes back to the top. *)
Lemma body_next_it (s s' : tstate) (why : again) :
  body' s = Next why s' -> s_it s' = s_it s + 1 /\ s_it s + 1 <= 20.
Proof.
  intro H. destruct (body_decide s _ H) as [d [Hd Hdec]]; [discriminate|].
  destruct (decide_cases s d _ Hdec) as [[Hst _]|[_ [Hit [arrs [K [_ [_ Hrest]]]]]]];
    [discriminate|].
  cbv zeta in Hrest.
  assert (Hc : forall C lo hi ref,
             conclude' s d (s_it s + 1) arrs K C lo hi ref = Ok (Next why s') ->
             s_it s' = s_it s + 1).
  { intros C lo hi ref Hc.
    destruct (conclude_cases _ _ _ _ _ _ _ _ _ _ Hc)
      as [[Hst _]|[[Hst _]|[p' [_ [Hst _]]]]]; try discriminate.
    injection Hst as _ ->. reflexivity. }
  split; [|exact Hit].
  destruct Hrest as [[_ [_ Hcon]]|[_ [lo [hi [ref [Nr [_ [_ [[_ Hst]|[_ [_ Hcon]]]]]]]]]]].
  - exact (Hc _ _ _ _ Hcon).
  - injection Hst as _ ->. reflexivity.
  - exact (Hc _ _ _ _ Hcon).
Qed.

(** The loop returns or raises within [21 - it] passes. *)
Lemma tracker_loop_fuel (fuel : nat) (s : tstate) :
  s_it s <= 20 -> (Z.to_nat (21 - s_it s) <= fuel)%nat ->
  exists r, loop' fuel s = Some r.
Proof.
  revert s. induction fuel as [|fuel IH]; intros s Hit Hfuel; [lia|].
  cbn [tracker_loop]. destruct (body' s) as [site r|why s'|e] eqn:Eb.
  - eexists; reflexivity.
  - destruct (body_next_it s s' why Eb) as [Hs' Hle].
    apply IH; lia.
  - eexists; reflexivity.
Qed.

Lemma tracker_loop_more_fuel (fuel fuel' : nat) (s : tstate) (r : result tracker_result) :
  loop' fuel s = Some r -> (fuel <= fuel')%nat -> loop' fuel' s = Some r.
Proof.
  revert fuel' s. induction fuel as [|fuel IH]; intros fuel' s H Hle; [discriminate|].
  destruct fuel' as [|fuel']; [lia|].
  cbn [tracker_loop] in *. destruct (body' s); try assumption.
  apply IH; [assumption | lia].
Qed.

(** The arrays computed at lines 556-558 are the series at the extrema. *)
Lemma detect_arrays (s : tstate) (d : detection) :
  detect' sign s = Ok d ->
  take_at t (d_idx_extrema d) = Ok (d_t_extrema d) /\
  take_at omega22 (d_idx_extrema d) = Ok (d_omega22_extrema d) /\
  take_at phase22 (d_idx_extrema d) = Ok (d_phase22_extrema d).
Proof.
  unfold detect. intro H. cbv zeta in H.
  repeat break_bind H. injection H as <-. cbn. auto.
Qed.

Lemma set_nth_length {A : Type} (l : list A) (k : nat) (v : A) :
  List.length (set_nth l k v) = List.length l.
Proof.
  revert k. induction l as [|a l IH]; intros [|k]; simpl; auto.
Qed.

Lemma take_at_length {A : Type} (l : list A) (idx : list Z) (r : list A) :
  take_at l idx = Ok r -> List.length r = List.length idx.
Proof.
  revert r. induction idx as [|i idx IH]; intros r H; cbn [take_at] in H.
  - now injection H as <-.
  - break_bind H. break_bind H. injection H as <-. simpl. f_equal. now apply IH.
Qed.

Lemma refine_one_shape (p : params) (arrs arrs' : list Q * list Q * list Q) (k : nat) :
  refine_one rpow parabola_fit cubic_fit_at t0 t phase22 omega22 p arrs k = Ok arrs' ->
  same_shape arrs' arrs.
Proof.
  unfold refine_one. destruct arrs as [[te oe] pe]. intro H.
  break_bind H. break_bind H. break_if H.
  - repeat break_bind H. destruct a3 as [tm pm]. repeat break_bind H.
    injection H as <-. unfold same_shape. cbn [fst snd].
    now rewrite !set_nth_length.
  - injection H as <-. unfold same_shape. auto.
Qed.

Lemma refine_from_shape (p : params) (n k : nat) (arrs arrs' : list Q * list Q * list Q) :
  refine_from rpow parabola_fit cubic_fit_at t0 t phase22 omega22 p arrs k n = Ok arrs' ->
  same_shape arrs' arrs.
Proof.
  revert k arrs. induction n as [|n IH]; intros k arrs H; cbn [refine_from] in H.
  - injection H as <-. unfold same_shape. auto.
  - break_bind H. apply IH in H. apply refine_one_shape in E.
    unfold same_shape in *. intuition congruence.
Qed.

Lemma refine_shape (p : params) (d : detection) (arrs : list Q * list Q * list Q) :
  refine rpow parabola_fit cubic_fit_at t0 t phase22 omega22 refine_extrema p d = Ok arrs ->
  same_shape arrs (d_t_extrema d, d_omega22_extrema d, d_phase22_extrema d) /\
  (refine_extrema = false ->
   arrs = (d_t_extrema d, d_omega22_extrema d, d_phase22_extrema d)).
Proof.
  unfold refine. destruct refine_extrema; intro H.
  - split; [exact (refine_from_shape _ _ _ _ _ H) | discriminate].
  - injection H as <-. split; [unfold same_shape; auto | reflexivity].
Qed.

(** What a returning pass hands back. *)
Lemma body_return (s : tstate) (site : exit_site) (r : tracker_result) :
  body' s = Return site r ->
  exists d, detect' sign s = Ok d /\
    r_idx_extrema r = d_idx_extrema d /\ r_p r = s_p s /\
    ((site = ExitEarly /\ r_idx_ref r = s_idx_ref s /\ r_K r = s_K s /\
      (r_t_extrema r, r_omega22_extrema r, r_phase22_extrema r)
      = (d_t_extrema d, d_omega22_extrema d, d_phase22_extrema d)) \/
     (site <> ExitEarly /\
      refine rpow parabola_fit cubic_fit_at t0 t phase22 omega22 refine_extrema (s_p s) d
      = Ok (r_t_extrema r, r_omega22_extrema r, r_phase22_extrema r))).
Proof.
  intro H. destruct (body_decide s _ H) as [d [Hd Hdec]]; [discriminate|].
  exists d. split; [exact Hd|].
  destruct (decide_cases s d _ Hdec) as [[Hst _]|[_ [Hit [arrs [K [Href [_ Hrest]]]]]]].
  { injection Hst as -> ->. cbn. auto 8. }
  cbv zeta in Hrest.
  assert (Hc : forall C lo hi ref,
             conclude' s d (s_it s + 1) arrs K C lo hi ref = Ok (Return site r) ->
             r_idx_extrema r = d_idx_extrema d /\ r_p r = s_p s /\
             site <> ExitEarly /\
             arrs = (r_t_extrema r, r_omega22_extrema r, r_phase22_extrema r)).
  { intros C lo hi ref Hc. destruct arrs as [[te oe] pe].
    destruct (conclude_cases _ _ _ _ _ _ _ _ _ _ Hc)
      as [[Hst _]|[[Hst _]|[p' [_ [Hst _]]]]]; try discriminate;
      injection Hst as -> ->; cbn; repeat split; discriminate. }
  assert (Hfin : r_idx_extrema r = d_idx_extrema d /\ r_p r = s_p s /\
                 site <> ExitEarly /\
                 arrs = (r_t_extrema r, r_omega22_extrema r, r_phase22_extrema r)).
  { destruct Hrest as [[_ [_ Hcon]]|[_ [lo [hi [ref [Nr [_ [_ [[_ Hst]|[_ [_ Hcon]]]]]]]]]]];
      [exact (Hc _ _ _ _ Hcon) | discriminate | exact (Hc _ _ _ _ Hcon)]. }
  destruct Hfin as [H1 [H2 [H3 H4]]]. split; [exact H1|]. split; [exact H2|].
  right. split; [exact H3|]. now rewrite <- H4.
Qed.

(** The three arrays handed back have one entry per extremum; with
    refinement off they are the series at the extrema. *)
Lemma body_return_arrays (s : tstate) (site : exit_site) (r : tracker_result) :
  body' s = Return site r ->
  (List.length (r_t_extrema r) = List.length (r_idx_extrema r) /\
   List.length (r_omega22_extrema r) = List.length (r_idx_extrema r) /\
   List.length (r_phase22_extrema r) = List.length (r_idx_extrema r)) /\
  (refine_extrema = false ->
   take_at t (r_idx_extrema r) = Ok (r_t_extrema r) /\
   take_at omega22 (r_idx_extrema r) = Ok (r_omega22_extrema r) /\
   take_at phase22 (r_idx_extrema r) = Ok (r_phase22_extrema r)).
Proof.
  intro H. destruct (body_return s site r H) as [d [Hd [Hidx [_ Hcase]]]].
  destruct (detect_arrays s d Hd) as [Ht [Ho Hp]].
  pose proof (take_at_length _ _ _ Ht) as Lt.
  pose proof (take_at_length _ _ _ Ho) as Lo.
  pose proof (take_at_length _ _ _ Hp) as Lp.
  rewrite Hidx.
  destruct Hcase as [[_ [_ [_ Harr]]]|[_ Href]].
  - injection Harr as -> -> ->. auto.
  - destruct (refine_shape _ _ _ Href) as [[S1 [S2 S3]] Hoff]. cbn [fst snd] in *.
    split; [rewrite S1, S2, S3; auto|].
    intro Hf. specialize (Hoff Hf). injection Hoff as -> -> ->. auto.
Qed.

(** Invariants of the loop carry over to what it returns. *)
Lemma loop_invariant (P : tstate -> Prop) (R : tracker_result -> Prop) :
  (forall s why s', P s -> body' s = Next why s' -> P s') ->
  (forall s site r, P s -> body' s = Return site r -> R r) ->
  forall fuel s r, P s -> loop' fuel s = Some (Ok r) -> R r.
Proof.
  intros Hnext Hret. induction fuel as [|fuel IH]; intros s r HP H; [discriminate|].
  cbn [tracker_loop] in H. destruct (body' s) as [site r'|why s'|e] eqn:Eb.
  - injection H as <-. exact (Hret s site r' HP Eb).
  - exact (IH s' r (Hnext s why s' HP Eb) H).
  - discriminate.
Qed.
End TrackerFacts.

(** ** Lists of peak positions *)

Lemma py_index_nth {A : Type} (l : list A) (i : Z) (a : A) :
  0 <= i -> py_index l i = Ok a -> nth_error l (Z.to_nat i) = Some a.
Proof.
  intros Hi. unfold py_index.
  replace (i <? 0) with false by (symmetry; apply Z.ltb_ge; lia).
  cbv zeta iota. destruct ((i <? 0) || (len l <=? i)); [discriminate|].
  destruct (nth_error l (Z.to_nat i)); [congruence | discriminate].
Qed.

Lemma py_index_In {A : Type} (l : list A) (i : Z) (a : A) :
  py_index l i = Ok a -> In a l.
Proof.
  unfold py_index. cbv zeta.
  destruct (_ || _); [discriminate|].
  destruct (nth_error l _) eqn:E; [|discriminate].
  intro H. injection H as <-. eapply nth_error_In; eauto.
Qed.

Lemma StronglySorted_nth (l : list Z) (i j : nat) (a b : Z) :
  StronglySorted apart l -> (i < j)%nat ->
  nth_error l i = Some a -> nth_error l j = Some b -> apart a b.
Proof.
  intro Hs. revert i j. induction Hs as [|x l Hs IH Hx]; intros i j Hij Hi Hj.
  - destruct i; discriminate.
  - destruct j as [|j]; [lia|]. destruct i as [|i]; simpl in Hi, Hj.
    + injection Hi as <-. rewrite Forall_forall in Hx. apply Hx.
      eapply nth_error_In; eauto.
    + apply (IH i j); [lia | assumption | assumption].
Qed.

Lemma StronglySorted_shift (k : Z) (l : list Z) :
  StronglySorted apart l -> StronglySorted apart (map (fun i => i + k) l).
Proof.
  induction 1 as [|x l Hs IH Hx]; simpl; constructor; [assumption|].
  rewrite Forall_forall in *. intros y Hy. apply in_map_iff in Hy.
  destruct Hy as [z [<- Hz]]. specialize (Hx z Hz). unfold apart in *. lia.
Qed.

Lemma first_true_nth (mask : list bool) (i j : Z) :
  first_true mask i = Some j ->
  nth_error mask (Z.to_nat (j - i)) = Some true.
Proof.
  revert i. induction mask as [|b mask IH]; intro i; cbn [first_true]; [discriminate|].
  destruct b.
  - intro H. injection H as <-. now rewrite Z.sub_diag.
  - intro H. pose proof (first_true_bound _ _ _ H) as Hb.
    apply IH in H.
    replace (Z.to_nat (j - i)) with (S (Z.to_nat (j - (i + 1)))) by lia.
    exact H.
Qed.

Lemma count_true_pos_first (mask : list bool) (i : Z) :
  0 < count_true mask -> exists j, first_true mask i = Some j.
Proof.
  revert i. induction mask as [|b mask IH]; intro i.
  - unfold count_true, len. simpl. lia.
  - cbn [first_true]. destruct b; [eexists; reflexivity|].
    intro H. apply IH. exact H.
Qed.

(** The first extremum at or after [idx_ref] and its successor. *)
Lemma first_at_or_after (ext : list Z) (ref a b : Z) :
  StronglySorted apart ext ->
  0 < count_true (map (fun i => ref <=? i) ext) ->
  let tmp := argmax_mask (map (fun i => ref <=? i) ext) in
  py_index ext tmp = Ok a -> py_index ext (tmp + 1) = Ok b ->
  ref <= a /\ apart a b.
Proof.
  intros Hs Hpos tmp Ha Hb.
  destruct (count_true_pos_first _ 0 Hpos) as [j Hj].
  assert (Htmp : tmp = j) by (unfold tmp, argmax_mask; now rewrite Hj).
  pose proof (first_true_bound _ _ _ Hj) as Hbound.
  pose proof (first_true_nth _ _ _ Hj) as Hnth.
  rewrite Z.sub_0_r in Hnth. rewrite Htmp in Ha, Hb.
  apply py_index_nth in Ha; [|lia]. apply py_index_nth in Hb; [|lia].
  split.
  - rewrite nth_error_map, Ha in Hnth. simpl in Hnth.
    injection Hnth as Hle. now apply Z.leb_le in Hle.
  - apply (StronglySorted_nth ext (Z.to_nat j) (Z.to_nat (j + 1)) a b Hs); [lia | assumption | assumption].
Qed.

Lemma np_sub_length (a b r : list Q) :
  np_sub a b = Ok r -> List.length r = List.length a.
Proof.
  revert b r. induction a as [|x a IH]; intros [|y b] r H; cbn [np_sub] in H;
    try discriminate.
  - now injection H as <-.
  - break_bind H. injection H as <-. simpl. f_equal. eauto.
Qed.

Lemma py_slice_length {A : Type} (l : list A) (lo hi : Z) :
  0 <= lo -> 0 <= hi -> len (py_slice l lo hi) <= Z.max 0 (hi - lo).
Proof.
  intros Hlo Hhi. unfold py_slice, slice_bound, len.
  replace (lo <? 0) with false by (symmetry; apply Z.ltb_ge; lia).
  replace (hi <? 0) with false by (symmetry; apply Z.ltb_ge; lia).
  rewrite length_firstn, length_skipn. lia.
Qed.

Lemma int_mid_between (a b : Z) : apart a b -> a < int_mid a b <= b.
Proof.
  unfold apart, int_mid. intro H. Z.to_euclidean_division_equations. lia.
Qed.

Lemma int_mid_range (a b lo hi : Z) :
  lo < a < hi -> lo < b < hi -> lo < int_mid a b < hi.
Proof.
  unfold int_mid. intros Ha Hb. Z.to_euclidean_division_equations. lia.
Qed.

Section TrackerPeaks.
Variable rpow : Q -> Q -> Q.
Variable find_peaks : list Q -> Z -> Q -> result (list Z).
Variable curve_fit :
  Q -> list Q -> list Q -> params -> bounds -> option Z -> result params.
Variable parabola_fit : list Q -> list Q -> result (Q * Q).
Variable cubic_fit_at : list Q -> list Q -> Q -> result Q.
Variable t0 : Q.
Variables t phase22 omega22 : list Q.
Variable sign : Z.
Variables Nbefore Nafter : Z.
Variable bnds : bounds.
Variable TOL : Q.
Variable increase_idx_ref_if_needed : bool.
Variable refine_extrema : bool.

Hypothesis peaks_contract : find_peaks_contract find_peaks.

Local Abbreviation detect' :=
  (detect rpow find_peaks t0 t phase22 omega22 sign).
Local Abbreviation body' :=
  (body rpow find_peaks curve_fit parabola_fit cubic_fit_at t0 t phase22 omega22
        sign Nbefore Nafter bnds TOL increase_idx_ref_if_needed refine_extrema).
Local Abbreviation loop' :=
  (tracker_loop rpow find_peaks curve_fit parabola_fit cubic_fit_at t0 t phase22
                omega22 sign Nbefore Nafter bnds TOL increase_idx_ref_if_needed
                refine_extrema).
Local Abbreviation adjust_left' :=
  (adjust_left phase22 Nbefore increase_idx_ref_if_needed).
Local Abbreviation adjust_right' :=
  (adjust_right phase22 Nafter).

(** What the detection step knows about the extrema it found. *)
Lemma detect_peaks (s : tstate) (d : detection) :
  detect' s = Ok d ->
  d_Nleft d = count_true (map (fun i => i <? s_idx_ref s) (d_idx_extrema d)) /\
  d_Nright d = count_true (map (fun i => s_idx_ref s <=? i) (d_idx_extrema d)) /\
  StronglySorted apart (d_idx_extrema d) /\
  (0 <= s_idx_lo s -> 0 <= s_idx_hi s ->
   Forall (fun i => s_idx_lo s < i < s_idx_hi s - 1) (d_idx_extrema d)).
Proof.
  unfold detect. intro H. cbv zeta in H.
  destruct (window_residual rpow t0 t omega22 (s_idx_lo s) (s_idx_hi s) (s_p s))
    as [res|] eqn:Eres; cbn [bind] in H; [|discriminate].
  break_bind H.
  match type of H with
  | context [find_peaks ?x ?w ?pr] =>
      destruct (find_peaks x w pr) as [peaks|] eqn:Epeaks; cbn [bind] in H; [|discriminate]
  end.
  pose proof (peaks_contract _ _ _ _ Epeaks) as [Hsorted Hrange].
  repeat break_bind H. injection H as <-. cbn.
  split; [reflexivity|]. split; [reflexivity|].
  split; [now apply StronglySorted_shift|].
  intros Hlo Hhi.
  assert (Hlen : len (map (fun v : Q => (inject_Z sign * v)%Q) res)
                 <= Z.max 0 (s_idx_hi s - s_idx_lo s)).
  { unfold len. rewrite length_map.
    unfold window_residual in Eres. break_bind Eres.
    rewrite (np_sub_length _ _ _ Eres).
    apply (py_slice_length omega22 _ _ Hlo Hhi). }
  rewrite Forall_forall in *. intros y Hy. apply in_map_iff in Hy.
  destruct Hy as [z [<- Hz]]. specialize (Hrange z Hz). cbv beta in Hrange. lia.
Qed.

Local Abbreviation decide' :=
  (decide rpow curve_fit parabola_fit cubic_fit_at t0 t phase22 omega22
          Nbefore Nafter bnds TOL increase_idx_ref_if_needed refine_extrema).
Local Abbreviation conclude' :=
  (conclude curve_fit t0 bnds TOL).

Lemma conclude_idx_ref (s : tstate) (d : detection) (it : Z)
      (arrs : list Q * list Q * list Q) (K : Q) (C lo hi ref : Z) (st : step) :
  conclude' s d it arrs K C lo hi ref = Ok st -> step_idx_ref st = Some ref.
Proof.
  intro H.
  destruct (conclude_cases _ _ _ _ _ _ _ _ _ _ _ _ _ _ H)
    as [[-> _]|[[-> _]|[p' [_ [-> _]]]]]; reflexivity.
Qed.

(** Line 666 is the only assignment to [idx_ref]. *)
Lemma adjust_left_ref (ext : list Z) (lo ref : Z) (K : Q) (Nleft Nright : Z)
      (lo' ref' Nr' : Z) :
  StronglySorted apart ext ->
  Nright = count_true (map (fun i => ref <=? i) ext) ->
  adjust_left' ext lo ref K Nleft Nright = Ok (lo', ref', Nr') ->
  (ref' = ref /\ Nr' = Nright) \/
  (increase_idx_ref_if_needed = true /\ Nleft < Nbefore /\ lo = 0 /\ lo' = 0 /\
   2 <= Nright /\ Nr' = Nright - 1 /\
   exists a b,
     py_index ext (argmax_mask (map (fun i => ref <=? i) ext)) = Ok a /\
     py_index ext (argmax_mask (map (fun i => ref <=? i) ext) + 1) = Ok b /\
     ref <= a /\ apart a b /\ ref' = int_mid a b).
Proof.
  intros Hs HNr H. unfold adjust_left in H.
  break_if H.
  { repeat break_bind H. injection H as _ <- <-. now left. }
  break_if H; [|injection H as _ <- <-; now left].
  break_if H.
  - break_if H. break_if H.
    + repeat break_bind H. injection H as <- <- <-.
      apply Z.ltb_lt in E0. apply Z.eqb_eq in E1. apply Z.leb_le in E3.
      right. repeat (split; [first [reflexivity | assumption | lia]|]).
      exists a, a0.
      assert (Hpos : 0 < count_true (map (fun i => ref <=? i) ext)) by lia.
      destruct (first_at_or_after ext ref a a0 Hs Hpos E4 E5) as [Hra Hab].
      auto.
    + injection H as _ <- <-. now left.
  - repeat break_bind H. injection H as _ <- <-. now left.
Qed.

(** The reference index after one pass. *)
Lemma body_idx_ref (s : tstate) (st : step) (ref' : Z) :
  body' s = st -> step_idx_ref st = Some ref' ->
  ref' = s_idx_ref s \/
  (increase_idx_ref_if_needed = true /\
   exists d a b, detect' s = Ok d /\
     In a (d_idx_extrema d) /\ In b (d_idx_extrema d) /\
     s_idx_ref s <= a /\ apart a b /\ ref' = int_mid a b).
Proof.
  intros H Href.
  destruct (body_decide rpow find_peaks curve_fit parabola_fit cubic_fit_at t0 t phase22 omega22
                        sign Nbefore Nafter bnds TOL increase_idx_ref_if_needed
                        refine_extrema s st H) as [d [Hd Hdec]].
  { intros e ->. discriminate. }
  destruct (detect_peaks s d Hd) as [_ [HNr [Hs _]]].
  destruct (decide_cases _ _ _ _ _ _ _ _ _ _ _ _ _ _ _ _ _ Hdec)
    as [[Hst _]|[_ [Hit [arrs [K [_ [_ Hrest]]]]]]].
  { rewrite Hst in Href. cbn in Href. left. congruence. }
  cbv zeta in Hrest.
  destruct Hrest as [[_ [_ Hcon]]|[_ [lo [hi [ref [Nr [Hal [_ Hfin]]]]]]]].
  { apply conclude_idx_ref in Hcon. left. congruence. }
  assert (Href2 : ref' = ref).
  { destruct Hfin as [[_ Hst]|[_ [_ Hcon]]].
    - rewrite Hst in Href. cbn in Href. congruence.
    - apply conclude_idx_ref in Hcon. congruence. }
  subst ref'.
  destruct (adjust_left_ref _ _ _ _ _ _ _ _ _ Hs HNr Hal)
    as [[-> _]|[Hinc [_ [_ [_ [_ [_ [a [b [Ha [Hb [Hra [Hab ->]]]]]]]]]]]]];
    [now left|].
  right. split; [exact Hinc|]. exists d, a, b.
  repeat split; eauto using py_index_In.
Qed.

(** [idx_ref] never goes down in one pass, and stays put when it may
    not be advanced. *)
Lemma body_idx_ref_mono (s : tstate) (st : step) (ref' : Z) :
  body' s = st -> step_idx_ref st = Some ref' ->
  s_idx_ref s <= ref' /\
  (increase_idx_ref_if_needed = false -> ref' = s_idx_ref s).
Proof.
  intros H Href.
  destruct (body_idx_ref s st ref' H Href)
    as [->|[Hinc [d [a [b [_ [_ [_ [Hra [Hab ->]]]]]]]]]].
  - split; [lia | reflexivity].
  - pose proof (int_mid_between a b Hab). split; [lia|].
    intro Hf. congruence.
Qed.
End TrackerPeaks.

(** ** The stand-in peak finder meets the contract *)

Lemma local_maxima_from_ok (x : list Q) :
  forall i,
    StronglySorted apart (local_maxima_from i x) /\
    Forall (fun j => i + 1 <= j < i + len x - 1) (local_maxima_from i x) /\
    (forall a b rest, x = a :: b :: rest -> Qltb a b = false ->
                      Forall (fun j => i + 2 <= j) (local_maxima_from i x)).
Proof.
  induction x as [|a x IH]; intro i.
  - cbn. repeat split; constructor.
  - destruct x as [|b [|c x']].
    + cbn. repeat split; constructor.
    + cbn. repeat split; constructor.
    + destruct (IH (i + 1)) as [Hs [Hr Hd]].
      assert (Hlen : len (a :: b :: c :: x') = 1 + len (b :: c :: x'))
        by (unfold len; cbn [List.length]; lia).
      assert (Hr' : Forall (fun j => i + 2 <= j < i + len (a :: b :: c :: x') - 1)
                           (local_maxima_from (i + 1) (b :: c :: x'))).
      { rewrite Hlen. eapply Forall_impl; [|exact Hr]. cbv beta. intros; lia. }
      assert (Hlen3 : 3 <= len (a :: b :: c :: x'))
        by (unfold len; cbn [List.length]; lia).
      change (local_maxima_from i (a :: b :: c :: x'))
        with (if Qltb a b && Qltb c b
              then (i + 1) :: local_maxima_from (i + 1) (b :: c :: x')
              else local_maxima_from (i + 1) (b :: c :: x')).
      destruct (Qltb a b) eqn:Eab; cbn [andb].
      * destruct (Qltb c b) eqn:Ecb.
        { assert (Hbc : Qltb b c = false).
          { apply Qltb_ge. apply Qlt_le_weak. now apply Qltb_lt. }
          specialize (Hd b c x' eq_refl Hbc).
          split; [|split].
          - constructor; [exact Hs|].
            eapply Forall_impl; [|exact Hd]. unfold apart. intros; lia.
          - constructor; [lia|].
            eapply Forall_impl; [|exact Hr']. cbv beta. intros; lia.
          - intros a' b' rest Heq Hf. injection Heq as <- <- _. congruence. }
        { split; [exact Hs|]. split.
          - eapply Forall_impl; [|exact Hr']. cbv beta. intros; lia.
          - intros a' b' rest Heq Hf. injection Heq as <- <- _. congruence. }
      * split; [exact Hs|]. split.
        { eapply Forall_impl; [|exact Hr']. cbv beta. intros; lia. }
        { intros _ _ _ _ _. eapply Forall_impl; [|exact Hr']. cbv beta. intros; lia. }
Qed.

Lemma local_maxima_contract : find_peaks_contract local_maxima.
Proof.
  intros x w pr l H. unfold local_maxima in H. injection H as <-.
  destruct (local_maxima_from_ok x 0) as [Hs [Hr _]].
  split; [exact Hs|]. eapply Forall_impl; [|exact Hr]. cbv beta. intros; lia.
Qed.

(** ** The state on entry to the tracker loop *)

Lemma initial_state_facts (phase22 : list Q) (Nbefore Nafter idx_ref : Z) (K : Q)
      (p : params) (s0 : tstate) :
  initial_state phase22 Nbefore Nafter idx_ref K p = Ok s0 ->
  s_idx_ref s0 = idx_ref /\ s_it s0 = 0 /\ s_K s0 = K /\ s_p s0 = p /\
  s_old_idx_lo s0 = -1 /\ s_old_idx_hi s0 = -1 /\
  s_Count_Nright_short s0 = 0 /\ s_peakcfg s0 = None /\
  0 <= s_idx_lo s0 /\ 0 <= s_idx_hi s0.
Proof.
  unfold initial_state. intro H. cbv zeta in H. break_bind H. break_if H.
  injection H as <-. cbn.
  repeat (split; [reflexivity|]).
  pose proof (py_index_ok_nonempty _ _ _ E) as Hpos.
  split.
  - unfold argmax_gt. apply argmax_mask_bound.
  - match goal with
    | |- context [argmax_gt ?l ?x] =>
        pose proof (proj1 (argmax_mask_bound (map (fun v => Qgtb v x) l))) as Hb;
        fold (argmax_gt l x) in Hb
    end.
    destruct (_ =? 0); lia.
Qed.

(** ** Whole tracker calls *)

Lemma tracker_call_loop rpow fp cf pf cb t0 t ph om sign Nb Na bnds TOL incr refine
      idx_ref K p (r : tracker_result) :
  FindExtremaNearIdxRef rpow fp cf pf cb t0 t ph om sign Nb Na bnds TOL incr refine
                        idx_ref K p = Ok r ->
  exists s0,
    initial_state ph Nb Na idx_ref K p = Ok s0 /\
    tracker_loop rpow fp cf pf cb t0 t ph om sign Nb Na bnds TOL incr refine 21 s0
    = Some (Ok r).
Proof.
  unfold FindExtremaNearIdxRef. intro H. break_bind H.
  eexists. split; [reflexivity|].
  destruct (tracker_loop _ _ _ _ _ _ _ _ _ _ _ _ _ _ _ _ _ _) as [[r'|e]|];
    try discriminate.
  now injection H as <-.
Qed.

(** Line 808 is never reached: a call whose set-up does not raise ends
    in one of the loop's [return]s or in an exception raised inside the
    loop, after at most 21 passes. *)
Lemma tracker_call_terminates rpow fp cf pf cb t0 t ph om sign Nb Na bnds TOL incr refine
      idx_ref K p (s0 : tstate) :
  initial_state ph Nb Na idx_ref K p = Ok s0 ->
  exists res,
    tracker_loop rpow fp cf pf cb t0 t ph om sign Nb Na bnds TOL incr refine 21 s0
    = Some res /\
    FindExtremaNearIdxRef rpow fp cf pf cb t0 t ph om sign Nb Na bnds TOL incr refine
                          idx_ref K p = res.
Proof.
  intro H0. destruct (initial_state_facts _ _ _ _ _ _ _ H0) as [_ [Hit _]].
  destruct (tracker_loop_fuel rpow fp cf pf cb t0 t ph om sign Nb Na bnds TOL incr refine
                              21 s0) as [res Hres].
  - lia.
  - rewrite Hit. simpl. lia.
  - exists res. split; [exact Hres|].
    unfold FindExtremaNearIdxRef. rewrite H0. cbn [bind]. now rewrite Hres.
Qed.

(** C9. Under the guarantees of [find_peaks] (peak positions in
    increasing order, no two adjacent), every call of
    FindExtremaNearIdxRef that returns hands back a reference index that
    is greater than or equal to the one passed in; and when advancing is
    not permitted ([increase_idx_ref_if_needed] false) it hands back the
    very index passed in. *)
Theorem C9_idx_ref_never_decreases rpow fp cf pf cb t0 t ph om sign Nb Na bnds TOL incr
        refine idx_ref K p (r : tracker_result) :
  find_peaks_contract fp ->
  FindExtremaNearIdxRef rpow fp cf pf cb t0 t ph om sign Nb Na bnds TOL incr refine
                        idx_ref K p = Ok r ->
  idx_ref <= r_idx_ref r /\ (incr = false -> r_idx_ref r = idx_ref).
Proof.
  intros Hc H. destruct (tracker_call_loop _ _ _ _ _ _ _ _ _ _ _ _ _ _ _ _ _ _ _ _ H)
    as [s0 [H0 Hloop]].
  destruct (initial_state_facts _ _ _ _ _ _ _ H0) as [Href _].
  refine (loop_invariant rpow fp cf pf cb t0 t ph om sign Nb Na bnds TOL incr refine
            (fun s => idx_ref <= s_idx_ref s /\ (incr = false -> s_idx_ref s = idx_ref))
            (fun r => idx_ref <= r_idx_ref r /\ (incr = false -> r_idx_ref r = idx_ref))
            _ _ 21%nat s0 r _ Hloop).
  - intros s why s' [Hle Heq] Hb.
    destruct (body_idx_ref_mono rpow fp cf pf cb t0 t ph om sign Nb Na bnds TOL incr refine
                                Hc s _ (s_idx_ref s') Hb eq_refl) as [H1 H2].
    split; [lia|]. intro Hf. rewrite (H2 Hf). exact (Heq Hf).
  - intros s site r' [Hle Heq] Hb.
    destruct (body_idx_ref_mono rpow fp cf pf cb t0 t ph om sign Nb Na bnds TOL incr refine
                                Hc s _ (r_idx_ref r') Hb eq_refl) as [H1 H2].
    split; [lia|]. intro Hf. rewrite (H2 Hf). exact (Heq Hf).
  - rewrite Href. split; [lia | reflexivity].
Qed.

Lemma C9_idx_ref_never_decreases_witness :
  exists r,
    sample_tracker 200 (regular_bumps 13) 10 (12 # 10) = Ok r /\
    r_idx_ref r = 44 /\
    10 <= r_idx_ref r /\ (true = false -> r_idx_ref r = 10).
Proof.
  eexists. split; [vm_compute; reflexivity|]. split; [reflexivity|].
  apply (C9_idx_ref_never_decreases
           int_rpow local_maxima fit_keeps_guess middle_vertex middle_value
           (-100) (sample_t 200) (sample_phase22 200)
           (sample_omega22 200 (regular_bumps 13))
           1 3 4 sample_bounds (1 # 100000000) true false 10 (12 # 10) sample_p).
  - exact local_maxima_contract.
  - vm_compute. reflexivity.
Defined.

Lemma tracker_call_arrays rpow fp cf pf cb t0 t ph om sign Nb Na bnds TOL incr refine
      idx_ref K p (r : tracker_result) :
  FindExtremaNearIdxRef rpow fp cf pf cb t0 t ph om sign Nb Na bnds TOL incr refine
                        idx_ref K p = Ok r ->
  (List.length (r_t_extrema r) = List.length (r_idx_extrema r) /\
   List.length (r_omega22_extrema r) = List.length (r_idx_extrema r) /\
   List.length (r_phase22_extrema r) = List.length (r_idx_extrema r)) /\
  (refine = false ->
   take_at t (r_idx_extrema r) = Ok (r_t_extrema r) /\
   take_at om (r_idx_extrema r) = Ok (r_omega22_extrema r) /\
   take_at ph (r_idx_extrema r) = Ok (r_phase22_extrema r)).
Proof.
  intro H. destruct (tracker_call_loop _ _ _ _ _ _ _ _ _ _ _ _ _ _ _ _ _ _ _ _ H)
    as [s0 [_ Hloop]].
  refine (loop_invariant rpow fp cf pf cb t0 t ph om sign Nb Na bnds TOL incr refine
            (fun _ => True)
            (fun r =>
               (List.length (r_t_extrema r) = List.length (r_idx_extrema r) /\
                List.length (r_omega22_extrema r) = List.length (r_idx_extrema r) /\
                List.length (r_phase22_extrema r) = List.length (r_idx_extrema r)) /\
               (refine = false ->
                take_at t (r_idx_extrema r) = Ok (r_t_extrema r) /\
                take_at om (r_idx_extrema r) = Ok (r_omega22_extrema r) /\
                take_at ph (r_idx_extrema r) = Ok (r_phase22_extrema r)))
            _ _ 21%nat s0 r I Hloop).
  - intros; exact I.
  - intros s site r' _ Hb.
    exact (body_return_arrays rpow fp cf pf cb t0 t ph om sign Nb Na bnds TOL incr refine
                              s site r' Hb).
Qed.

(** ** C4: the arrays handed back when refinement is off *)

(** C4 as stated fails: with [refine_extrema = False] the call on the
    sampled inspiral at [idx_ref = 190], close to the end of the data,
    returns in its second pass, before any refit, with three extrema and
    three arrays of three entries each: the times, frequencies and phases
    at these extrema. *)
Lemma C4_counterexample_arrays_not_empty :
  exists r,
    sample_tracker 200 (regular_bumps 13) 190 (12 # 10) = Ok r /\
    r_idx_extrema r = [157; 172; 187] /\
    r_t_extrema r = [-43; -28; -13]%Q /\
    r_omega22_extrema r = [2; 2; 2]%Q /\
    r_phase22_extrema r = [157; 172; 187]%Q /\
    r_t_extrema r <> [] /\ r_omega22_extrema r <> [] /\ r_phase22_extrema r <> [].
Proof.
  eexists. split; [vm_compute; reflexivity|].
  cbn. repeat split; try reflexivity; discriminate.
Qed.

(** C4 (amended). When sub-sample refinement is disabled, the three
    arrays handed back by FindExtremaNearIdxRef are the time, frequency
    and phase series at the returned extrema indices,
    [t[idx_extrema]], [omega22[idx_extrema]], [phase22[idx_extrema]]:
    one entry per extremum, and empty only when no extremum is handed
    back. *)
Theorem C4_unrefined_arrays_are_grid_values rpow fp cf pf cb t0 t ph om sign Nb Na bnds
        TOL incr idx_ref K p (r : tracker_result) :
  FindExtremaNearIdxRef rpow fp cf pf cb t0 t ph om sign Nb Na bnds TOL incr false
                        idx_ref K p = Ok r ->
  take_at t (r_idx_extrema r) = Ok (r_t_extrema r) /\
  take_at om (r_idx_extrema r) = Ok (r_omega22_extrema r) /\
  take_at ph (r_idx_extrema r) = Ok (r_phase22_extrema r) /\
  List.length (r_t_extrema r) = List.length (r_idx_extrema r) /\
  List.length (r_omega22_extrema r) = List.length (r_idx_extrema r) /\
  List.length (r_phase22_extrema r) = List.length (r_idx_extrema r).
Proof.
  intro H.
  destruct (tracker_call_arrays _ _ _ _ _ _ _ _ _ _ _ _ _ _ _ _ _ _ _ _ H)
    as [[L1 [L2 L3]] Hoff].
  destruct (Hoff eq_refl) as [H1 [H2 H3]]. auto 7.
Qed.

Lemma C4_unrefined_arrays_are_grid_values_witness :
  exists r,
    sample_tracker 200 (regular_bumps 13) 190 (12 # 10) = Ok r /\
    r_idx_extrema r = [157; 172; 187] /\
    take_at (sample_t 200) (r_idx_extrema r) = Ok (r_t_extrema r) /\
    take_at (sample_omega22 200 (regular_bumps 13)) (r_idx_extrema r)
    = Ok (r_omega22_extrema r) /\
    take_at (sample_phase22 200) (r_idx_extrema r) = Ok (r_phase22_extrema r) /\
    List.length (r_t_extrema r) = List.length (r_idx_extrema r) /\
    List.length (r_omega22_extrema r) = List.length (r_idx_extrema r) /\
    List.length (r_phase22_extrema r) = List.length (r_idx_extrema r).
Proof.
  eexists. split; [vm_compute; reflexivity|]. split; [reflexivity|].
  apply (C4_unrefined_arrays_are_grid_values
           int_rpow local_maxima fit_keeps_guess middle_vertex middle_value
           (-100) (sample_t 200) (sample_phase22 200)
           (sample_omega22 200 (regular_bumps 13))
           1 3 4 sample_bounds (1 # 100000000) true 190 (12 # 10) sample_p).
  vm_compute. reflexivity.
Defined.

(** ** The driving loop *)

Lemma py_index_ok {A : Type} (l : list A) (k : Z) :
  0 <= k < len l -> exists a, py_index l k = Ok a /\ In a l.
Proof.
  intro Hk. unfold py_index.
  assert (E1 : (k <? 0) = false) by (apply Z.ltb_ge; lia).
  assert (E2 : (len l <=? k) = false) by (apply Z.leb_gt; lia).
  cbv zeta. rewrite E1. cbv iota. rewrite E1, E2. cbn [orb].
  destruct (nth_error l (Z.to_nat k)) as [a|] eqn:E.
  - exists a. split; [reflexivity | eapply nth_error_In; eauto].
  - apply nth_error_None in E. unfold len in Hk. lia.
Qed.

Lemma extends_refl (o : extrema_out) : extends o o [].
Proof.
  split; [now rewrite app_nil_r|]. exists [], [], [].
  rewrite !app_nil_r. auto 7.
Qed.

Lemma extends_trans (o1 o2 o3 : extrema_out) (n1 n2 : list Z) :
  extends o1 o2 n1 -> extends o2 o3 n2 -> extends o1 o3 (n1 ++ n2).
Proof.
  intros [H1 [a1 [b1 [c1 [Ha1 [Hb1 [Hc1 [La1 [Lb1 Lc1]]]]]]]]]
         [H2 [a2 [b2 [c2 [Ha2 [Hb2 [Hc2 [La2 [Lb2 Lc2]]]]]]]]].
  split; [rewrite H2, H1; now rewrite app_assoc|].
  exists (a1 ++ a2), (b1 ++ b2), (c1 ++ c2).
  rewrite Ha2, Ha1, Hb2, Hb1, Hc2, Hc1, <- !app_assoc, !length_app.
  repeat split; congruence.
Qed.

Lemma append_at_ok (o : extrema_out) (r : tracker_result) (k : Z) :
  well_shaped r -> 0 <= k < len (r_idx_extrema r) ->
  exists o' i, append_at o r k = Ok o' /\ In i (r_idx_extrema r) /\ extends o o' [i].
Proof.
  intros [L1 [L2 L3]] Hk. unfold append_at.
  destruct (py_index_ok (r_idx_extrema r) k Hk) as [i [Hi Hin]].
  destruct (py_index_ok (r_t_extrema r) k) as [tk [Htk _]];
    [unfold len in *; lia|].
  destruct (py_index_ok (r_omega22_extrema r) k) as [ok [Hok _]];
    [unfold len in *; lia|].
  destruct (py_index_ok (r_phase22_extrema r) k) as [pk [Hpk _]];
    [unfold len in *; lia|].
  rewrite Hi, Htk, Hok, Hpk. cbn [bind].
  eexists. exists i. split; [reflexivity|]. split; [exact Hin|].
  split; [reflexivity|]. exists [tk], [ok], [pk]. cbn. auto 7.
Qed.

Lemma append_range_ok (r : tracker_result) (n : nat) :
  well_shaped r ->
  forall (o : extrema_out) (k : Z),
    0 <= k -> k + Z.of_nat n <= len (r_idx_extrema r) ->
    exists o' new, append_range o r k n = Ok o' /\ extends o o' new /\
                   incl new (r_idx_extrema r).
Proof.
  intro Hw. induction n as [|n IH]; intros o k Hk Hn.
  - exists o, []. split; [reflexivity|]. split; [apply extends_refl|].
    intros x [].
  - cbn [append_range].
    destruct (append_at_ok o r k Hw) as [o1 [i [H1 [Hin E1]]]]; [lia|].
    rewrite H1. cbn [bind].
    destruct (IH o1 (k + 1)) as [o2 [new [H2 [E2 Hincl]]]]; [lia | lia |].
    exists o2, ([i] ++ new). split; [exact H2|].
    split; [exact (extends_trans _ _ _ _ _ E1 E2)|].
    intros x [<-|Hx]; [exact Hin | exact (Hincl x Hx)].
Qed.

(** Lines 323-343 never raise on a well-shaped tracker result. *)
Lemma report_ok (count : Z) (o : extrema_out) (r : tracker_result) :
  well_shaped r ->
  exists o' new, report count o r = Ok o' /\ extends o o' new /\
                 incl new (r_idx_extrema r) /\
                 (len (r_idx_extrema r) < 2 * N - 1 -> o' = o /\ new = []).
Proof.
  intro Hw. unfold report. destruct (2 * N - 1 <=? len (r_idx_extrema r)) eqn:E.
  - apply Z.leb_le in E. unfold N in *.
    assert (H1 : exists o1 new1,
               (if count =? 1 then append_range o r 0 (Z.to_nat 3) else Ok o) = Ok o1 /\
               extends o o1 new1 /\ incl new1 (r_idx_extrema r)).
    { destruct (count =? 1).
      - apply append_range_ok; [exact Hw | lia | lia].
      - exists o, []. split; [reflexivity|]. split; [apply extends_refl|].
        intros x []. }
    destruct H1 as [o1 [new1 [H1 [E1 I1]]]]. rewrite H1. cbn [bind].
    destruct (append_at_ok o1 r 3 Hw) as [o2 [i [H2 [Hin E2]]]]; [lia|].
    exists o2, (new1 ++ [i]). split; [exact H2|].
    split; [exact (extends_trans _ _ _ _ _ E1 E2)|].
    split; [|lia].
    intros x Hx. apply in_app_or in Hx. destruct Hx as [Hx|[<-|[]]]; auto.
  - apply Z.leb_gt in E. exists o, []. split; [reflexivity|].
    split; [apply extends_refl|]. split; [intros x []|]. auto.
Qed.

Section DrivingFacts.
Variable rpow : Q -> Q -> Q.
Variable find_peaks : list Q -> Z -> Q -> result (list Z).
Variable curve_fit :
  Q -> list Q -> list Q -> params -> bounds -> option Z -> result params.
Variable parabola_fit : list Q -> list Q -> result (Q * Q).
Variable cubic_fit_at : list Q -> list Q -> Q -> result Q.
Variables t_analyse phase22_analyse omega22_analyse : list Q.
Variable refine_extrema : bool.
Variable t0 : Q.
Variable sign : Z.
Variable bounds0 : bounds.

Local Abbreviation tracker' :=
  (tracker rpow find_peaks curve_fit parabola_fit cubic_fit_at
           t_analyse phase22_analyse omega22_analyse refine_extrema t0 sign bounds0).
Local Abbreviation drive_body' :=
  (drive_body rpow find_peaks curve_fit parabola_fit cubic_fit_at
              t_analyse phase22_analyse omega22_analyse refine_extrema t0 sign bounds0).
Local Abbreviation drive' :=
  (fun fuel =>
     drive rpow find_peaks curve_fit parabola_fit cubic_fit_at
           t_analyse phase22_analyse omega22_analyse refine_extrema fuel t0 sign bounds0).

Lemma tracker_well_shaped (idx_ref : Z) (K : Q) (p : params) (r : tracker_result) :
  tracker' idx_ref K p = Ok r -> well_shaped r.
Proof.
  unfold tracker. intro H.
  exact (proj1 (tracker_call_arrays _ _ _ _ _ _ _ _ _ _ _ _ _ _ _ _ _ _ _ _ H)).
Qed.

(** One pass of the driving loop, by the length of what the tracker
    handed back. *)
Lemma drive_body_cases (g : dstate) (r : tracker_result) :
  tracker' (g_idx_ref g) (g_K g) (g_p g) = Ok r ->
  exists o new,
    report (g_count g + 1) (g_out g) r = Ok o /\
    extends (g_out g) o new /\ incl new (r_idx_extrema r) /\
    (len (r_idx_extrema r) < 2 * N - 1 -> o = g_out g /\ new = []) /\
    (len (r_idx_extrema r) < 2 * N + 1 -> drive_body' g = DBreak o) /\
    (2 * N + 1 <= len (r_idx_extrema r) ->
     (1000 < g_count g + 1 -> drive_body' g = DFail SafetyException) /\
     (g_count g + 1 <= 1000 ->
      exists a b,
        py_index (r_idx_extrema r) N = Ok a /\
        py_index (r_idx_extrema r) (N + 1) = Ok b /\
        drive_body' g = DNext (mkDState (g_count g + 1) o (int_mid a b)
                                        (r_p r) (r_K r)))).
Proof.
  intro Ht. pose proof (tracker_well_shaped _ _ _ _ Ht) as Hw.
  destruct (report_ok (g_count g + 1) (g_out g) r Hw) as [o [new [Hr [He [Hi Hs]]]]].
  exists o, new. repeat (split; [assumption|]).
  unfold drive_body. rewrite Ht, Hr. split.
  - intro Hlt. apply Z.ltb_lt in Hlt. now rewrite Hlt.
  - intro Hge.
    assert (E : (len (r_idx_extrema r) <? 2 * N + 1) = false)
      by (apply Z.ltb_ge; lia).
    rewrite E. unfold N in *.
    destruct (py_index_ok (r_idx_extrema r) 3) as [a [Ha _]]; [lia|].
    destruct (py_index_ok (r_idx_extrema r) (3 + 1)) as [b [Hb _]]; [lia|].
    rewrite Ha, Hb. cbn [bind]. split.
    + intro Hc. apply Z.ltb_lt in Hc. now rewrite Hc.
    + intro Hc. exists a, b. split; [reflexivity|]. split; [reflexivity|].
      replace (1000 <? g_count g + 1) with false
        by (symmetry; apply Z.ltb_ge; lia).
      reflexivity.
Qed.

Lemma drive_body_count (g g' : dstate) :
  drive_body' g = DNext g' -> g_count g' = g_count g + 1 /\ g_count g + 1 <= 1000.
Proof.
  unfold drive_body. intro H.
  destruct (tracker' _ _ _) as [r|]; [|discriminate].
  destruct (report _ _ _); [|discriminate].
  break_if H. destruct (bind _ _); [|discriminate].
  break_if H. injection H as <-. cbn. apply Z.ltb_ge in E0. lia.
Qed.

(** The driving loop breaks or raises within [1001 - count] passes. *)
Lemma drive_fuel (fuel : nat) (g : dstate) :
  g_count g <= 1000 -> (Z.to_nat (1001 - g_count g) <= fuel)%nat ->
  exists res, drive' fuel g = Some res.
Proof.
  revert g. induction fuel as [|fuel IH]; intros g Hc Hf; [lia|].
  cbn [drive]. destruct (drive_body' g) as [o|g'|e] eqn:Eb.
  - eexists; reflexivity.
  - destruct (drive_body_count g g' Eb) as [Hg' Hle]. apply IH; lia.
  - eexists; reflexivity.
Qed.
End DrivingFacts.

(** The whole method on the sampled inspiral: thirteen bumps, of which
    the loop confirms the first eleven before the data ends. *)
Example sample_find_extrema_maxima :
  exists o, sample_find_extrema 200 (regular_bumps 13) "maxima" = Ok o /\
            extrema o = [7; 22; 37; 52; 67; 82; 97; 112; 127; 142; 157].
Proof. eexists. split; [vm_compute; reflexivity | reflexivity]. Qed.

(** ** The entries a pass reports, and runs of the driving loop *)

Lemma skipn_nth_error {A : Type} (l : list A) (k : nat) (a : A) :
  nth_error l k = Some a -> skipn k l = a :: skipn (S k) l.
Proof.
  revert l. induction k as [|k IH]; intros [|x l] H; try discriminate.
  - injection H as <-. reflexivity.
  - cbn [nth_error] in H. cbn [skipn]. exact (IH l H).
Qed.

Lemma firstn_add_skipn {A : Type} (a b : nat) (l : list A) :
  firstn (a + b) l = firstn a l ++ firstn b (skipn a l).
Proof.
  revert l. induction a as [|a IH]; intro l; [reflexivity|].
  destruct l as [|x l]; cbn [Nat.add firstn skipn app].
  - now rewrite firstn_nil.
  - now rewrite IH.
Qed.

Lemma py_index_slot {A : Type} (l : list A) (k : Z) :
  0 <= k < len l ->
  exists a, py_index l k = Ok a /\ firstn 1 (skipn (Z.to_nat k) l) = [a] /\
            skipn (Z.to_nat k) l = a :: skipn (S (Z.to_nat k)) l.
Proof.
  intro Hk. destruct (py_index_ok l k Hk) as [a [Ha _]].
  exists a. split; [exact Ha|].
  apply py_index_nth in Ha; [|lia].
  rewrite (skipn_nth_error l _ a Ha). split; reflexivity.
Qed.

Lemma append_at_exact (o : extrema_out) (r : tracker_result) (k : Z) :
  well_shaped r -> 0 <= k < len (r_idx_extrema r) ->
  append_at o r k
  = Ok (mkOut (extrema o ++ firstn 1 (skipn (Z.to_nat k) (r_idx_extrema r)))
              (t_extrema_refined o ++ firstn 1 (skipn (Z.to_nat k) (r_t_extrema r)))
              (omega22_extrema_refined o
               ++ firstn 1 (skipn (Z.to_nat k) (r_omega22_extrema r)))
              (phase22_extrema_refined o
               ++ firstn 1 (skipn (Z.to_nat k) (r_phase22_extrema r)))).
Proof.
  intros [L1 [L2 L3]] Hk. unfold append_at.
  destruct (py_index_slot (r_idx_extrema r) k Hk) as [i [Hi [Fi _]]].
  destruct (py_index_slot (r_t_extrema r) k) as [tk [Htk [Ftk _]]];
    [unfold len in *; lia|].
  destruct (py_index_slot (r_omega22_extrema r) k) as [ok [Hok [Fok _]]];
    [unfold len in *; lia|].
  destruct (py_index_slot (r_phase22_extrema r) k) as [pk [Hpk [Fpk _]]];
    [unfold len in *; lia|].
  rewrite Hi, Htk, Hok, Hpk, Fi, Ftk, Fok, Fpk. reflexivity.
Qed.

Lemma append_range_exact (r : tracker_result) (n : nat) :
  well_shaped r ->
  forall (o : extrema_out) (k : nat),
    Z.of_nat k + Z.of_nat n <= len (r_idx_extrema r) ->
    append_range o r (Z.of_nat k) n
    = Ok (mkOut (extrema o ++ firstn n (skipn k (r_idx_extrema r)))
                (t_extrema_refined o ++ firstn n (skipn k (r_t_extrema r)))
                (omega22_extrema_refined o ++ firstn n (skipn k (r_omega22_extrema r)))
                (phase22_extrema_refined o ++ firstn n (skipn k (r_phase22_extrema r)))).
Proof.
  intro Hw. induction n as [|n IH]; intros o k Hn.
  - cbn [append_range firstn]. rewrite !app_nil_r. now destruct o.
  - cbn [append_range].
    rewrite (append_at_exact o r (Z.of_nat k) Hw) by lia. cbn [bind].
    replace (Z.of_nat k + 1) with (Z.of_nat (S k)) by lia.
    rewrite IH by lia.
    cbn [extrema t_extrema_refined omega22_extrema_refined phase22_extrema_refined].
    rewrite Nat2Z.id.
    destruct Hw as [L1 [L2 L3]].
    destruct (py_index_slot (r_idx_extrema r) (Z.of_nat k)) as [a1 [_ [_ S1]]]; [lia|].
    destruct (py_index_slot (r_t_extrema r) (Z.of_nat k)) as [a2 [_ [_ S2]]];
      [unfold len in *; lia|].
    destruct (py_index_slot (r_omega22_extrema r) (Z.of_nat k)) as [a3 [_ [_ S3]]];
      [unfold len in *; lia|].
    destruct (py_index_slot (r_phase22_extrema r) (Z.of_nat k)) as [a4 [_ [_ S4]]];
      [unfold len in *; lia|].
    rewrite Nat2Z.id in S1, S2, S3, S4.
    rewrite S1, S2, S3, S4. cbn [firstn]. rewrite <- !app_assoc. reflexivity.
Qed.

(** Lines 323-343 on a well-shaped tracker result: exactly the entries
    of [reported] are appended, to all four lists alike. *)
Lemma report_exact (count : Z) (o : extrema_out) (r : tracker_result) :
  well_shaped r -> report count o r = Ok (report_of count o r).
Proof.
  intro Hw. unfold report, report_of, reported. cbv zeta.
  destruct (2 * N - 1 <=? len (r_idx_extrema r)) eqn:E.
  - apply Z.leb_le in E. unfold N in *.
    destruct (count =? 1).
    + change 0 with (Z.of_nat 0).
      rewrite (append_range_exact r (Z.to_nat 3) Hw o 0%nat) by (cbn; lia).
      cbn [bind]. rewrite (append_at_exact _ r 3 Hw) by lia.
      cbn [extrema t_extrema_refined omega22_extrema_refined phase22_extrema_refined
           skipn].
      rewrite <- !app_assoc.
      change (Z.to_nat (3 + 1)) with (Z.to_nat 3 + 1)%nat.
      now rewrite !firstn_add_skipn.
    + cbn [bind]. now rewrite (append_at_exact o r 3 Hw) by lia.
  - rewrite !app_nil_r. now destruct o.
Qed.

Lemma after_passes_one_more (pass : dstate -> dstep) (n : nat) :
  forall g g' g'',
    after_passes pass n g = Some g' -> pass g' = DNext g'' ->
    after_passes pass (S n) g = Some g''.
Proof.
  induction n as [|n IH]; intros g g' g'' H Hp.
  - cbn [after_passes] in *. injection H as ->. now rewrite Hp.
  - cbn [after_passes] in H. change (after_passes pass (S (S n)) g)
      with (match pass g with
            | DNext g1 => after_passes pass (S n) g1
            | _ => None
            end).
    destruct (pass g) as [o|g1|e]; try discriminate.
    exact (IH g1 g' g'' H Hp).
Qed.

Section DrivingRun.
Variable rpow : Q -> Q -> Q.
Variable find_peaks : list Q -> Z -> Q -> result (list Z).
Variable curve_fit :
  Q -> list Q -> list Q -> params -> bounds -> option Z -> result params.
Variable parabola_fit : list Q -> list Q -> result (Q * Q).
Variable cubic_fit_at : list Q -> list Q -> Q -> result Q.
Variables t_analyse phase22_analyse omega22_analyse : list Q.
Variable refine_extrema : bool.
Variable t0 : Q.
Variable sign : Z.
Variable bounds0 : bounds.

Local Abbreviation tracker' :=
  (tracker rpow find_peaks curve_fit parabola_fit cubic_fit_at
           t_analyse phase22_analyse omega22_analyse refine_extrema t0 sign bounds0).
Local Abbreviation drive_body' :=
  (drive_body rpow find_peaks curve_fit parabola_fit cubic_fit_at
              t_analyse phase22_analyse omega22_analyse refine_extrema t0 sign bounds0).
Local Abbreviation drive' :=
  (fun fuel =>
     drive rpow find_peaks curve_fit parabola_fit cubic_fit_at
           t_analyse phase22_analyse omega22_analyse refine_extrema fuel t0 sign bounds0).

(** What a pass does with a tracker result, by its length and the count. *)
Lemma drive_body_exact (g : dstate) (r : tracker_result) :
  tracker' (g_idx_ref g) (g_K g) (g_p g) = Ok r ->
  let o := report_of (g_count g + 1) (g_out g) r in
  (len (r_idx_extrema r) < 2 * N + 1 -> drive_body' g = DBreak o) /\
  (2 * N + 1 <= len (r_idx_extrema r) -> 1000 < g_count g + 1 ->
   drive_body' g = DFail SafetyException) /\
  (2 * N + 1 <= len (r_idx_extrema r) -> g_count g + 1 <= 1000 ->
   exists idx_ref,
     drive_body' g = DNext (mkDState (g_count g + 1) o idx_ref (r_p r) (r_K r))).
Proof.
  intros Ht o.
  destruct (drive_body_cases rpow find_peaks curve_fit parabola_fit cubic_fit_at
                             t_analyse phase22_analyse omega22_analyse refine_extrema
                             t0 sign bounds0 g r Ht)
    as [o' [new [Hr [_ [_ [_ [Hshort Hfull]]]]]]].
  pose proof (tracker_well_shaped _ _ _ _ _ _ _ _ _ _ _ _ _ _ _ _ Ht) as Hw.
  rewrite (report_exact _ _ _ Hw) in Hr. injection Hr as <-.
  split; [exact Hshort|]. split.
  - intros Hlen Hc. exact (proj1 (Hfull Hlen) Hc).
  - intros Hlen Hc. destruct (proj2 (Hfull Hlen) Hc) as [a [b [_ [_ Hb]]]].
    eexists. exact Hb.
Qed.

Lemma after_passes_count (n : nat) :
  forall g g', after_passes drive_body' n g = Some g' ->
               g_count g' = g_count g + Z.of_nat n /\
               ((0 < n)%nat -> g_count g' <= 1000).
Proof.
  induction n as [|n IH]; intros g g' H; cbn [after_passes] in H.
  - injection H as <-. split; [lia | intro; lia].
  - destruct (drive_body' g) as [o|g1|e] eqn:Eb; try discriminate.
    destruct (drive_body_count _ _ _ _ _ _ _ _ _ _ _ _ _ _ Eb) as [Hc Hle].
    destruct (IH g1 g' H) as [Hc' Hle']. split; [lia|].
    intros _. destruct n as [|n]; [|apply Hle'; lia].
    cbn [after_passes] in H. injection H as <-. lia.
Qed.

Lemma drive_after_passes (n : nat) :
  forall fuel g g', after_passes drive_body' n g = Some g' ->
                    drive' (n + fuel)%nat g = drive' fuel g'.
Proof.
  induction n as [|n IH]; intros fuel g g' H; cbn [after_passes] in H.
  - now injection H as <-.
  - destruct (drive_body' g) as [o|g1|e] eqn:Eb; try discriminate.
    cbn [Nat.add drive]. rewrite Eb. exact (IH fuel g1 g' H).
Qed.
End DrivingRun.

(** A run of [find_extrema] whose loop has made [n] passes and stands in
    state [g]: the method returns what the next pass breaks with, and
    raises what it raises. *)
Lemma find_extrema_after_passes rpow fp cf pf cb t ph om refine (s : string) (sg : Z)
      (gs : global_setup) (p_global : params) (g0 g : dstate) (n : nat) :
  FrequencyFits.sign_of s = Ok sg ->
  setup_global_fit t ph om = Ok gs ->
  cf (gs_fit_center_time gs) (global_fit_times t gs) (py_prefix om (gs_idx_end gs))
     (gs_p0 gs) (gs_bounds0 gs) None = Ok p_global ->
  initial_dstate ph p_global = Ok g0 ->
  after_passes (drive_body rpow fp cf pf cb t ph om refine
                           (gs_fit_center_time gs) sg (gs_bounds0 gs)) n g0 = Some g ->
  g_count g = Z.of_nat n /\ g_count g <= 1000 /\
  (forall o, drive_body rpow fp cf pf cb t ph om refine
                        (gs_fit_center_time gs) sg (gs_bounds0 gs) g = DBreak o ->
             find_extrema rpow fp cf pf cb t ph om refine s = Ok o) /\
  (forall e, drive_body rpow fp cf pf cb t ph om refine
                        (gs_fit_center_time gs) sg (gs_bounds0 gs) g = DFail e ->
             find_extrema rpow fp cf pf cb t ph om refine s = Raise e).
Proof.
  intros Hs Hsetup Hfit Hg0 Hrun.
  assert (Hc0 : g_count g0 = 0).
  { unfold initial_dstate in Hg0. break_bind Hg0. break_if Hg0.
    now injection Hg0 as <-. }
  destruct (after_passes_count _ _ _ _ _ _ _ _ _ _ _ _ n g0 g Hrun) as [Hc Hle].
  assert (Hn : g_count g = Z.of_nat n) by lia.
  assert (Hcap : g_count g <= 1000).
  { destruct n as [|n]; [lia | apply Hle; lia]. }
  split; [exact Hn|]. split; [exact Hcap|].
  assert (Hdrive : forall res,
             drive rpow fp cf pf cb t ph om refine 1 (gs_fit_center_time gs) sg
                   (gs_bounds0 gs) g = Some res ->
             find_extrema rpow fp cf pf cb t ph om refine s = res).
  { intros res Hres. unfold find_extrema. rewrite Hs, Hsetup. cbn [bind].
    rewrite Hfit. cbn [bind]. rewrite Hg0. cbn [bind].
    replace 1001%nat with (n + S (1000 - n))%nat by lia.
    rewrite (drive_after_passes _ _ _ _ _ _ _ _ _ _ _ _ n _ g0 g Hrun).
    cbn [drive] in *.
    destruct (drive_body rpow fp cf pf cb t ph om refine (gs_fit_center_time gs) sg
                         (gs_bounds0 gs) g); try discriminate;
      now injection Hres as <-. }
  split.
  - intros o Hb. apply Hdrive. cbn [drive]. now rewrite Hb.
  - intros e Hb. apply Hdrive. cbn [drive]. now rewrite Hb.
Qed.

(** ** C1: a short tracker result ends the driving loop *)

(** C1. In a run of [find_extrema] whose loop stands in state [g] after
    [n] passes, when the call of FindExtremaNearIdxRef of the next pass
    returns fewer than [2N+1] extrema, the method returns without raising,
    and it returns all extrema confirmed up to that point: the ones
    confirmed by the earlier passes, in order, followed by the ones this
    last pass confirms before the break (entry [N] of the short result when
    it has at least [2N-1] extrema, preceded by entries [0 .. N-1] when it
    is the first pass; none when it has fewer, zero included), with their
    times, frequencies and phases. Inside the tracker, a pass that detects
    no extremum at all returns the empty list at once instead of
    raising. *)
Theorem C1_short_result_ends_loop rpow fp cf pf cb t ph om refine (s : string) (sg : Z)
        (gs : global_setup) (p_global : params) (g0 g : dstate) (n : nat)
        (r : tracker_result) :
  FrequencyFits.sign_of s = Ok sg ->
  setup_global_fit t ph om = Ok gs ->
  cf (gs_fit_center_time gs) (global_fit_times t gs) (py_prefix om (gs_idx_end gs))
     (gs_p0 gs) (gs_bounds0 gs) None = Ok p_global ->
  initial_dstate ph p_global = Ok g0 ->
  after_passes (drive_body rpow fp cf pf cb t ph om refine
                           (gs_fit_center_time gs) sg (gs_bounds0 gs)) n g0 = Some g ->
  tracker rpow fp cf pf cb t ph om refine (gs_fit_center_time gs) sg (gs_bounds0 gs)
          (g_idx_ref g) (g_K g) (g_p g) = Ok r ->
  len (r_idx_extrema r) < 2 * N + 1 ->
  find_extrema rpow fp cf pf cb t ph om refine s
  = Ok (report_of (Z.of_nat n + 1) (g_out g) r) /\
  (exists new, extends (g_out g) (report_of (Z.of_nat n + 1) (g_out g) r) new /\
               new = reported (Z.of_nat n + 1) (len (r_idx_extrema r)) (r_idx_extrema r)) /\
  (len (r_idx_extrema r) < 2 * N - 1 ->
   find_extrema rpow fp cf pf cb t ph om refine s = Ok (g_out g)) /\
  (2 * N - 1 <= len (r_idx_extrema r) ->
   exists e, py_index (r_idx_extrema r) N = Ok e /\
             extrema (report_of (Z.of_nat n + 1) (g_out g) r)
             = extrema (g_out g)
               ++ (if n =? 0 then firstn (Z.to_nat N) (r_idx_extrema r) else [])%nat
               ++ [e]) /\
  (forall st d,
      detect rpow fp (gs_fit_center_time gs) t ph om sg st = Ok d ->
      d_idx_extrema d = [] ->
      body rpow fp cf pf cb (gs_fit_center_time gs) t ph om sg N (N + 1) (gs_bounds0 gs)
           (1 # 100000000) true refine st
      = Return ExitEarly
               (mkResult [] (s_p st) (s_K st) (s_idx_ref st)
                         (d_t_extrema d) (d_omega22_extrema d) (d_phase22_extrema d))).
Proof.
  intros Hs Hsetup Hfit Hg0 Hrun Ht Hshort.
  destruct (find_extrema_after_passes rpow fp cf pf cb t ph om refine s sg gs p_global
                                      g0 g n Hs Hsetup Hfit Hg0 Hrun)
    as [Hn [_ [Hbreak _]]].
  destruct (drive_body_exact rpow fp cf pf cb t ph om refine (gs_fit_center_time gs) sg
                             (gs_bounds0 gs) g r Ht) as [Hb _].
  specialize (Hb Hshort). rewrite Hn in Hb.
  pose proof (Hbreak _ Hb) as Hfind.
  pose proof (tracker_well_shaped _ _ _ _ _ _ _ _ _ _ _ _ _ _ _ _ Ht) as Hw.
  split; [exact Hfind|]. split; [|split; [|split]].
  - eexists. split; [|reflexivity].
    destruct Hw as [L1 [L2 L3]].
    split; [reflexivity|]. unfold report_of. cbn.
    do 3 eexists. repeat (split; [reflexivity|]).
    unfold reported.
    destruct (2 * N - 1 <=? len (r_idx_extrema r)); [|auto].
    destruct (Z.of_nat n + 1 =? 1).
    + rewrite !length_firstn. lia.
    + rewrite !length_firstn, !length_skipn. lia.
  - intro Hfew. rewrite Hfind. f_equal. unfold report_of, reported.
    replace (2 * N - 1 <=? len (r_idx_extrema r)) with false
      by (symmetry; apply Z.leb_gt; exact Hfew).
    rewrite !app_nil_r. now destruct (g_out g).
  - intro Hmany. unfold N in *.
    destruct (py_index_slot (r_idx_extrema r) 3) as [e [He [Fe _]]]; [lia|].
    exists e. split; [exact He|].
    unfold report_of, reported, N. cbn [extrema].
    replace (2 * 3 - 1 <=? len (r_idx_extrema r)) with true
      by (symmetry; apply Z.leb_le; exact Hmany).
    f_equal. destruct n as [|n].
    + cbn [Z.of_nat Z.add Z.eqb Pos.eqb Nat.eqb].
      change (Z.to_nat (Z.pos (3 + 1))) with (Z.to_nat 3 + 1)%nat.
      now rewrite firstn_add_skipn, Fe.
    + replace (Z.of_nat (S n) + 1 =? 1) with false by (symmetry; apply Z.eqb_neq; lia).
      cbn [Nat.eqb app]. exact Fe.
  - intros st d Hd Hnil. unfold body. rewrite Hd. cbn [bind].
    unfold decide, d_N_extrema. rewrite Hnil. reflexivity.
Qed.

Lemma C1_short_result_ends_loop_witness :
  sample_find_extrema 200 (regular_bumps 13) "maxima"
  = Ok (report_of 8 (g_out run_g7) run_r7) /\
  extrema (g_out run_g7) = [7; 22; 37; 52; 67; 82; 97; 112; 127; 142] /\
  r_idx_extrema run_r7 = [112; 127; 142; 157; 172; 187] /\
  extrema (report_of 8 (g_out run_g7) run_r7)
  = [7; 22; 37; 52; 67; 82; 97; 112; 127; 142; 157].
Proof.
  unfold sample_find_extrema.
  assert (Hs : FrequencyFits.sign_of "maxima" = Ok 1) by reflexivity.
  assert (Hsetup : setup_global_fit (sample_t 200) (sample_phase22 200)
                                    (sample_omega22 200 (regular_bumps 13))
                   = Ok run_setup) by (vm_compute; reflexivity).
  assert (Hfit : fit_keeps_guess (gs_fit_center_time run_setup)
                                 (global_fit_times (sample_t 200) run_setup)
                                 (py_prefix (sample_omega22 200 (regular_bumps 13))
                                            (gs_idx_end run_setup))
                                 (gs_p0 run_setup) (gs_bounds0 run_setup) None
                 = Ok (gs_p0 run_setup)) by reflexivity.
  assert (Hg0 : initial_dstate (sample_phase22 200) (gs_p0 run_setup) = Ok run_g0)
    by (vm_compute; reflexivity).
  assert (Hrun : after_passes
                   (drive_body int_rpow local_maxima fit_keeps_guess middle_vertex
                               middle_value (sample_t 200) (sample_phase22 200)
                               (sample_omega22 200 (regular_bumps 13)) false
                               (gs_fit_center_time run_setup) 1 (gs_bounds0 run_setup))
                   7 run_g0 = Some run_g7) by (vm_compute; reflexivity).
  assert (Ht : tracker int_rpow local_maxima fit_keeps_guess middle_vertex middle_value
                       (sample_t 200) (sample_phase22 200)
                       (sample_omega22 200 (regular_bumps 13)) false
                       (gs_fit_center_time run_setup) 1 (gs_bounds0 run_setup)
                       (g_idx_ref run_g7) (g_K run_g7) (g_p run_g7) = Ok run_r7)
    by (vm_compute; reflexivity).
  assert (Hshort : len (r_idx_extrema run_r7) < 2 * N + 1) by (vm_compute; reflexivity).
  split; [|repeat split; vm_compute; reflexivity].
  exact (proj1 (C1_short_result_ends_loop
                  int_rpow local_maxima fit_keeps_guess middle_vertex middle_value
                  (sample_t 200) (sample_phase22 200)
                  (sample_omega22 200 (regular_bumps 13)) false "maxima" 1
                  run_setup (gs_p0 run_setup) run_g0 run_g7 7 run_r7
                  Hs Hsetup Hfit Hg0 Hrun Ht Hshort)).
Defined.

(** ** C5: the shortfall exit *)

Section TrackerExits.
Variable rpow : Q -> Q -> Q.
Variable find_peaks : list Q -> Z -> Q -> result (list Z).
Variable curve_fit :
  Q -> list Q -> list Q -> params -> bounds -> option Z -> result params.
Variable parabola_fit : list Q -> list Q -> result (Q * Q).
Variable cubic_fit_at : list Q -> list Q -> Q -> result Q.
Variable t0 : Q.
Variables t phase22 omega22 : list Q.
Variable sign : Z.
Variables Nbefore Nafter : Z.
Variable bnds : bounds.
Variable TOL : Q.
Variable increase_idx_ref_if_needed : bool.
Variable refine_extrema : bool.

Local Abbreviation detect' :=
  (detect rpow find_peaks t0 t phase22 omega22 sign).
Local Abbreviation body' :=
  (body rpow find_peaks curve_fit parabola_fit cubic_fit_at t0 t phase22 omega22
        sign Nbefore Nafter bnds TOL increase_idx_ref_if_needed refine_extrema).
Local Abbreviation conclude' :=
  (conclude curve_fit t0 bnds TOL).

(** A pass that ends at lines 742-807 got there through [conclude]. *)
Lemma body_reaches_conclude (s : tstate) (st : step) :
  body' s = st ->
  (forall r, st <> Return ExitEarly r) ->
  (forall s', st <> Next WindowChanged s') ->
  (forall e, st <> Fail e) ->
  exists d arrs K lo hi ref,
    detect' s = Ok d /\ d_N_extrema d <> 0 /\ s_it s + 1 <= 20 /\
    conclude' s d (s_it s + 1) arrs K
              (if d_Nright d <? Nafter then s_Count_Nright_short s + 1
               else s_Count_Nright_short s) lo hi ref = Ok st.
Proof.
  intros H Hne Hnw Hnf.
  destruct (body_decide rpow find_peaks curve_fit parabola_fit cubic_fit_at t0 t
                        phase22 omega22 sign Nbefore Nafter bnds TOL
                        increase_idx_ref_if_needed refine_extrema s st H Hnf)
    as [d [Hd Hdec]].
  destruct (decide_cases _ _ _ _ _ _ _ _ _ _ _ _ _ _ _ _ _ Hdec)
    as [[Hst _]|[HN [Hit [arrs [K [_ [_ Hrest]]]]]]].
  { exfalso. exact (Hne _ Hst). }
  cbv zeta in Hrest. exists d, arrs, K.
  destruct Hrest as [[_ [_ Hcon]]|[_ [lo [hi [ref [Nr [_ [_ [[_ Hst]|[_ [_ Hcon]]]]]]]]]]].
  - eauto 10.
  - exfalso. exact (Hnw _ Hst).
  - eauto 10.
Qed.

End TrackerExits.


(** ** The exits of a pass of the tracker, by what the pass found *)

Section TrackerShortfall.
Variable rpow : Q -> Q -> Q.
Variable find_peaks : list Q -> Z -> Q -> result (list Z).
Variable curve_fit :
  Q -> list Q -> list Q -> params -> bounds -> option Z -> result params.
Variable parabola_fit : list Q -> list Q -> result (Q * Q).
Variable cubic_fit_at : list Q -> list Q -> Q -> result Q.
Variable t0 : Q.
Variables t phase22 omega22 : list Q.
Variable sign : Z.
Variables Nbefore Nafter : Z.
Variable bnds : bounds.
Variable TOL : Q.
Variable increase_idx_ref_if_needed : bool.
Variable refine_extrema : bool.

Local Abbreviation detect' :=
  (detect rpow find_peaks t0 t phase22 omega22 sign).
Local Abbreviation refine' :=
  (refine rpow parabola_fit cubic_fit_at t0 t phase22 omega22 refine_extrema).
Local Abbreviation body' :=
  (body rpow find_peaks curve_fit parabola_fit cubic_fit_at t0 t phase22 omega22
        sign Nbefore Nafter bnds TOL increase_idx_ref_if_needed refine_extrema).
Local Abbreviation window_changed' :=
  (window_changed phase22 Nbefore Nafter increase_idx_ref_if_needed).

Lemma np_sub_same_length (a : list Q) :
  forall b, List.length a = List.length b -> exists r, np_sub a b = Ok r.
Proof.
  induction a as [|x a IH]; intros [|y b] H; try discriminate.
  - eexists; reflexivity.
  - injection H as H. destruct (IH b H) as [r Hr].
    cbn [np_sub]. rewrite Hr. eexists; reflexivity.
Qed.

(** Lines 742-747 do not raise when there is an extremum. *)
Lemma max_delta_omega_ok (omega22_extrema old_extrema : list Q) :
  omega22_extrema <> [] ->
  exists m, max_delta_omega omega22_extrema old_extrema = Ok m.
Proof.
  intro Hne. unfold max_delta_omega.
  destruct (len omega22_extrema =? len old_extrema) eqn:E; [|eexists; reflexivity].
  apply Z.eqb_eq in E.
  destruct (np_sub_same_length omega22_extrema old_extrema) as [r Hr];
    [unfold len in E; lia|].
  rewrite Hr. cbn [bind]. apply np_max_nonempty.
  apply np_sub_length in Hr. destruct r; [|discriminate].
  destruct omega22_extrema; [congruence | discriminate].
Qed.

(** The refined arrays of a pass have one entry per extremum found. *)
Lemma refine_arrays_nonempty (s : tstate) (d : detection)
      (arrs : list Q * list Q * list Q) :
  detect' s = Ok d -> refine' (s_p s) d = Ok arrs -> d_N_extrema d <> 0 ->
  snd (fst arrs) <> [].
Proof.
  intros Hd Hr HN.
  destruct (refine_shape rpow find_peaks curve_fit parabola_fit cubic_fit_at t0 t
                         phase22 omega22 sign bnds refine_extrema _ _ _ Hr)
    as [[_ [L2 _]] _].
  destruct (detect_arrays _ _ _ _ _ _ _ _ _ Hd) as [_ [H2 _]].
  apply take_at_length in H2. cbn [fst snd] in L2.
  unfold d_N_extrema, len in HN. intro Hnil. rewrite Hnil in L2. cbn in L2. lia.
Qed.

(** A pass that has detected at least one extremum, is not beyond the
    20th, and has refined and updated [K] without raising: what it does
    next is decided by the window check alone, and after an unchanged
    window by the shortfall test. *)
Lemma pass_after_detection (s : tstate) (d : detection)
      (arrs : list Q * list Q * list Q) (K : Q) :
  detect' s = Ok d -> d_N_extrema d <> 0 -> s_it s + 1 <= 20 ->
  refine' (s_p s) d = Ok arrs ->
  update_K (s_K s) (d_N_extrema d) (snd arrs) = Ok K ->
  (window_changed' s d K = Ok true ->
   exists s', body' s = Next WindowChanged s' /\
              s_Count_Nright_short s' = count_short Nafter s d /\
              s_p s' = s_p s) /\
  (window_changed' s d K = Ok false ->
   (5 <= count_short Nafter s d \/ d_N_extrema d < 5 ->
    exists r, body' s = Return ExitShortfall r) /\
   (count_short Nafter s d < 5 -> 5 <= d_N_extrema d ->
    forall r, body' s <> Return ExitShortfall r)) /\
  (forall e, window_changed' s d K = Raise e -> body' s = Fail e).
Proof.
  intros Hd HN Hit Hr HK.
  assert (E1 : ((d_N_extrema d =? 0) || (20 <? s_it s + 1)) = false).
  { apply orb_false_iff. split; [apply Z.eqb_neq; exact HN | apply Z.ltb_ge; lia]. }
  assert (Hbody : body' s
                  = match decide rpow curve_fit parabola_fit cubic_fit_at t0 t phase22
                                 omega22 Nbefore Nafter bnds TOL
                                 increase_idx_ref_if_needed refine_extrema s d with
                    | Ok st => st
                    | Raise e => Fail e
                    end).
  { unfold body. now rewrite Hd. }
  destruct (max_delta_omega_ok (snd (fst arrs)) (s_old_extrema s)
                               (refine_arrays_nonempty s d arrs Hd Hr HN)) as [mdo Hm].
  assert (Hcon : forall lo hi ref,
             (5 <= count_short Nafter s d \/ d_N_extrema d < 5 ->
              exists r,
                conclude curve_fit t0 bnds TOL s d (s_it s + 1) arrs K
                         (count_short Nafter s d) lo hi ref
                = Ok (Return ExitShortfall r)) /\
             (count_short Nafter s d < 5 -> 5 <= d_N_extrema d ->
              forall r,
                conclude curve_fit t0 bnds TOL s d (s_it s + 1) arrs K
                         (count_short Nafter s d) lo hi ref
                <> Ok (Return ExitShortfall r))).
  { intros lo hi ref. unfold conclude. destruct arrs as [[te oe] pe].
    cbn [fst snd] in Hm. rewrite Hm. cbn [bind]. split.
    - intro Hc.
      assert (E : ((5 <=? count_short Nafter s d) || (d_N_extrema d <? 5)
                   || (20 <? s_it s + 1)) = true).
      { destruct Hc as [Hc|Hc].
        - apply Z.leb_le in Hc. now rewrite Hc.
        - apply Z.ltb_lt in Hc. rewrite Hc. now rewrite orb_true_r. }
      rewrite E. eexists; reflexivity.
    - intros Hc1 Hc2 r.
      assert (E : ((5 <=? count_short Nafter s d) || (d_N_extrema d <? 5)
                   || (20 <? s_it s + 1)) = false).
      { apply orb_false_iff. split; [|apply Z.ltb_ge; lia].
        apply orb_false_iff. split; [apply Z.leb_gt; lia | apply Z.ltb_ge; lia]. }
      rewrite E. destruct (Qltb mdo TOL); [discriminate|].
      destruct (curve_fit _ _ _ _ _ _); cbn [bind]; discriminate. }
  rewrite Hbody. unfold decide. cbv zeta. rewrite E1, Hr. cbn [bind].
  rewrite HK. cbn [bind]. fold (count_short Nafter s d).
  unfold window_changed.
  destruct (negb (d_Nleft d =? Nbefore) || negb (d_Nright d =? Nafter)).
  - destruct (adjust_left _ _ _ _ _ _ _ _ _) as [[[lo ref] Nr]|e1]; cbn [bind].
    + destruct (adjust_right _ _ _ _ _ _) as [hi|e2]; cbn [bind].
      * destruct (negb ((lo =? s_old_idx_lo s) && (hi =? s_old_idx_hi s))).
        -- split; [|split; [discriminate|discriminate]].
           intros _. eexists. split; [reflexivity|]. split; reflexivity.
        -- split; [discriminate|]. split; [|discriminate].
           intros _. destruct (Hcon lo hi ref) as [H1 H2]. split.
           ++ intro Hc. destruct (H1 Hc) as [r Hr']. rewrite Hr'. eauto.
           ++ intros Hc1 Hc2 r Heq. apply (H2 Hc1 Hc2 r).
              destruct (conclude _ _ _ _ _ _ _ _ _ _ _ _ _); congruence.
      * split; [discriminate|]. split; [discriminate|].
        intros e He. now injection He as <-.
    + split; [discriminate|]. split; [discriminate|].
      intros e He. now injection He as <-.
  - split; [discriminate|]. split; [|discriminate].
    intros _. destruct (Hcon (s_idx_lo s) (s_idx_hi s) (s_idx_ref s)) as [H1 H2]. split.
    + intro Hc. destruct (H1 Hc) as [r Hr']. rewrite Hr'. eauto.
    + intros Hc1 Hc2 r Heq. apply (H2 Hc1 Hc2 r).
      destruct (conclude _ _ _ _ _ _ _ _ _ _ _ _ _); congruence.
Qed.

End TrackerShortfall.



(** ** C8: the iteration caps *)

(** C8 as stated fails: the pass that brings the step count above 1000
    does not raise when its tracker call hands back fewer than [2N+1]
    extrema. In the state with count 1000 and reference index 190 on the
    sampled inspiral, the tracker returns three extrema; the count
    becomes 1001, and the pass takes the break of line 348: the loop
    returns normally. *)
Lemma C8_counterexample_short_result_in_pass_1001 :
  1000 < g_count (mkDState 1000 (mkOut [7] [-193]%Q [2]%Q [7]%Q) 190 sample_p (12 # 10)) + 1 /\
  (exists r, sample_tracker 200 (regular_bumps 13) 190 (12 # 10) = Ok r /\
             r_idx_extrema r = [157; 172; 187]) /\
  sample_drive_body 200 (regular_bumps 13)
                    (mkDState 1000 (mkOut [7] [-193]%Q [2]%Q [7]%Q) 190 sample_p (12 # 10))
  = DBreak (mkOut [7] [-193]%Q [2]%Q [7]%Q) /\
  sample_drive 200 (regular_bumps 13) 1
               (mkDState 1000 (mkOut [7] [-193]%Q [2]%Q [7]%Q) 190 sample_p (12 # 10))
  = Some (Ok (mkOut [7] [-193]%Q [2]%Q [7]%Q)).
Proof.
  split; [reflexivity|].
  split; [eexists; split; [vm_compute; reflexivity | reflexivity]|].
  split; vm_compute; reflexivity.
Qed.

(** In the same state with reference index 46 the tracker hands back
    seven extrema, and the pass raises the safety exception. *)
Example safety_exception_in_pass_1001 :
  (exists r, sample_tracker 200 (regular_bumps 13) 46 (12 # 10) = Ok r /\
             len (r_idx_extrema r) = 7) /\
  sample_drive_body 200 (regular_bumps 13)
                    (mkDState 1000 (mkOut [7] [-193]%Q [2]%Q [7]%Q) 46 sample_p (12 # 10))
  = DFail SafetyException.
Proof.
  split; [eexists; split; [vm_compute; reflexivity | reflexivity]|].
  vm_compute. reflexivity.
Qed.

(** C8 (amended). In a run of [find_extrema] whose loop stands in state
    [g] after [n] passes, [n] is at most 1000 and equals the step count.
    The pass that brings the count above 1000 ([n = 1000]) makes the
    method raise its safety exception, which nothing catches, when its
    tracker call hands back at least [2N+1] extrema; when it hands back
    fewer, the method returns normally, as in every other pass. In earlier
    passes a result of [2N+1] extrema or more sends the loop round again
    with the count one higher. So the loop ends within 1001 passes. Every
    tracker call, once its set-up has not raised, ends within 21 passes of
    its own loop. Both loops are [while True], and these caps bound them;
    inside the tracker there is a third safeguard, the counter of passes
    that fell short on the right: once it has reached five, a pass that
    leaves the window unchanged returns. *)
Theorem C8_iteration_caps rpow fp cf pf cb t ph om refine_on (s : string) (sg : Z)
        (gs : global_setup) (p_global : params) (g0 g : dstate) (n : nat) :
  FrequencyFits.sign_of s = Ok sg ->
  setup_global_fit t ph om = Ok gs ->
  cf (gs_fit_center_time gs) (global_fit_times t gs) (py_prefix om (gs_idx_end gs))
     (gs_p0 gs) (gs_bounds0 gs) None = Ok p_global ->
  initial_dstate ph p_global = Ok g0 ->
  after_passes (drive_body rpow fp cf pf cb t ph om refine_on
                           (gs_fit_center_time gs) sg (gs_bounds0 gs)) n g0 = Some g ->
  (g_count g = Z.of_nat n /\ (n <= 1000)%nat) /\
  (exists res,
      drive rpow fp cf pf cb t ph om refine_on 1001
            (gs_fit_center_time gs) sg (gs_bounds0 gs) g0 = Some res /\
      find_extrema rpow fp cf pf cb t ph om refine_on s = res) /\
  (forall r,
      tracker rpow fp cf pf cb t ph om refine_on (gs_fit_center_time gs) sg (gs_bounds0 gs)
              (g_idx_ref g) (g_K g) (g_p g) = Ok r ->
      (2 * N + 1 <= len (r_idx_extrema r) -> n = 1000%nat ->
       find_extrema rpow fp cf pf cb t ph om refine_on s = Raise SafetyException) /\
      (2 * N + 1 <= len (r_idx_extrema r) -> (n < 1000)%nat ->
       exists g',
         after_passes (drive_body rpow fp cf pf cb t ph om refine_on
                                  (gs_fit_center_time gs) sg (gs_bounds0 gs))
                      (S n) g0 = Some g' /\
         g_count g' = Z.of_nat n + 1) /\
      (len (r_idx_extrema r) < 2 * N + 1 ->
       find_extrema rpow fp cf pf cb t ph om refine_on s
       = Ok (report_of (Z.of_nat n + 1) (g_out g) r))) /\
  (forall idx_ref K p s0,
      initial_state ph N (N + 1) idx_ref K p = Ok s0 ->
      exists res,
        tracker_loop rpow fp cf pf cb (gs_fit_center_time gs) t ph om sg N (N + 1)
                     (gs_bounds0 gs) (1 # 100000000) true refine_on 21 s0 = Some res /\
        tracker rpow fp cf pf cb t ph om refine_on (gs_fit_center_time gs) sg
                (gs_bounds0 gs) idx_ref K p = res) /\
  (forall st d arrs K,
      detect rpow fp (gs_fit_center_time gs) t ph om sg st = Ok d ->
      refine rpow pf cb (gs_fit_center_time gs) t ph om refine_on (s_p st) d = Ok arrs ->
      update_K (s_K st) (d_N_extrema d) (snd arrs) = Ok K ->
      d_N_extrema d <> 0 -> s_it st + 1 <= 20 ->
      window_changed ph N (N + 1) true st d K = Ok false ->
      5 <= count_short (N + 1) st d ->
      exists r,
        body rpow fp cf pf cb (gs_fit_center_time gs) t ph om sg N (N + 1) (gs_bounds0 gs)
             (1 # 100000000) true refine_on st
        = Return ExitShortfall r).
Proof.
  intros Hs Hsetup Hfit Hg0 Hrun.
  destruct (find_extrema_after_passes rpow fp cf pf cb t ph om refine_on s sg gs p_global
                                      g0 g n Hs Hsetup Hfit Hg0 Hrun)
    as [Hn [Hcap [Hbreak Hfail]]].
  assert (Hc0 : g_count g0 = 0).
  { unfold initial_dstate in Hg0. break_bind Hg0. break_if Hg0.
    now injection Hg0 as <-. }
  split; [split; [exact Hn | lia]|].
  split.
  { destruct (drive_fuel rpow fp cf pf cb t ph om refine_on (gs_fit_center_time gs) sg
                         (gs_bounds0 gs) 1001 g0) as [res Hres]; [lia | lia |].
    exists res. split; [exact Hres|].
    unfold find_extrema. rewrite Hs, Hsetup. cbn [bind]. rewrite Hfit. cbn [bind].
    rewrite Hg0. cbn [bind]. now rewrite Hres. }
  split.
  { intros r Ht.
    destruct (drive_body_exact rpow fp cf pf cb t ph om refine_on (gs_fit_center_time gs)
                               sg (gs_bounds0 gs) g r Ht) as [Hshort [Hraise Hgo]].
    split; [|split].
    - intros Hlen H1000. apply Hfail. apply Hraise; [exact Hlen | lia].
    - intros Hlen Hlt. destruct (Hgo Hlen ltac:(lia)) as [idx_ref Hb].
      eexists. split.
      + exact (after_passes_one_more _ n g0 g _ Hrun Hb).
      + cbn [g_count]. lia.
    - intro Hlen. apply Hbreak. rewrite <- Hn. exact (Hshort Hlen). }
  split.
  { intros idx_ref K p s0 H0. unfold tracker. now apply tracker_call_terminates. }
  intros st d arrs K Hd Hr HK HN Hit Hw Hc.
  destruct (pass_after_detection rpow fp cf pf cb (gs_fit_center_time gs) t ph om sg
                                 N (N + 1) (gs_bounds0 gs) (1 # 100000000) true refine_on
                                 st d arrs K Hd HN Hit Hr HK)
    as [_ [Hsettled _]].
  exact (proj1 (Hsettled Hw) (or_introl Hc)).
Qed.

Lemma C8_iteration_caps_witness :
  g_count run_g7 = 7 /\ (7 <= 1000)%nat /\
  sample_find_extrema 200 (regular_bumps 13) "maxima"
  = Ok (report_of 8 (g_out run_g7) run_r7).
Proof.
  unfold sample_find_extrema.
  assert (Hs : FrequencyFits.sign_of "maxima" = Ok 1) by reflexivity.
  assert (Hsetup : setup_global_fit (sample_t 200) (sample_phase22 200)
                                    (sample_omega22 200 (regular_bumps 13))
                   = Ok run_setup) by (vm_compute; reflexivity).
  assert (Hfit : fit_keeps_guess (gs_fit_center_time run_setup)
                                 (global_fit_times (sample_t 200) run_setup)
                                 (py_prefix (sample_omega22 200 (regular_bumps 13))
                                            (gs_idx_end run_setup))
                                 (gs_p0 run_setup) (gs_bounds0 run_setup) None
                 = Ok (gs_p0 run_setup)) by reflexivity.
  assert (Hg0 : initial_dstate (sample_phase22 200) (gs_p0 run_setup) = Ok run_g0)
    by (vm_compute; reflexivity).
  assert (Hrun : after_passes
                   (drive_body int_rpow local_maxima fit_keeps_guess middle_vertex
                               middle_value (sample_t 200) (sample_phase22 200)
                               (sample_omega22 200 (regular_bumps 13)) false
                               (gs_fit_center_time run_setup) 1 (gs_bounds0 run_setup))
                   7 run_g0 = Some run_g7) by (vm_compute; reflexivity).
  assert (Ht : tracker int_rpow local_maxima fit_keeps_guess middle_vertex middle_value
                       (sample_t 200) (sample_phase22 200)
                       (sample_omega22 200 (regular_bumps 13)) false
                       (gs_fit_center_time run_setup) 1 (gs_bounds0 run_setup)
                       (g_idx_ref run_g7) (g_K run_g7) (g_p run_g7) = Ok run_r7)
    by (vm_compute; reflexivity).
  assert (Hshort : len (r_idx_extrema run_r7) < 2 * N + 1) by (vm_compute; reflexivity).
  destruct (C8_iteration_caps
              int_rpow local_maxima fit_keeps_guess middle_vertex middle_value
              (sample_t 200) (sample_phase22 200)
              (sample_omega22 200 (regular_bumps 13)) false "maxima" 1
              run_setup (gs_p0 run_setup) run_g0 run_g7 7
              Hs Hsetup Hfit Hg0 Hrun)
    as [[Hn Hcap] [_ [Hpass _]]].
  split; [exact Hn|]. split; [exact Hcap|].
  exact (proj2 (proj2 (Hpass run_r7 Ht)) Hshort).
Defined.

(** ** C6: the lifetime of the peak-detector configuration *)

Lemma fresh_peak_config_prominence (t omega22 : list Q) (lo hi : Z) (res : list Q)
      (w : Z) (pr : Q) :
  fresh_peak_config t omega22 lo hi res = Ok (w, pr) ->
  exists rmax rmin,
    np_max res = Ok rmax /\ np_min res = Ok rmin /\
    pr = ((rmax - rmin) * (3 # 100))%Q.
Proof.
  unfold fresh_peak_config. intro H. break_bind H. break_bind H. break_if H.
  break_bind H. break_bind H. injection H as _ <-. eauto.
Qed.

Lemma detect_config rpow fp t0 t ph om sign (s : tstate) (d : detection) :
  detect rpow fp t0 t ph om sign s = Ok d ->
  match s_peakcfg s with
  | Some c => d_fresh d = false /\ (d_width d, d_prominence d) = c
  | None =>
      d_fresh d = true /\
      exists res,
        window_residual rpow t0 t om (s_idx_lo s) (s_idx_hi s) (s_p s) = Ok res /\
        fresh_peak_config t om (s_idx_lo s) (s_idx_hi s) res
        = Ok (d_width d, d_prominence d)
  end.
Proof.
  unfold detect. intro H. cbv zeta in H.
  destruct (window_residual rpow t0 t om (s_idx_lo s) (s_idx_hi s) (s_p s))
    as [res|] eqn:Eres; cbn [bind] in H; [|discriminate].
  destruct (s_peakcfg s) as [c|] eqn:Ecfg.
  - cbn [bind] in H. repeat break_bind H. injection H as <-. cbn.
    split; [reflexivity | now destruct c].
  - destruct (fresh_peak_config t om (s_idx_lo s) (s_idx_hi s) res) as [c|] eqn:Ef;
      cbn [bind] in H; [|discriminate].
    repeat break_bind H. injection H as <-. cbn.
    split; [reflexivity|]. exists res. split; [reflexivity|]. now destruct c.
Qed.

(** C6 as stated fails: in the call on the regular inspiral in which the
    fit lands on a sloping trend, the first pass uses prominence 0.03 and
    fits the trend; the second pass, on the same window [1, 107), computes
    the configuration anew and uses prominence 0.0588. *)
Lemma C6_counterexample_recomputed_after_refit :
  exists s0 s1 o0 o1,
    refit_initial_state = Ok s0 /\
    refit_visited 21 s0 = [s0; s1] /\
    refit_outcome s0 = KNext Refitted /\ refit_outcome s1 = KReturn ExitConverged /\
    (s_idx_lo s0, s_idx_hi s0) = (1, 107) /\ (s_idx_lo s1, s_idx_hi s1) = (1, 107) /\
    refit_observe s0 = Ok o0 /\ refit_observe s1 = Ok o1 /\
    o_it o0 = 1 /\ o_it o1 = 2 /\
    (o_prominence o0 == 3 # 100)%Q /\ (o_prominence o1 == 588 # 10000)%Q /\
    ~ (o_prominence o0 == o_prominence o1)%Q /\
    o_fresh_cfg o0 = true /\ o_fresh_cfg o1 = true.
Proof.
  eexists. eexists. eexists. eexists.
  split; [vm_compute; reflexivity|].
  split; [vm_compute; reflexivity|].
  split; [vm_compute; reflexivity|].
  split; [vm_compute; reflexivity|].
  split; [reflexivity|]. split; [reflexivity|].
  split; [vm_compute; reflexivity|].
  split; [vm_compute; reflexivity|].
  split; [reflexivity|]. split; [reflexivity|].
  split; [vm_compute; reflexivity|].
  split; [vm_compute; reflexivity|].
  split; [intro H; vm_compute in H; discriminate|].
  split; reflexivity.
Qed.

(** C6 (amended). Within one call of FindExtremaNearIdxRef the
    peak-detector configuration (the width and the prominence, 3% of the
    peak-to-trough amplitude of the residual in the current window) is
    computed in the first pass and in the first pass after each refit of
    the trend; it is held fixed across the passes in between, which only
    change the window. That is: the call starts with no configuration; a
    pass without one computes it from its window, a pass with one uses it
    as it is; a pass that changes the window hands its configuration on
    together with the unchanged trend parameters; a pass that refits the
    trend hands on none. *)
Theorem C6_peak_config_lifetime rpow fp cf pf cb t0 t ph om sign Nb Na bnds TOL incr
        refine (s : tstate) :
  (forall idx_ref K p s0,
      initial_state ph Nb Na idx_ref K p = Ok s0 -> s_peakcfg s0 = None) /\
  (forall d,
      detect rpow fp t0 t ph om sign s = Ok d ->
      match s_peakcfg s with
      | Some c => d_fresh d = false /\ (d_width d, d_prominence d) = c
      | None =>
          d_fresh d = true /\
          exists res rmax rmin,
            window_residual rpow t0 t om (s_idx_lo s) (s_idx_hi s) (s_p s) = Ok res /\
            fresh_peak_config t om (s_idx_lo s) (s_idx_hi s) res
            = Ok (d_width d, d_prominence d) /\
            np_max res = Ok rmax /\ np_min res = Ok rmin /\
            d_prominence d = ((rmax - rmin) * (3 # 100))%Q
      end) /\
  (forall s',
      body rpow fp cf pf cb t0 t ph om sign Nb Na bnds TOL incr refine s
      = Next WindowChanged s' ->
      exists d, detect rpow fp t0 t ph om sign s = Ok d /\
        s_peakcfg s' = Some (d_width d, d_prominence d) /\ s_p s' = s_p s) /\
  (forall s',
      body rpow fp cf pf cb t0 t ph om sign Nb Na bnds TOL incr refine s
      = Next Refitted s' ->
      s_peakcfg s' = None).
Proof.
  split; [|split; [|split]].
  - intros idx_ref K p s0 H0.
    destruct (initial_state_facts _ _ _ _ _ _ _ H0) as [_ [_ [_ [_ [_ [_ [_ [H _]]]]]]]].
    exact H.
  - intros d Hd. pose proof (detect_config _ _ _ _ _ _ _ _ _ Hd) as H.
    destruct (s_peakcfg s) as [c|]; [exact H|].
    destruct H as [Hf [res [Hres Hcfg]]]. split; [exact Hf|].
    destruct (fresh_peak_config_prominence _ _ _ _ _ _ _ Hcfg) as [rmax [rmin [H1 [H2 H3]]]].
    exists res, rmax, rmin. auto 6.
  - intros s' H.
    destruct (body_decide rpow fp cf pf cb t0 t ph om sign Nb Na bnds TOL incr refine
                          s _ H) as [d [Hd Hdec]]; [discriminate|].
    exists d. split; [exact Hd|].
    destruct (decide_cases _ _ _ _ _ _ _ _ _ _ _ _ _ _ _ _ _ Hdec)
      as [[Hst _]|[_ [_ [arrs [K [_ [_ Hrest]]]]]]]; [discriminate|].
    cbv zeta in Hrest.
    assert (Hc : forall lo hi ref C,
               conclude cf t0 bnds TOL s d (s_it s + 1) arrs K C lo hi ref
               = Ok (Next WindowChanged s') -> False).
    { intros lo hi ref C Hc.
      destruct (conclude_cases _ _ _ _ _ _ _ _ _ _ _ _ _ _ Hc)
        as [[Hst _]|[[Hst _]|[p' [_ [Hst _]]]]]; discriminate. }
    destruct Hrest as [[_ [_ Hcon]]|[_ [lo [hi [ref [Nr [_ [_ [[_ Hst]|[_ [_ Hcon]]]]]]]]]]].
    + destruct (Hc _ _ _ _ Hcon).
    + injection Hst as ->. cbn. auto.
    + destruct (Hc _ _ _ _ Hcon).
  - intros s' H.
    destruct (body_reaches_conclude rpow fp cf pf cb t0 t ph om sign Nb Na bnds TOL
                                    incr refine s _ H)
      as [d [arrs [K [lo [hi [ref [_ [_ [_ Hcon]]]]]]]]]; try discriminate.
    destruct (conclude_cases _ _ _ _ _ _ _ _ _ _ _ _ _ _ Hcon)
      as [[Hst _]|[[Hst _]|[p' [_ [Hst _]]]]]; try discriminate.
    injection Hst as ->. reflexivity.
Qed.

Lemma C6_peak_config_lifetime_witness :
  (refit_initial_state = Ok refit_s0 /\
   refit_body refit_s0 = Next Refitted refit_s1 /\
   s_peakcfg refit_s1 = None) /\
  (gap_initial_state = Ok gap_s0 /\
   sample_body 480 gap_bumps gap_s0 = Next WindowChanged gap_s1 /\
   exists d,
     detect int_rpow local_maxima (-100) (sample_t 480) (sample_phase22 480)
            (sample_omega22 480 gap_bumps) 1 gap_s0 = Ok d /\
     s_peakcfg gap_s1 = Some (d_width d, d_prominence d) /\ s_p gap_s1 = s_p gap_s0).
Proof.
  split.
  - assert (Hb : body int_rpow local_maxima (fit_lands_on sloping_p)
                      middle_vertex middle_value
                      (-100) (sample_t 200) (sample_phase22 200)
                      (sample_omega22 200 (regular_bumps 13))
                      1 3 4 sample_bounds (1 # 100000000) true false refit_s0
                 = Next Refitted refit_s1) by (vm_compute; reflexivity).
    split; [vm_compute; reflexivity|]. split; [exact Hb|].
    exact (proj2 (proj2 (proj2
             (C6_peak_config_lifetime
                int_rpow local_maxima (fit_lands_on sloping_p) middle_vertex middle_value
                (-100) (sample_t 200) (sample_phase22 200)
                (sample_omega22 200 (regular_bumps 13))
                1 3 4 sample_bounds (1 # 100000000) true false refit_s0))) refit_s1 Hb).
  - assert (Hb : body int_rpow local_maxima fit_keeps_guess middle_vertex middle_value
                      (-100) (sample_t 480) (sample_phase22 480)
                      (sample_omega22 480 gap_bumps)
                      1 3 4 sample_bounds (1 # 100000000) true false gap_s0
                 = Next WindowChanged gap_s1) by (vm_compute; reflexivity).
    split; [vm_compute; reflexivity|]. split; [exact Hb|].
    exact (proj1 (proj2 (proj2
             (C6_peak_config_lifetime
                int_rpow local_maxima fit_keeps_guess middle_vertex middle_value
                (-100) (sample_t 480) (sample_phase22 480)
                (sample_omega22 480 gap_bumps)
                1 3 4 sample_bounds (1 # 100000000) true false gap_s0))) gap_s1 Hb).
Defined.

(** ** Counting extrema on the two sides of the reference index *)

Lemma count_true_cons (b : bool) (mask : list bool) :
  count_true (b :: mask) = (if b then 1 else 0) + count_true mask.
Proof.
  unfold count_true, len. cbn [filter]. destruct b; cbn [List.length]; lia.
Qed.

Lemma count_true_nonneg (mask : list bool) : 0 <= count_true mask.
Proof. unfold count_true, len. lia. Qed.

Lemma count_split (r : Z) (l : list Z) :
  count_true (map (fun i => i <? r) l) + count_true (map (fun i => r <=? i) l) = len l.
Proof.
  induction l as [|x l IH].
  - reflexivity.
  - cbn [map]. rewrite !count_true_cons.
    assert (Hl : len (x :: l) = 1 + len l) by (unfold len; cbn [List.length]; lia).
    rewrite Hl. destruct (x <? r) eqn:E1, (r <=? x) eqn:E2; lia.
Qed.

Lemma count_lt_none (m : Z) (l : list Z) :
  Forall (fun y => m <= y) l -> count_true (map (fun i => i <? m) l) = 0.
Proof.
  induction 1 as [|x l Hx _ IH]; [reflexivity|].
  cbn [map]. rewrite count_true_cons, IH.
  replace (x <? m) with false by (symmetry; apply Z.ltb_ge; lia). reflexivity.
Qed.

(** Moving the threshold from [ref] up to [m] past exactly one element
    [a] of an increasing list moves that element to the left side. *)
Lemma count_lt_shift (l : list Z) (ref m a : Z) :
  StronglySorted apart l -> In a l ->
  (forall y, In y l -> y < ref \/ y = a \/ m <= y) ->
  ref <= a < m ->
  count_true (map (fun i => i <? m) l) = count_true (map (fun i => i <? ref) l) + 1.
Proof.
  intros Hs. induction Hs as [|x l Hs IH Hx]; intros Hin Hall Ham; [destruct Hin|].
  cbn [map]. rewrite !count_true_cons.
  rewrite Forall_forall in Hx.
  destruct (Z.eq_dec x a) as [->|Hne].
  - assert (Hl : Forall (fun y => m <= y) l).
    { rewrite Forall_forall. intros y Hy.
      specialize (Hx y Hy). unfold apart in Hx.
      destruct (Hall y (or_intror Hy)) as [H|[H|H]]; lia. }
    rewrite (count_lt_none m l Hl).
    assert (Hl' : Forall (fun y => ref <= y) l).
    { eapply Forall_impl; [|exact Hl]. cbv beta. intros; lia. }
    rewrite (count_lt_none ref l Hl').
    replace (a <? m) with true by (symmetry; apply Z.ltb_lt; lia).
    replace (a <? ref) with false by (symmetry; apply Z.ltb_ge; lia).
    reflexivity.
  - destruct Hin as [Heq|Hin]; [congruence|].
    specialize (Hx a Hin). unfold apart in Hx.
    assert (Hxr : x < ref).
    { destruct (Hall x (or_introl eq_refl)) as [H|[H|H]]; [exact H | congruence | lia]. }
    replace (x <? m) with true by (symmetry; apply Z.ltb_lt; lia).
    replace (x <? ref) with true by (symmetry; apply Z.ltb_lt; lia).
    rewrite IH; [lia | exact Hin | | exact Ham].
    intros y Hy. apply Hall. now right.
Qed.

Lemma first_true_before (mask : list bool) (i j : Z) :
  first_true mask i = Some j ->
  forall k, (k < Z.to_nat (j - i))%nat -> nth_error mask k = Some false.
Proof.
  revert i. induction mask as [|b mask IH]; intro i; cbn [first_true]; [discriminate|].
  destruct b.
  - intro H. injection H as <-. intros k Hk. lia.
  - intros H k Hk. pose proof (first_true_bound _ _ _ H) as Hb.
    destruct k as [|k]; [reflexivity|].
    cbn [nth_error]. apply (IH (i + 1) H). lia.
Qed.

(** Every extremum is before [idx_ref], or is the first one [a] at or
    after it, or is the successor [b] of that one or beyond. *)
Lemma first_at_or_after_others (ext : list Z) (ref a b : Z) :
  StronglySorted apart ext ->
  0 < count_true (map (fun i => ref <=? i) ext) ->
  let tmp := argmax_mask (map (fun i => ref <=? i) ext) in
  py_index ext tmp = Ok a -> py_index ext (tmp + 1) = Ok b ->
  forall y, In y ext -> y < ref \/ y = a \/ b <= y.
Proof.
  intros Hs Hpos tmp Ha Hb y Hy.
  destruct (count_true_pos_first _ 0 Hpos) as [j Hj].
  assert (Htmp : tmp = j) by (unfold tmp, argmax_mask; now rewrite Hj).
  pose proof (first_true_bound _ _ _ Hj) as Hbound.
  pose proof (first_true_before _ _ _ Hj) as Hbefore.
  rewrite Z.sub_0_r in Hbefore. rewrite Htmp in Ha, Hb.
  apply py_index_nth in Ha; [|lia]. apply py_index_nth in Hb; [|lia].
  destruct (In_nth_error _ _ Hy) as [k Hk].
  destruct (Nat.lt_trichotomy k (Z.to_nat j)) as [Hlt|[Heq|Hgt]].
  - left. specialize (Hbefore k Hlt). rewrite nth_error_map, Hk in Hbefore.
    cbn in Hbefore. injection Hbefore as Hf. apply Z.leb_gt in Hf. exact Hf.
  - right. left. subst k. congruence.
  - right. right.
    destruct (Nat.eq_dec k (Z.to_nat (j + 1))) as [->|Hne]; [assert (y = b) by congruence; lia|].
    pose proof (StronglySorted_nth ext (Z.to_nat (j + 1)) k b y Hs) as H.
    unfold apart in H. specialize (H ltac:(lia) Hb Hk). lia.
Qed.

(** ** C2: the counts on the two sides of the returned reference index *)

Section TrackerWindow.
Variable rpow : Q -> Q -> Q.
Variable find_peaks : list Q -> Z -> Q -> result (list Z).
Variable curve_fit :
  Q -> list Q -> list Q -> params -> bounds -> option Z -> result params.
Variable parabola_fit : list Q -> list Q -> result (Q * Q).
Variable cubic_fit_at : list Q -> list Q -> Q -> result Q.
Variable t0 : Q.
Variables t phase22 omega22 : list Q.
Variable sign : Z.
Variables Nbefore Nafter : Z.
Variable bnds : bounds.
Variable TOL : Q.
Variable increase_idx_ref_if_needed : bool.
Variable refine_extrema : bool.

Hypothesis peaks_contract : find_peaks_contract find_peaks.

Local Abbreviation detect' :=
  (detect rpow find_peaks t0 t phase22 omega22 sign).
Local Abbreviation body' :=
  (body rpow find_peaks curve_fit parabola_fit cubic_fit_at t0 t phase22 omega22
        sign Nbefore Nafter bnds TOL increase_idx_ref_if_needed refine_extrema).
Local Abbreviation loop' :=
  (tracker_loop rpow find_peaks curve_fit parabola_fit cubic_fit_at t0 t phase22
                omega22 sign Nbefore Nafter bnds TOL increase_idx_ref_if_needed
                refine_extrema).
Local Abbreviation adjust_left' :=
  (adjust_left phase22 Nbefore increase_idx_ref_if_needed).
Local Abbreviation adjust_right' :=
  (adjust_right phase22 Nafter).
Local Abbreviation conclude' :=
  (conclude curve_fit t0 bnds TOL).

(** Lines 691-717: the new right boundary is a valid bound, and it is
    moved inwards when there are too many extrema on the right. *)
Lemma adjust_right_bound (ext : list Z) (lo hi : Z) (K : Q) (Nr hi' : Z) :
  0 <= lo -> 0 <= hi ->
  Forall (fun i => lo < i < hi - 1) ext ->
  adjust_right' ext hi K Nr = Ok hi' ->
  0 <= hi' /\ (Nafter < Nr -> hi' < hi - 1).
Proof.
  intros Hlo Hhi Hr H. rewrite Forall_forall in Hr.
  unfold adjust_right in H. break_if H.
  - repeat break_bind H. injection H as <-.
    pose proof (Hr _ (py_index_In _ _ _ E0)) as Ha.
    pose proof (Hr _ (py_index_In _ _ _ E1)) as Hb.
    pose proof (int_mid_range a a0 lo (hi - 1) Ha Hb). lia.
  - apply Z.ltb_ge in E. split; [|lia].
    break_if H; [|injection H as <-; exact Hhi].
    break_if H; [|injection H as <-; exact Hhi].
    break_bind H. injection H as <-.
    match goal with
    | |- context [argmax_gt ?l ?x] =>
        pose proof (proj1 (argmax_mask_bound (map (fun v => Qgtb v x) l))) as Hb;
        fold (argmax_gt l x) in Hb
    end.
    destruct (_ =? 0); [unfold len; lia | exact Hb].
Qed.

(** Lines 652-688: the new left boundary is a valid bound, and it is
    moved inwards when there are too many extrema on the left. *)
Lemma adjust_left_bound (ext : list Z) (lo ref : Z) (K : Q) (Nleft Nright : Z)
      (lo' ref' Nr' : Z) :
  0 <= lo -> StronglySorted apart ext -> Forall (fun i => lo < i) ext ->
  adjust_left' ext lo ref K Nleft Nright = Ok (lo', ref', Nr') ->
  0 <= lo' /\ (Nbefore < Nleft -> lo < lo').
Proof.
  intros Hlo Hs Hr H. rewrite Forall_forall in Hr.
  unfold adjust_left in H. break_if H.
  - apply Z.ltb_lt in E. repeat break_bind H. injection H as <- _ _.
    pose proof (Hr _ (py_index_In _ _ _ E0)) as Ha.
    apply py_index_nth in E0; [|lia]. apply py_index_nth in E1; [|lia].
    assert (Hij : (Z.to_nat (Nleft - Nbefore - 1) < Z.to_nat (Nleft - Nbefore))%nat)
      by lia.
    pose proof (StronglySorted_nth ext _ _ a a0 Hs Hij E0 E1) as Hab.
    pose proof (int_mid_between a a0 Hab). lia.
  - apply Z.ltb_ge in E. split; [|lia].
    break_if H; [|injection H as <- _ _; exact Hlo].
    break_if H.
    + break_if H. break_if H.
      * repeat break_bind H. injection H as <- _ _. exact Hlo.
      * injection H as <- _ _. exact Hlo.
    + break_bind H. injection H as <- _ _.
      unfold argmax_gt. apply argmax_mask_bound.
Qed.

Local Abbreviation decide' :=
  (decide rpow curve_fit parabola_fit cubic_fit_at t0 t phase22 omega22
          Nbefore Nafter bnds TOL increase_idx_ref_if_needed refine_extrema).

Lemma detect_range (s : tstate) (d : detection) :
  window_inv s -> detect' s = Ok d ->
  StronglySorted apart (d_idx_extrema d) /\
  Forall (fun i => s_idx_lo s < i < s_idx_hi s - 1) (d_idx_extrema d) /\
  d_Nleft d = count_true (map (fun i => i <? s_idx_ref s) (d_idx_extrema d)) /\
  d_Nright d = count_true (map (fun i => s_idx_ref s <=? i) (d_idx_extrema d)) /\
  d_Nleft d + d_Nright d = len (d_idx_extrema d).
Proof.
  intros [_ [Hlo Hhi]] Hd.
  destruct (detect_peaks rpow find_peaks t0 t phase22 omega22 sign peaks_contract s d Hd)
    as [HNl [HNr [Hs Hr]]].
  repeat (split; [first [assumption | now apply Hr]|]).
  rewrite HNl, HNr. apply count_split.
Qed.

(** A pass that found the counts off and still left the window as it
    was: the window is the one the pass started with, and neither side
    has too many extrema. *)
Lemma unchanged_window (s : tstate) (d : detection) (K : Q) (lo hi ref Nr : Z) :
  window_inv s -> detect' s = Ok d ->
  adjust_left' (d_idx_extrema d) (s_idx_lo s) (s_idx_ref s) K (d_Nleft d) (d_Nright d)
  = Ok (lo, ref, Nr) ->
  adjust_right' (d_idx_extrema d) (s_idx_hi s) K Nr = Ok hi ->
  (0 <= lo /\ 0 <= hi) /\
  (lo = s_old_idx_lo s -> hi = s_old_idx_hi s ->
   lo = s_idx_lo s /\ hi = s_idx_hi s /\ d_Nleft d <= Nbefore /\ Nr <= Nafter).
Proof.
  intros Hinv Hd Hal Har.
  destruct (detect_range s d Hinv Hd) as [Hs [Hr _]].
  destruct Hinv as [Hold [Hlo Hhi]].
  assert (Hr1 : Forall (fun i => s_idx_lo s < i) (d_idx_extrema d)).
  { eapply Forall_impl; [|exact Hr]. cbv beta. intros; lia. }
  destruct (adjust_left_bound _ _ _ _ _ _ _ _ _ Hlo Hs Hr1 Hal) as [Hlo' Hin].
  destruct (adjust_right_bound _ _ _ _ _ _ Hlo Hhi Hr Har) as [Hhi' Hin'].
  split; [split; assumption|].
  intros El Eh. destruct Hold as [[H1 H2]|[H1 H2]]; [lia|].
  assert (lo = s_idx_lo s) by congruence.
  assert (hi = s_idx_hi s) by congruence.
  repeat split; try assumption.
  - destruct (Z_lt_le_dec Nbefore (d_Nleft d)) as [Hlt|Hle]; [|exact Hle].
    specialize (Hin Hlt). lia.
  - destruct (Z_lt_le_dec Nafter Nr) as [Hlt|Hle]; [|exact Hle].
    specialize (Hin' Hlt). lia.
Qed.

(** The window invariant is kept by every pass that goes round again. *)
Lemma body_window_inv (s s' : tstate) (why : again) :
  window_inv s -> body' s = Next why s' -> window_inv s'.
Proof.
  intros Hinv H.
  destruct (body_decide rpow find_peaks curve_fit parabola_fit cubic_fit_at t0 t
                        phase22 omega22 sign Nbefore Nafter bnds TOL
                        increase_idx_ref_if_needed refine_extrema s _ H)
    as [d [Hd Hdec]]; [discriminate|].
  destruct (decide_cases _ _ _ _ _ _ _ _ _ _ _ _ _ _ _ _ _ Hdec)
    as [[Hst _]|[_ [_ [arrs [K [_ [_ Hrest]]]]]]]; [discriminate|].
  cbv zeta in Hrest.
  assert (Hc : forall lo hi ref C,
             conclude curve_fit t0 bnds TOL s d (s_it s + 1) arrs K C lo hi ref
             = Ok (Next why s') ->
             s_idx_lo s' = lo /\ s_idx_hi s' = hi /\
             s_old_idx_lo s' = s_old_idx_lo s /\ s_old_idx_hi s' = s_old_idx_hi s).
  { intros lo hi ref C Hc.
    destruct (conclude_cases _ _ _ _ _ _ _ _ _ _ _ _ _ _ Hc)
      as [[Hst _]|[[Hst _]|[p' [_ [Hst _]]]]]; try discriminate.
    injection Hst as _ ->. cbn. auto. }
  destruct Hrest as [[_ [_ Hcon]]|[_ [lo [hi [ref [Nr [Hal [Har Hfin]]]]]]]].
  - destruct (Hc _ _ _ _ Hcon) as [E1 [E2 [E3 E4]]].
    unfold window_inv in *. rewrite E1, E2, E3, E4. exact Hinv.
  - destruct (unchanged_window s d K lo hi ref Nr Hinv Hd Hal Har) as [[Hlo Hhi] Hun].
    destruct Hfin as [[_ Hst]|[El [Eh Hcon]]].
    + injection Hst as _ ->. unfold window_inv. cbn. auto.
    + destruct (Hc _ _ _ _ Hcon) as [E1 [E2 [E3 E4]]].
      unfold window_inv. rewrite E1, E2, E3, E4. auto.
Qed.

(** A pass that returns, not beyond the 20th, a list of exactly
    [Nbefore + Nafter] extrema returns it with the wanted counts on the
    two sides of the returned reference index. *)
Lemma body_return_counts (s : tstate) (site : exit_site) (r : tracker_result) :
  window_inv s -> 0 <= Nbefore -> 0 <= Nafter -> s_it s + 1 <= 20 ->
  body' s = Return site r ->
  len (r_idx_extrema r) = Nbefore + Nafter ->
  counts_ok Nbefore Nafter r.
Proof.
  intros Hinv HNb HNa Hit H Hlen.
  destruct (body_decide rpow find_peaks curve_fit parabola_fit cubic_fit_at t0 t
                        phase22 omega22 sign Nbefore Nafter bnds TOL
                        increase_idx_ref_if_needed refine_extrema s _ H)
    as [d [Hd Hdec]]; [discriminate|].
  destruct (detect_range s d Hinv Hd) as [Hs [Hr [HNl [HNr Hsum]]]].
  pose proof (count_true_nonneg (map (fun i => i <? s_idx_ref s) (d_idx_extrema d))) as P1.
  pose proof (count_true_nonneg (map (fun i => s_idx_ref s <=? i) (d_idx_extrema d))) as P2.
  destruct (decide_cases _ _ _ _ _ _ _ _ _ _ _ _ _ _ _ _ _ Hdec)
    as [[Hst [HN|HN]]|[_ [_ [arrs [K [_ [_ Hrest]]]]]]]; [|lia|].
  { injection Hst as _ ->. unfold counts_ok. cbn in *.
    unfold d_N_extrema in HN. lia. }
  cbv zeta in Hrest.
  assert (Hc : forall lo hi ref C,
             conclude curve_fit t0 bnds TOL s d (s_it s + 1) arrs K C lo hi ref
             = Ok (Return site r) ->
             r_idx_extrema r = d_idx_extrema d /\ r_idx_ref r = ref).
  { intros lo hi ref C Hc.
    destruct (conclude_cases _ _ _ _ _ _ _ _ _ _ _ _ _ _ Hc)
      as [[Hst _]|[[Hst _]|[p' [_ [Hst _]]]]]; try discriminate;
      injection Hst as _ ->; cbn; auto. }
  destruct Hrest as [[El [Er Hcon]]|[Hmis [lo [hi [ref [Nr [Hal [Har Hfin]]]]]]]].
  - destruct (Hc _ _ _ _ Hcon) as [E1 E2].
    unfold counts_ok. rewrite E1, E2. split; congruence.
  - destruct Hfin as [[_ Hst]|[Elo [Ehi Hcon]]]; [discriminate|].
    destruct (Hc _ _ _ _ Hcon) as [E1 E2].
    destruct (unchanged_window s d K lo hi ref Nr Hinv Hd Hal Har) as [_ Hun].
    destruct (Hun Elo Ehi) as [_ [_ [HleL HleR]]].
    rewrite E1 in Hlen.
    destruct (adjust_left_ref phase22 Nbefore increase_idx_ref_if_needed
                              _ _ _ _ _ _ _ _ _ Hs HNr Hal)
      as [[_ ENr]|[_ [HltL [_ [_ [H2 [ENr [a [b [Ha [Hb [Hra [Hab Eref]]]]]]]]]]]]].
    + exfalso. subst Nr. lia.
    + assert (Hpos : 0 < count_true (map (fun i => s_idx_ref s <=? i) (d_idx_extrema d)))
        by lia.
      pose proof (first_at_or_after_others _ _ _ _ Hs Hpos Ha Hb) as Hothers.
      pose proof (int_mid_between a b Hab) as Hmid.
      assert (Hshift :
                count_true (map (fun i => i <? ref) (d_idx_extrema d))
                = count_true (map (fun i => i <? s_idx_ref s) (d_idx_extrema d)) + 1).
      { apply (count_lt_shift _ _ _ a Hs (py_index_In _ _ _ Ha)); [|lia].
        intros y Hy. destruct (Hothers y Hy) as [Hy1|[Hy1|Hy1]]; [auto | auto | right; right; lia]. }
      pose proof (count_split ref (d_idx_extrema d)) as Hsplit.
      unfold counts_ok. rewrite E1, E2. lia.
Qed.

(** The same for a loop that returns within [fuel] passes, none of them
    beyond the 20th. *)
Lemma loop_return_counts (fuel : nat) (s : tstate) (r : tracker_result) :
  window_inv s -> 0 <= Nbefore -> 0 <= Nafter ->
  s_it s + Z.of_nat fuel <= 20 ->
  loop' fuel s = Some (Ok r) ->
  len (r_idx_extrema r) = Nbefore + Nafter ->
  counts_ok Nbefore Nafter r.
Proof.
  intros Hinv HNb HNa. revert s Hinv.
  induction fuel as [|fuel IH]; intros s Hinv Hit H Hlen; [discriminate|].
  cbn [tracker_loop] in H. destruct (body' s) as [site r'|why s'|e] eqn:Eb.
  - injection H as <-.
    apply (body_return_counts s site r' Hinv HNb HNa); [lia | exact Eb | exact Hlen].
  - destruct (body_next_it rpow find_peaks curve_fit parabola_fit cubic_fit_at t0 t
                           phase22 omega22 sign Nbefore Nafter bnds TOL
                           increase_idx_ref_if_needed refine_extrema s s' why Eb)
      as [Hs' _].
    apply (IH s'); [exact (body_window_inv s s' why Hinv Eb) | lia | exact H | exact Hlen].
  - discriminate.
Qed.
End TrackerWindow.

(** C2 as stated fails: the call on the inspiral with a quiet stretch
    returns in its 21st pass, at line 580, the seven extrema it has just
    detected ([Nbefore + Nafter = 3 + 4]), two of them before the
    reference index 210 and five at or after it. *)
Lemma C2_counterexample_return_at_iteration_cap :
  exists r,
    gap_tracker = Ok r /\
    r_idx_extrema r = [185; 200; 215; 230; 245; 461; 464] /\
    r_idx_ref r = 210 /\
    len (r_idx_extrema r) = 3 + 4 /\
    count_true (map (fun i => i <? r_idx_ref r) (r_idx_extrema r)) = 2 /\
    count_true (map (fun i => r_idx_ref r <=? i) (r_idx_extrema r)) = 5 /\
    ~ counts_ok 3 4 r.
Proof.
  eexists. split; [vm_compute; reflexivity|].
  cbn [r_idx_extrema r_idx_ref].
  repeat (split; [reflexivity|]).
  intros [H _]. vm_compute in H. discriminate.
Qed.

(** C2 (amended). Under the guarantees of [find_peaks] (peaks strictly
    inside the array searched, in increasing order, no two adjacent) and
    for non-negative targets, every call of FindExtremaNearIdxRef that
    returns within its first 20 passes a list of exactly
    [Nbefore + Nafter] extrema returns it with exactly [Nbefore] extrema
    strictly before the returned (possibly advanced) reference index and
    exactly [Nafter] at or after it. (The return in the 21st pass, at
    line 580, hands back whatever was last detected.) *)
Theorem C2_window_counts_within_20_passes rpow fp cf pf cb t0 t ph om sign Nb Na bnds
        TOL incr refine idx_ref K p (s0 : tstate) (r : tracker_result) :
  find_peaks_contract fp -> 0 <= Nb -> 0 <= Na ->
  initial_state ph Nb Na idx_ref K p = Ok s0 ->
  tracker_loop rpow fp cf pf cb t0 t ph om sign Nb Na bnds TOL incr refine 20 s0
  = Some (Ok r) ->
  len (r_idx_extrema r) = Nb + Na ->
  FindExtremaNearIdxRef rpow fp cf pf cb t0 t ph om sign Nb Na bnds TOL incr refine
                        idx_ref K p = Ok r /\
  counts_ok Nb Na r.
Proof.
  intros Hc HNb HNa H0 Hloop Hlen. split.
  - unfold FindExtremaNearIdxRef. rewrite H0. cbn [bind].
    rewrite (tracker_loop_more_fuel rpow fp cf pf cb t0 t ph om sign Nb Na bnds TOL incr
               refine 20 21 s0 (Ok r) Hloop); [reflexivity | lia].
  - destruct (initial_state_facts _ _ _ _ _ _ _ H0)
      as [_ [Hit [_ [_ [Hol [Ohi [_ [_ [Hlo Hhi]]]]]]]]].
    apply (loop_return_counts rpow fp cf pf cb t0 t ph om sign Nb Na bnds TOL incr refine
                              Hc 20 s0 r); try assumption.
    + unfold window_inv. auto.
    + rewrite Hit. simpl. lia.
Qed.

Lemma C2_window_counts_within_20_passes_witness :
  exists s0 r,
    initial_state (sample_phase22 200) 3 4 10 (12 # 10) sample_p = Ok s0 /\
    sample_tracker 200 (regular_bumps 13) 10 (12 # 10) = Ok r /\
    r_idx_extrema r = [7; 22; 37; 52; 67; 82; 97] /\ r_idx_ref r = 44 /\
    counts_ok 3 4 r.
Proof.
  eexists. eexists.
  split; [vm_compute; reflexivity|].
  assert (H : sample_tracker 200 (regular_bumps 13) 10 (12 # 10)
              = Ok (mkResult [7; 22; 37; 52; 67; 82; 97] sample_p
                             (6333186975989760 # 5305678314021330) 44
                             [-193; -178; -163; -148; -133; -118; -103]%Q
                             [2; 2; 2; 2; 2; 2; 2]%Q
                             [7; 22; 37; 52; 67; 82; 97]%Q) /\
              counts_ok 3 4
                        (mkResult [7; 22; 37; 52; 67; 82; 97] sample_p
                                  (6333186975989760 # 5305678314021330) 44
                                  [-193; -178; -163; -148; -133; -118; -103]%Q
                                  [2; 2; 2; 2; 2; 2; 2]%Q
                                  [7; 22; 37; 52; 67; 82; 97]%Q)).
  { refine (C2_window_counts_within_20_passes
              int_rpow local_maxima fit_keeps_guess middle_vertex middle_value
              (-100) (sample_t 200) (sample_phase22 200)
              (sample_omega22 200 (regular_bumps 13))
              1 3 4 sample_bounds (1 # 100000000) true false 10 (12 # 10) sample_p
              _ _ local_maxima_contract _ _ _ _ _).
    - vm_compute. discriminate.
    - vm_compute. discriminate.
    - vm_compute. reflexivity.
    - vm_compute. reflexivity.
    - vm_compute. reflexivity. }
  destruct H as [H1 H2].
  split; [exact H1|]. split; [reflexivity|]. split; [reflexivity | exact H2].
Defined.

(** ** C10: the accepted values of [extrema_type], at the level of the methods *)

(** ** Where an exception can come from

    The extrema-type exception of the frequency-fits method is raised at
    line 166 only: no other statement of [find_extrema] or of
    FindExtremaNearIdxRef raises it, unless a collaborator does. *)

Create HintDb nu.

Ltac chase H :=
  repeat first
    [ discriminate H
    | match type of H with
      | bind ?m _ = Raise _ =>
          let E := fresh "E" in
          destruct m eqn:E; cbn [bind] in H;
          [| injection H as H; subst; exfalso; solve [eauto 2 with nu] ]
      | (if ?b then _ else _) = Raise _ => destruct b
      | (let '(_, _) := ?x in _) = Raise _ => destruct x
      | match ?x with Some _ => _ | None => _ end = Raise _ => destruct x
      end ].

Section Provenance.
Variable rpow : Q -> Q -> Q.
Variable find_peaks : list Q -> Z -> Q -> result (list Z).
Variable curve_fit :
  Q -> list Q -> list Q -> params -> bounds -> option Z -> result params.
Variable parabola_fit : list Q -> list Q -> result (Q * Q).
Variable cubic_fit_at : list Q -> list Q -> Q -> result Q.
Variable t0 : Q.
Variables t phase22 omega22 : list Q.
Variable sign : Z.
Variables Nbefore Nafter : Z.
Variable bnds : bounds.
Variable TOL : Q.
Variable increase_idx_ref_if_needed : bool.
Variable refine_extrema : bool.

Hypothesis find_peaks_nu :
  forall x w pr, find_peaks x w pr = Raise UnknownExtremaType -> False.
Hypothesis curve_fit_nu :
  forall c x y p b m, curve_fit c x y p b m = Raise UnknownExtremaType -> False.
Hypothesis parabola_fit_nu :
  forall x y, parabola_fit x y = Raise UnknownExtremaType -> False.
Hypothesis cubic_fit_at_nu :
  forall x y c, cubic_fit_at x y c = Raise UnknownExtremaType -> False.

Local Hint Resolve find_peaks_nu curve_fit_nu parabola_fit_nu cubic_fit_at_nu : nu.

Lemma py_index_nu {A : Type} (l : list A) (i : Z) :
  py_index l i = Raise UnknownExtremaType -> False.
Proof.
  unfold py_index. cbv zeta. intro H.
  destruct (_ || _); [discriminate|]. destruct (nth_error _ _); discriminate.
Qed.
Local Hint Resolve py_index_nu : nu.

Lemma take_at_nu {A : Type} (l : list A) (idx : list Z) :
  take_at l idx = Raise UnknownExtremaType -> False.
Proof.
  induction idx as [|i idx IH]; cbn [take_at]; intro H; [discriminate|].
  chase H.
Qed.
Local Hint Resolve take_at_nu : nu.

Lemma np_max_nu (a : list Q) : np_max a = Raise UnknownExtremaType -> False.
Proof. destruct a; discriminate. Qed.

Lemma np_min_nu (a : list Q) : np_min a = Raise UnknownExtremaType -> False.
Proof. destruct a; discriminate. Qed.
Local Hint Resolve np_max_nu np_min_nu : nu.

Lemma np_sub_nu (a : list Q) :
  forall b, np_sub a b = Raise UnknownExtremaType -> False.
Proof.
  induction a as [|x a IH]; intros [|y b] H; cbn [np_sub] in H; try discriminate.
  destruct (np_sub a b) eqn:E; cbn [bind] in H; [discriminate|].
  injection H as ->. exact (IH b E).
Qed.
Local Hint Resolve np_sub_nu : nu.

Lemma envelope_call_nu (c : Q) (ts : list Q) (p : params) :
  envelope_call rpow c ts p = Raise UnknownExtremaType -> False.
Proof. unfold envelope_call. cbv zeta. intro H. chase H; eauto 2 with nu. Qed.
Local Hint Resolve envelope_call_nu : nu.

Lemma fresh_peak_config_nu (lo hi : Z) (res : list Q) :
  fresh_peak_config t omega22 lo hi res = Raise UnknownExtremaType -> False.
Proof. unfold fresh_peak_config. intro H. chase H; eauto 2 with nu. Qed.

Lemma window_residual_nu (lo hi : Z) (p : params) :
  window_residual rpow t0 t omega22 lo hi p = Raise UnknownExtremaType -> False.
Proof. unfold window_residual, f_fit. intro H. chase H; eauto 2 with nu. Qed.
Local Hint Resolve fresh_peak_config_nu window_residual_nu : nu.

Lemma detect_nu (s : tstate) :
  detect rpow find_peaks t0 t phase22 omega22 sign s = Raise UnknownExtremaType -> False.
Proof.
  unfold detect. cbv zeta. intro H.
  destruct (window_residual _ _ _ _ _ _ _) eqn:E0; cbn [bind] in H;
    [|injection H as ->; eauto with nu].
  destruct (s_peakcfg s); cbn [bind] in H; chase H; eauto 2 with nu.
Qed.
Local Hint Resolve detect_nu : nu.

Lemma refine_one_nu (p : params) (arrs : list Q * list Q * list Q) (k : nat) :
  refine_one rpow parabola_fit cubic_fit_at t0 t phase22 omega22 p arrs k
  = Raise UnknownExtremaType -> False.
Proof.
  unfold refine_one, f_fit. destruct arrs as [[te oe] pe]. cbv zeta. intro H. chase H; eauto 2 with nu.
Qed.
Local Hint Resolve refine_one_nu : nu.

Lemma refine_from_nu (p : params) (n : nat) :
  forall arrs k,
    refine_from rpow parabola_fit cubic_fit_at t0 t phase22 omega22 p arrs k n
    = Raise UnknownExtremaType -> False.
Proof.
  induction n as [|n IH]; intros arrs k H; cbn [refine_from] in H; [discriminate|].
  chase H; eauto 2 with nu.
Qed.
Local Hint Resolve refine_from_nu : nu.

Lemma refine_nu (p : params) (d : detection) :
  refine rpow parabola_fit cubic_fit_at t0 t phase22 omega22 refine_extrema p d
  = Raise UnknownExtremaType -> False.
Proof.
  unfold refine. cbv zeta. destruct refine_extrema; [|discriminate]. eauto with nu.
Qed.

Lemma last_and_first_nu (a : list Q) :
  last_and_first a = Raise UnknownExtremaType -> False.
Proof. unfold last_and_first. intro H. chase H; eauto 2 with nu. Qed.
Local Hint Resolve last_and_first_nu : nu.

Lemma update_K_nu (K : Q) (n : Z) (ph : list Q) :
  update_K K n ph = Raise UnknownExtremaType -> False.
Proof. unfold update_K. intro H. chase H; eauto 2 with nu. Qed.

Lemma adjust_left_nu (idx : list Z) (lo ref : Z) (K : Q) (Nl Nr : Z) :
  adjust_left phase22 Nbefore increase_idx_ref_if_needed idx lo ref K Nl Nr
  = Raise UnknownExtremaType -> False.
Proof. unfold adjust_left. cbv zeta. intro H. chase H; eauto 2 with nu. Qed.

Lemma adjust_right_nu (idx : list Z) (hi : Z) (K : Q) (Nr : Z) :
  adjust_right phase22 Nafter idx hi K Nr = Raise UnknownExtremaType -> False.
Proof. unfold adjust_right. cbv zeta. intro H. chase H; eauto 2 with nu. Qed.

Lemma max_delta_omega_nu (a b : list Q) :
  max_delta_omega a b = Raise UnknownExtremaType -> False.
Proof. unfold max_delta_omega. intro H. chase H; eauto 2 with nu. Qed.
Local Hint Resolve refine_nu update_K_nu adjust_left_nu adjust_right_nu
      max_delta_omega_nu : nu.

Lemma conclude_nu (s : tstate) (d : detection) (it : Z)
      (arrs : list Q * list Q * list Q) (K : Q) (C lo hi ref : Z) :
  conclude curve_fit t0 bnds TOL s d it arrs K C lo hi ref
  = Raise UnknownExtremaType -> False.
Proof.
  unfold conclude. destruct arrs as [[te oe] pe]. cbv zeta. intro H. chase H; eauto 2 with nu.
Qed.
Local Hint Resolve conclude_nu : nu.

Lemma decide_nu (s : tstate) (d : detection) :
  decide rpow curve_fit parabola_fit cubic_fit_at t0 t phase22 omega22 Nbefore Nafter
         bnds TOL increase_idx_ref_if_needed refine_extrema s d
  = Raise UnknownExtremaType -> False.
Proof.
  unfold decide. cbv zeta. intro H. chase H; eauto 2 with nu.
Qed.
Local Hint Resolve decide_nu : nu.

Lemma conclude_ok_nu (s : tstate) (d : detection) (it : Z)
      (arrs : list Q * list Q * list Q) (K : Q) (C lo hi ref : Z) (e : exn) :
  conclude curve_fit t0 bnds TOL s d it arrs K C lo hi ref = Ok (Fail e) -> False.
Proof.
  intro H. destruct (conclude_cases _ _ _ _ _ _ _ _ _ _ _ _ _ _ H)
    as [[Hst _]|[[Hst _]|[p' [_ [Hst _]]]]]; discriminate.
Qed.

Lemma decide_ok_nu (s : tstate) (d : detection) (e : exn) :
  decide rpow curve_fit parabola_fit cubic_fit_at t0 t phase22 omega22 Nbefore Nafter
         bnds TOL increase_idx_ref_if_needed refine_extrema s d
  = Ok (Fail e) -> False.
Proof.
  intro H. destruct (decide_cases _ _ _ _ _ _ _ _ _ _ _ _ _ _ _ _ _ H)
    as [[Hst _]|[_ [_ [arrs [K [_ [_ Hrest]]]]]]]; [discriminate|].
  cbv zeta in Hrest.
  destruct Hrest as [[_ [_ Hcon]]|[_ [lo [hi [ref [Nr [_ [_ [[_ Hst]|[_ [_ Hcon]]]]]]]]]]];
    try discriminate; exact (conclude_ok_nu _ _ _ _ _ _ _ _ _ _ Hcon).
Qed.

Lemma body_nu (s : tstate) :
  body rpow find_peaks curve_fit parabola_fit cubic_fit_at t0 t phase22 omega22 sign
       Nbefore Nafter bnds TOL increase_idx_ref_if_needed refine_extrema s
  = Fail UnknownExtremaType -> False.
Proof.
  unfold body. intro H.
  destruct (detect _ _ _ _ _ _ _ _) eqn:Ed; cbn [bind] in H.
  - destruct (decide _ _ _ _ _ _ _ _ _ _ _ _ _ _ _ _) eqn:Edec.
    + subst. exact (decide_ok_nu _ _ _ Edec).
    + injection H as ->. eauto with nu.
  - injection H as ->. eauto with nu.
Qed.
Local Hint Resolve body_nu : nu.

Lemma tracker_loop_nu (fuel : nat) :
  forall s,
    tracker_loop rpow find_peaks curve_fit parabola_fit cubic_fit_at t0 t phase22 omega22
                 sign Nbefore Nafter bnds TOL increase_idx_ref_if_needed refine_extrema
                 fuel s
    = Some (Raise UnknownExtremaType) -> False.
Proof.
  induction fuel as [|fuel IH]; intros s H; cbn [tracker_loop] in H; [discriminate|].
  destruct (body _ _ _ _ _ _ _ _ _ _ _ _ _ _ _ _ _) as [site r|why s'|e] eqn:Eb.
  - discriminate.
  - exact (IH s' H).
  - injection H as ->. exact (body_nu s Eb).
Qed.

Lemma initial_state_nu (idx_ref : Z) (K : Q) (p : params) :
  initial_state phase22 Nbefore Nafter idx_ref K p = Raise UnknownExtremaType -> False.
Proof. unfold initial_state. cbv zeta. intro H. chase H; eauto 2 with nu. Qed.

Lemma tracker_call_nu (idx_ref : Z) (K : Q) (p : params) :
  FindExtremaNearIdxRef rpow find_peaks curve_fit parabola_fit cubic_fit_at t0 t phase22
                        omega22 sign Nbefore Nafter bnds TOL increase_idx_ref_if_needed
                        refine_extrema idx_ref K p
  = Raise UnknownExtremaType -> False.
Proof.
  unfold FindExtremaNearIdxRef. intro H.
  destruct (initial_state _ _ _ _ _ _) as [s0|e] eqn:E0; cbn [bind] in H.
  - destruct (tracker_loop _ _ _ _ _ _ _ _ _ _ _ _ _ _ _ _ _ _) as [res|] eqn:El;
      [|discriminate].
    subst res. exact (tracker_loop_nu _ _ El).
  - injection H as ->. exact (initial_state_nu _ _ _ E0).
Qed.
End Provenance.

Section ProvenanceDriving.
Variable rpow : Q -> Q -> Q.
Variable find_peaks : list Q -> Z -> Q -> result (list Z).
Variable curve_fit :
  Q -> list Q -> list Q -> params -> bounds -> option Z -> result params.
Variable parabola_fit : list Q -> list Q -> result (Q * Q).
Variable cubic_fit_at : list Q -> list Q -> Q -> result Q.
Variables t_analyse phase22_analyse omega22_analyse : list Q.
Variable refine_extrema : bool.

Hypothesis find_peaks_nu :
  forall x w pr, find_peaks x w pr = Raise UnknownExtremaType -> False.
Hypothesis curve_fit_nu :
  forall c x y p b m, curve_fit c x y p b m = Raise UnknownExtremaType -> False.
Hypothesis parabola_fit_nu :
  forall x y, parabola_fit x y = Raise UnknownExtremaType -> False.
Hypothesis cubic_fit_at_nu :
  forall x y c, cubic_fit_at x y c = Raise UnknownExtremaType -> False.

Lemma append_at_nu (o : extrema_out) (r : tracker_result) (k : Z) :
  append_at o r k = Raise UnknownExtremaType -> False.
Proof.
  unfold append_at. intro H.
  repeat (match type of H with
          | bind ?m _ = _ =>
              let E := fresh "E" in
              destruct m eqn:E; cbn [bind] in H;
              [|injection H as ->; exact (py_index_nu _ _ E)]
          end).
  discriminate.
Qed.

Lemma append_range_nu (r : tracker_result) (n : nat) :
  forall o k, append_range o r k n = Raise UnknownExtremaType -> False.
Proof.
  induction n as [|n IH]; intros o k H; cbn [append_range] in H; [discriminate|].
  destruct (append_at o r k) eqn:E; cbn [bind] in H.
  - exact (IH _ _ H).
  - injection H as ->. exact (append_at_nu _ _ _ E).
Qed.

Lemma report_nu (count : Z) (o : extrema_out) (r : tracker_result) :
  report count o r = Raise UnknownExtremaType -> False.
Proof.
  unfold report. intro H.
  destruct (2 * N - 1 <=? len (r_idx_extrema r)); [|discriminate].
  destruct (count =? 1); cbn [bind] in H.
  - destruct (append_range _ _ _ _) eqn:E; cbn [bind] in H.
    + exact (append_at_nu _ _ _ H).
    + injection H as ->. exact (append_range_nu _ _ _ _ E).
  - exact (append_at_nu _ _ _ H).
Qed.

Lemma drive_body_nu (c : Q) (sign : Z) (bounds0 : bounds) (g : dstate) :
  drive_body rpow find_peaks curve_fit parabola_fit cubic_fit_at
             t_analyse phase22_analyse omega22_analyse refine_extrema c sign bounds0 g
  = DFail UnknownExtremaType -> False.
Proof.
  unfold drive_body, tracker. intro H.
  destruct (FindExtremaNearIdxRef _ _ _ _ _ _ _ _ _ _ _ _ _ _ _ _ _ _ _) as [r|e] eqn:Et.
  - destruct (report _ _ _) as [o|e] eqn:Er.
    + destruct (len (r_idx_extrema r) <? 2 * N + 1); [discriminate|].
      destruct (py_index (r_idx_extrema r) N) eqn:Ea; cbn [bind] in H.
      * destruct (py_index (r_idx_extrema r) (N + 1)) eqn:Eb; cbn [bind] in H.
        -- destruct (1000 <? g_count g + 1); discriminate.
        -- injection H as ->. exact (py_index_nu _ _ Eb).
      * injection H as ->. exact (py_index_nu _ _ Ea).
    + injection H as ->. exact (report_nu _ _ _ Er).
  - injection H as ->.
    exact (tracker_call_nu rpow find_peaks curve_fit parabola_fit cubic_fit_at _ _ _ _ _
                           _ _ _ _ _ _ find_peaks_nu curve_fit_nu parabola_fit_nu
                           cubic_fit_at_nu _ _ _ Et).
Qed.

Lemma drive_nu (c : Q) (sign : Z) (bounds0 : bounds) (fuel : nat) :
  forall g,
    drive rpow find_peaks curve_fit parabola_fit cubic_fit_at
          t_analyse phase22_analyse omega22_analyse refine_extrema fuel c sign bounds0 g
    = Some (Raise UnknownExtremaType) -> False.
Proof.
  induction fuel as [|fuel IH]; intros g H; cbn [drive] in H; [discriminate|].
  destruct (drive_body _ _ _ _ _ _ _ _ _ _ _ _ _) as [o|g'|e] eqn:Eb.
  - discriminate.
  - exact (IH g' H).
  - injection H as ->. exact (drive_body_nu _ _ _ _ Eb).
Qed.

Lemma setup_global_fit_nu :
  setup_global_fit t_analyse phase22_analyse omega22_analyse
  = Raise UnknownExtremaType -> False.
Proof.
  unfold setup_global_fit. cbv zeta. intro H.
  repeat (match type of H with
          | bind ?m _ = _ =>
              let E := fresh "E" in
              destruct m eqn:E; cbn [bind] in H;
              [|injection H as ->; exact (py_index_nu _ _ E)]
          end).
  discriminate.
Qed.

Lemma initial_dstate_nu (p : params) :
  initial_dstate phase22_analyse p = Raise UnknownExtremaType -> False.
Proof.
  unfold initial_dstate. cbv zeta. intro H.
  destruct (py_index phase22_analyse 0) eqn:E; cbn [bind] in H.
  - destruct (_ =? 0); discriminate.
  - injection H as ->. exact (py_index_nu _ _ E).
Qed.

(** With an accepted name, [find_extrema] does not raise the
    extrema-type exception. *)
Lemma find_extrema_accepted_nu (s : string) (sg : Z) :
  FrequencyFits.sign_of s = Ok sg ->
  find_extrema rpow find_peaks curve_fit parabola_fit cubic_fit_at
               t_analyse phase22_analyse omega22_analyse refine_extrema s
  = Raise UnknownExtremaType -> False.
Proof.
  intros Hs H. unfold find_extrema in H. rewrite Hs in H. cbn [bind] in H.
  destruct (setup_global_fit _ _ _) as [gs|e] eqn:E1; cbn [bind] in H;
    [|injection H as ->; exact (setup_global_fit_nu E1)].
  destruct (curve_fit _ _ _ _ _ _) as [p|e] eqn:E2; cbn [bind] in H;
    [|injection H as ->; exact (curve_fit_nu _ _ _ _ _ _ E2)].
  destruct (initial_dstate _ _) as [g0|e] eqn:E3; cbn [bind] in H;
    [|injection H as ->; exact (initial_dstate_nu _ E3)].
  destruct (drive _ _ _ _ _ _ _ _ _ _ _ _ _ _) as [res|] eqn:E4; [|discriminate].
  subst res. exact (drive_nu _ _ _ _ _ E4).
Qed.
End ProvenanceDriving.

(** C10 as stated fails: with an accepted [extrema_type] the methods go
    on and can still raise. On empty data the frequency-fits method raises
    IndexError for 'troughs', one of its four names; the amplitude method
    raises whatever [find_peaks] raises, here for 'maxima'. *)
Lemma C10_counterexample_accepted_name_raises :
  In "troughs"%string frequency_fit_names /\
  find_extrema int_rpow local_maxima fit_keeps_guess middle_vertex middle_value
               [] [] [] false "troughs"
  = Raise IndexError /\
  In "maxima"%string amplitude_names /\
  Amplitude.find_extrema (fun _ => Raise LibraryError) [] "maxima" = Raise LibraryError.
Proof.
  split; [cbn; auto|]. split; [reflexivity|]. split; [cbn; auto | reflexivity].
Qed.

(** C10 (amended). Each method raises its extrema-type exception exactly
    when [extrema_type] is not one of its four names, as long as no
    collaborator raises that same exception: 'maxima', 'pericenters',
    'minima', 'apocenters' for eccDefinitionUsingAmplitude.find_extrema,
    and 'maxima', 'peaks', 'minima', 'troughs' for
    eccDefinitionUsingFrequencyFits.find_extrema. With a name that is not
    accepted the exception is raised whatever the data and the
    collaborators. The accepted names choose the polarity: 'maxima' and
    its alias give [sign = 1], 'minima' and its alias [sign = -1], and a
    method does the same for an alias as for the name it stands for. In
    particular 'pericenters' and 'apocenters' are rejected by the
    frequency-fits method and 'peaks' and 'troughs' by the amplitude
    method; the names both methods accept are 'maxima' and 'minima'. *)
Theorem C10_extrema_type_alias_sets :
  (forall fp data s,
      (forall x, fp x <> Raise BadExtremaType) ->
      (Amplitude.find_extrema fp data s = Raise BadExtremaType
       <-> ~ In s amplitude_names)) /\
  (forall fp data s, ~ In s amplitude_names ->
      Amplitude.find_extrema fp data s = Raise BadExtremaType) /\
  (forall fp data,
      Amplitude.find_extrema fp data "maxima"
      = fp (map (fun v => (inject_Z 1 * v)%Q) data) /\
      Amplitude.find_extrema fp data "pericenters"
      = Amplitude.find_extrema fp data "maxima" /\
      Amplitude.find_extrema fp data "minima"
      = fp (map (fun v => (inject_Z (-1) * v)%Q) data) /\
      Amplitude.find_extrema fp data "apocenters"
      = Amplitude.find_extrema fp data "minima") /\
  (forall rpow fp cf pf cb t ph om refine s,
      (forall x w pr, fp x w pr <> Raise UnknownExtremaType) ->
      (forall c x y p b m, cf c x y p b m <> Raise UnknownExtremaType) ->
      (forall x y, pf x y <> Raise UnknownExtremaType) ->
      (forall x y c, cb x y c <> Raise UnknownExtremaType) ->
      (find_extrema rpow fp cf pf cb t ph om refine s = Raise UnknownExtremaType
       <-> ~ In s frequency_fit_names)) /\
  (forall rpow fp cf pf cb t ph om refine s, ~ In s frequency_fit_names ->
      find_extrema rpow fp cf pf cb t ph om refine s = Raise UnknownExtremaType) /\
  (FrequencyFits.sign_of "maxima" = Ok 1 /\ FrequencyFits.sign_of "peaks" = Ok 1 /\
   FrequencyFits.sign_of "minima" = Ok (-1) /\
   FrequencyFits.sign_of "troughs" = Ok (-1)) /\
  (forall rpow fp cf pf cb t ph om refine,
      find_extrema rpow fp cf pf cb t ph om refine "peaks"
      = find_extrema rpow fp cf pf cb t ph om refine "maxima" /\
      find_extrema rpow fp cf pf cb t ph om refine "troughs"
      = find_extrema rpow fp cf pf cb t ph om refine "minima") /\
  (forall rpow fp cf pf cb t ph om refine,
      find_extrema rpow fp cf pf cb t ph om refine "pericenters"
      = Raise UnknownExtremaType /\
      find_extrema rpow fp cf pf cb t ph om refine "apocenters"
      = Raise UnknownExtremaType) /\
  (forall fp data,
      Amplitude.find_extrema fp data "peaks" = Raise BadExtremaType /\
      Amplitude.find_extrema fp data "troughs" = Raise BadExtremaType) /\
  (forall s, In s amplitude_names /\ In s frequency_fit_names
             <-> s = "maxima"%string \/ s = "minima"%string).
Proof.
  split.
  { intros fp data s Hfp. split.
    - intros H Hin. unfold Amplitude.find_extrema, amplitude_names in *.
      cbn [In] in Hin.
      destruct Hin as [<-|[<-|[<-|[<-|[]]]]]; cbn in H; exact (Hfp _ H).
    - intro Hn. unfold Amplitude.find_extrema.
      now rewrite (sign_of_raise_amplitude s Hn). }
  split.
  { intros fp data s Hn. unfold Amplitude.find_extrema.
    now rewrite (sign_of_raise_amplitude s Hn). }
  split; [intros; repeat split; reflexivity|].
  split.
  { intros rpow fp cf pf cb t ph om refine s Hfp Hcf Hpf Hcb. split.
    - intros H Hin.
      assert (Hs : exists sg, FrequencyFits.sign_of s = Ok sg).
      { unfold frequency_fit_names in Hin. cbn [In] in Hin.
        destruct Hin as [<-|[<-|[<-|[<-|[]]]]]; eexists; reflexivity. }
      destruct Hs as [sg Hs].
      exact (find_extrema_accepted_nu rpow fp cf pf cb t ph om refine
                                      Hfp Hcf Hpf Hcb s sg Hs H).
    - intro Hn. unfold find_extrema.
      now rewrite (sign_of_raise_frequency s Hn). }
  split.
  { intros. unfold find_extrema. now rewrite (sign_of_raise_frequency s H). }
  split; [repeat split; reflexivity|].
  split; [intros; split; reflexivity|].
  split; [intros; split; reflexivity|].
  split; [intros; split; reflexivity|].
  intro s. unfold amplitude_names, frequency_fit_names. cbn [In]. split.
  - intros [Ha Hf]. destruct Ha as [<-|[<-|[<-|[<-|[]]]]]; auto;
      destruct Hf as [Hf|[Hf|[Hf|[Hf|[]]]]]; discriminate.
  - intros [Hs | Hs]; subst s; auto 7.
Qed.

(** * Further properties of the code *)

(** ** The set-up of [find_extrema] *)

Lemma sign_of_accepts (s : string) :
  In s frequency_fit_names ->
  exists sg, FrequencyFits.sign_of s = Ok sg /\ (sg = 1 \/ sg = -1).
Proof.
  unfold frequency_fit_names. cbn [In].
  intros [<-|[<-|[<-|[<-|[]]]]]; eexists; (split; [reflexivity|auto]).
Qed.

Lemma argmax_gt_none (l : list Q) (x : Q) :
  Forall (fun v => (v <= x)%Q) l -> argmax_gt l x = 0.
Proof.
  intro H. unfold argmax_gt, argmax_mask.
  assert (Hn : forall i, first_true (map (fun v => Qgtb v x) l) i = None).
  { induction H as [|v l Hv _ IH]; intro i; cbn [map first_true]; [reflexivity|].
    replace (Qgtb v x) with false; [apply IH|].
    symmetry. unfold Qgtb. now apply Qltb_ge. }
  now rewrite Hn.
Qed.

(** X3. With an accepted [extrema_type] and no data to analyse (an empty
    phase array), eccDefinitionUsingFrequencyFits.find_extrema raises
    IndexError, at [phase22_analyse[0]], before any collaborator is
    called. *)
Theorem find_extrema_empty_data rpow fp cf pf cb t om refine (s : string) :
  In s frequency_fit_names ->
  find_extrema rpow fp cf pf cb t [] om refine s = Raise IndexError.
Proof.
  intro H. destruct (sign_of_accepts s H) as [sg [Hs _]].
  unfold find_extrema. rewrite Hs. reflexivity.
Qed.

Lemma find_extrema_empty_data_witness :
  find_extrema int_rpow local_maxima fit_keeps_guess middle_vertex middle_value
               [] [] [] false "troughs" = Raise IndexError.
Proof.
  apply find_extrema_empty_data. unfold frequency_fit_names. cbn [In]. auto.
Defined.

(** X4. When the global fit has returned and no phase sample exceeds the
    first one by more than [K*(N-0.001)*4*pi] with [K = 1.2] and [N = 3]
    (about 3.6 orbits), [find_extrema] raises its 'data set too short'
    exception instead of searching for extrema. *)
Theorem find_extrema_data_set_too_short rpow fp cf pf cb t ph om refine (s : string)
        (gs : global_setup) (p_global : params) (ph0 : Q) :
  In s frequency_fit_names ->
  setup_global_fit t ph om = Ok gs ->
  cf (gs_fit_center_time gs) (global_fit_times t gs) (py_prefix om (gs_idx_end gs))
     (gs_p0 gs) (gs_bounds0 gs) None = Ok p_global ->
  py_index ph 0 = Ok ph0 ->
  Forall (fun v => (v <= ph0 + (12 # 10) * (inject_Z N - (1 # 1000)) * four_pi)%Q) ph ->
  find_extrema rpow fp cf pf cb t ph om refine s = Raise DataSetTooShort.
Proof.
  intros Hs Hsetup Hfit Hph0 Hall.
  destruct (sign_of_accepts s Hs) as [sg [Hsg _]].
  unfold find_extrema. rewrite Hsg, Hsetup. cbn [bind]. rewrite Hfit. cbn [bind].
  unfold initial_dstate. rewrite Hph0. cbn [bind].
  rewrite (argmax_gt_none _ _ Hall). reflexivity.
Qed.

Lemma find_extrema_data_set_too_short_witness :
  sample_find_extrema 30 (regular_bumps 2) "maxima" = Raise DataSetTooShort.
Proof.
  unfold sample_find_extrema.
  eapply (find_extrema_data_set_too_short
            int_rpow local_maxima fit_keeps_guess middle_vertex middle_value
            (sample_t 30) (sample_phase22 30) (sample_omega22 30 (regular_bumps 2))
            false "maxima").
  - unfold frequency_fit_names. cbn [In]. auto.
  - vm_compute. reflexivity.
  - reflexivity.
  - vm_compute. reflexivity.
  - vm_compute. repeat constructor; discriminate.
Defined.

Lemma setup_global_fit_fields (t ph om : list Q) (gs : global_setup) :
  setup_global_fit t ph om = Ok gs ->
  exists ph0 t_first t_last om_first om_end,
    py_index ph 0 = Ok ph0 /\
    py_index t 0 = Ok t_first /\ py_index t (-1) = Ok t_last /\
    py_index om 0 = Ok om_first /\ py_index om (gs_idx_end gs) = Ok om_end /\
    gs_idx_end gs
    = (if argmax_gt ph (ph0 + 10 * four_pi)%Q =? 0 then -1
       else argmax_gt ph (ph0 + 10 * four_pi)%Q) /\
    gs_fit_center_time gs = ((1 # 2) * (t_first + t_last))%Q /\
    gs_p0 gs
    = mkParams ((1 # 2) * (om_first + om_end))
               (- - (3 # 8) * ((1 # 2) * (om_first + om_end))
                / - ((1 # 2) * (t_first + t_last))) 0 /\
    gs_bounds0 gs
    = mkBounds (mkParams 0 0 ((8 # 10) * t_last))
               (mkParams (10 * ((1 # 2) * (om_first + om_end)))
                         (10 * ((1 # 2) * (om_first + om_end))
                          / - ((1 # 2) * (t_first + t_last)))
                         (- ((1 # 2) * (t_first + t_last)))).
Proof.
  unfold setup_global_fit. intro H.
  destruct (py_index ph 0) as [ph0|] eqn:E1; [|discriminate]. cbn [bind] in H.
  destruct (py_index t 0) as [tf|] eqn:E2; [|discriminate]. cbn [bind] in H.
  destruct (py_index t (-1)) as [tl|] eqn:E3; [|discriminate]. cbn [bind] in H.
  destruct (py_index om 0) as [o0|] eqn:E4; [|discriminate]. cbn [bind] in H.
  match type of H with
  | context [py_index om ?i] =>
      destruct (py_index om i) as [oe|] eqn:E5; [|discriminate]
  end.
  cbn [bind] in H. injection H as <-. cbn.
  exists ph0, tf, tl, o0, oe. repeat (split; [first [reflexivity | assumption]|]).
  reflexivity.
Qed.

(** X5. For data aligned at the merger (last analysed time not positive,
    centre time of the series negative) and a positive initial frequency
    guess, the bounds of the global fit are a proper box (each lower bound
    strictly below its upper bound) and the initial guess [p0] lies inside
    it. When the analysed series ends after [t = 0], the initial guess
    [T = 0] lies below the lower bound [0.8*t[-1]] on [T], so [p0] is
    outside the box. *)
Theorem global_fit_guess_feasible (t ph om : list Q) (gs : global_setup) :
  setup_global_fit t ph om = Ok gs ->
  (0 < f0 (gs_p0 gs))%Q -> (gs_fit_center_time gs < 0)%Q ->
  ((last t 0 <= 0)%Q ->
   strict_bounds (gs_bounds0 gs) /\ within_bounds (gs_bounds0 gs) (gs_p0 gs)) /\
  ((0 < last t 0)%Q -> ~ within_bounds (gs_bounds0 gs) (gs_p0 gs)).
Proof.
  intros Hsetup.
  destruct (setup_global_fit_fields t ph om gs Hsetup)
    as [ph0 [tf [tl [o0 [oe [_ [_ [Htl [_ [_ [_ [Hc [Hp Hb]]]]]]]]]]]]].
  rewrite (py_index_last t tl 0 Htl) in *.
  rewrite Hp, Hb, Hc. cbn [f0 f1 T lower upper].
  set (g := ((1 # 2) * (o0 + oe))%Q). set (c := ((1 # 2) * (tf + last t 0))%Q).
  intros Hg Hcneg.
  assert (Hinv : (0 < / - c)%Q) by (apply Qinv_lt_0_compat; lra).
  assert (H1 : (0 < 10 * g / - c)%Q).
  { unfold Qdiv. apply Qmult_lt_0_compat; [lra | exact Hinv]. }
  assert (H2 : (0 <= - - (3 # 8) * g / - c)%Q).
  { unfold Qdiv. apply Qlt_le_weak. apply Qmult_lt_0_compat; [lra | exact Hinv]. }
  assert (H3 : (- - (3 # 8) * g / - c <= 10 * g / - c)%Q).
  { unfold Qdiv. apply Qmult_le_compat_r; [lra | apply Qlt_le_weak; exact Hinv]. }
  split.
  - intro Hlast. unfold strict_bounds, within_bounds. cbn [f0 f1 T lower upper].
    repeat split; try assumption; lra.
  - intros Hlast [_ [_ [HT _]]]. cbn [f0 f1 T lower upper] in HT. lra.
Qed.

Lemma global_fit_guess_feasible_witness :
  exists gs,
    setup_global_fit (sample_t 200) (sample_phase22 200)
                     (sample_omega22 200 (regular_bumps 13)) = Ok gs /\
    strict_bounds (gs_bounds0 gs) /\ within_bounds (gs_bounds0 gs) (gs_p0 gs).
Proof.
  eexists. split; [vm_compute; reflexivity|].
  refine (proj1 (global_fit_guess_feasible
                   (sample_t 200) (sample_phase22 200)
                   (sample_omega22 200 (regular_bumps 13)) _ _ _ _) _).
  - vm_compute. reflexivity.
  - reflexivity.
  - reflexivity.
  - vm_compute. discriminate.
Defined.

Lemma py_prefix_minus_one (l : list Q) : py_prefix l (-1) = removelast l.
Proof.
  rewrite py_prefix_firstn, removelast_firstn_len. f_equal.
  unfold slice_bound, len. cbn [Z.ltb Z.compare]. lia.
Qed.

(** X6. When the analysed phase never exceeds its first value by more
    than 10 orbits ([10*4*pi]), the global fit is made on every sample
    except the last one: [idx_end] becomes [-1] and the fitted times are
    [t_analyse[:-1]]. *)
Theorem global_fit_short_data_drops_last (t ph om : list Q) (gs : global_setup) (ph0 : Q) :
  setup_global_fit t ph om = Ok gs ->
  py_index ph 0 = Ok ph0 ->
  Forall (fun v => (v <= ph0 + 10 * four_pi)%Q) ph ->
  gs_idx_end gs = -1 /\
  global_fit_times t gs = removelast t /\
  py_prefix om (gs_idx_end gs) = removelast om.
Proof.
  intros Hsetup Hph0 Hall.
  destruct (setup_global_fit_fields t ph om gs Hsetup)
    as [ph0' [tf [tl [o0 [oe [Hph0' [_ [_ [_ [_ [Hend _]]]]]]]]]]].
  assert (ph0' = ph0) by congruence. subst ph0'.
  rewrite (argmax_gt_none _ _ Hall) in Hend. cbn in Hend.
  unfold global_fit_times. rewrite Hend.
  repeat split; apply py_prefix_minus_one.
Qed.

Lemma global_fit_short_data_drops_last_witness :
  exists gs,
    setup_global_fit (sample_t 30) (sample_phase22 30)
                     (sample_omega22 30 (regular_bumps 2)) = Ok gs /\
    gs_idx_end gs = -1 /\
    global_fit_times (sample_t 30) gs = removelast (sample_t 30) /\
    py_prefix (sample_omega22 30 (regular_bumps 2)) (gs_idx_end gs)
    = removelast (sample_omega22 30 (regular_bumps 2)).
Proof.
  eexists. split; [vm_compute; reflexivity|].
  apply (global_fit_short_data_drops_last
           (sample_t 30) (sample_phase22 30) (sample_omega22 30 (regular_bumps 2))
           _ 0%Q).
  - vm_compute. reflexivity.
  - reflexivity.
  - vm_compute. repeat constructor; discriminate.
Defined.

(** ** The analysed stretch of data *)

Lemma argmin_from_spec (a : list Q) :
  forall best_i best i,
    let j := argmin_from best_i best i a in
    (j = best_i /\ Forall (fun v => (best <= v)%Q) a) \/
    (i <= j < i + len a /\
     exists vj, nth_error a (Z.to_nat (j - i)) = Some vj /\ (vj < best)%Q /\
       (forall k vk, (k < Z.to_nat (j - i))%nat -> nth_error a k = Some vk ->
                     (vj < vk)%Q) /\
       Forall (fun v => (vj <= v)%Q) a).
Proof.
  induction a as [|v rest IH]; intros best_i best i; cbv zeta.
  - left. split; [reflexivity | constructor].
  - cbn [argmin_from].
    assert (Hl : len (v :: rest) = 1 + len rest)
      by (unfold len; cbn [List.length]; lia).
    assert (Hl0 : 0 <= len rest) by (unfold len; lia).
    destruct (Qltb v best) eqn:E.
    + apply Qltb_lt in E. right.
      destruct (IH i v (i + 1)) as [[Hj Hall]|[Hr [vj [Hn [Hlt [Hbefore Hall]]]]]].
      * rewrite Hj. split; [lia|]. exists v. rewrite Z.sub_diag.
        split; [reflexivity|]. split; [exact E|]. split.
        { intros k vk Hk. cbn in Hk. lia. }
        { constructor; [apply Qle_refl | exact Hall]. }
      * split; [lia|]. exists vj.
        replace (Z.to_nat (argmin_from i v (i + 1) rest - i))
          with (S (Z.to_nat (argmin_from i v (i + 1) rest - (i + 1)))) by lia.
        split; [exact Hn|]. split; [eapply Qlt_trans; eauto|]. split.
        { intros [|k] vk Hk Hnk; cbn [nth_error] in Hnk.
          - injection Hnk as <-. exact Hlt.
          - apply (Hbefore k vk); [lia | exact Hnk]. }
        { constructor; [apply Qlt_le_weak; exact Hlt | exact Hall]. }
    + apply Qltb_ge in E.
      destruct (IH best_i best (i + 1)) as [[Hj Hall]|[Hr [vj [Hn [Hlt [Hbefore Hall]]]]]].
      * left. split; [exact Hj|]. constructor; assumption.
      * right. split; [lia|]. exists vj.
        replace (Z.to_nat (argmin_from best_i best (i + 1) rest - i))
          with (S (Z.to_nat (argmin_from best_i best (i + 1) rest - (i + 1)))) by lia.
        split; [exact Hn|]. split; [exact Hlt|]. split.
        { intros [|k] vk Hk Hnk; cbn [nth_error] in Hnk.
          - injection Hnk as <-. eapply Qlt_le_trans; eauto.
          - apply (Hbefore k vk); [lia | exact Hnk]. }
        { constructor; [|exact Hall].
          apply Qlt_le_weak. eapply Qlt_le_trans; eauto. }
Qed.

(** [np.argmin] returns a valid index, of an entry strictly smaller than
    every entry before it. *)
Lemma np_argmin_spec (a : list Q) (j : Z) :
  np_argmin a = Ok j ->
  0 <= j < len a /\
  exists vj, nth_error a (Z.to_nat j) = Some vj /\
    forall k vk, (k < Z.to_nat j)%nat -> nth_error a k = Some vk -> (vj < vk)%Q.
Proof.
  destruct a as [|v rest]; cbn [np_argmin]; [discriminate|].
  intro H. injection H as <-.
  assert (Hl : len (v :: rest) = 1 + len rest)
    by (unfold len; cbn [List.length]; lia).
  assert (Hl0 : 0 <= len rest) by (unfold len; lia).
  destruct (argmin_from_spec rest 0 v 1) as [[Hj _]|[Hr [vj [Hn [Hlt [Hbefore _]]]]]].
  - rewrite Hj. split; [lia|]. exists v. split; [reflexivity|].
    intros k vk Hk. cbn in Hk. lia.
  - split; [lia|]. exists vj.
    replace (Z.to_nat (argmin_from 0 v 1 rest))
      with (S (Z.to_nat (argmin_from 0 v 1 rest - 1))) by lia.
    split; [exact Hn|].
    intros [|k] vk Hk Hnk; cbn [nth_error] in Hnk.
    + injection Hnk as <-. exact Hlt.
    + apply (Hbefore k vk); [lia | exact Hnk].
Qed.

Lemma increasingb_nth (l : list Q) :
  increasingb l = true ->
  forall i j a b, (i < j)%nat -> nth_error l i = Some a -> nth_error l j = Some b ->
                  (a < b)%Q.
Proof.
  induction l as [|x l IH]; intros Hinc i j a b Hij Hi Hj.
  - destruct i; discriminate.
  - destruct j as [|j]; [lia|]. cbn [nth_error] in Hj.
    destruct i as [|i]; cbn [nth_error] in Hi.
    + injection Hi as <-. apply (increasingb_head x l Hinc).
      eapply nth_error_In; eauto.
    + apply (IH (increasingb_tail _ _ Hinc) i j); [lia | assumption | assumption].
Qed.

Lemma py_prefix_within (l : list Q) (i : Z) :
  0 <= i <= len l ->
  py_prefix l i = firstn (Z.to_nat i) l /\
  List.length (py_prefix l i) = Z.to_nat i.
Proof.
  intro Hi. rewrite py_prefix_firstn.
  assert (E : slice_bound (len l) i = i).
  { unfold slice_bound.
    replace (i <? 0) with false by (symmetry; apply Z.ltb_ge; lia). lia. }
  rewrite E. split; [reflexivity|].
  rewrite length_firstn. unfold len in Hi. lia.
Qed.

(** X7. When a number of orbits [k >= 0] is to be excluded before the
    merger, the phase samples increase strictly and the time, frequency
    and phase arrays are equally long, the constructor keeps
    a common prefix of the time, frequency and phase arrays that stops at
    or before the sample closest to the merger time: the three analysed
    arrays have the same length [idx <= merger_idx], so the merger sample
    itself and everything after it are left out. *)
Theorem init_analyse_stops_before_merger (t phase22 omega22 : list Q) (t_merger k : Q)
        (a : analysed) :
  init_analyse t phase22 omega22 t_merger (Some k) = Ok a ->
  (0 <= k)%Q -> increasingb phase22 = true ->
  len t = len phase22 -> len omega22 = len phase22 ->
  exists merger_idx idx,
    argmin_abs t t_merger = Ok merger_idx /\
    0 <= idx <= merger_idx /\ merger_idx < len t /\
    a_t_analyse a = firstn (Z.to_nat idx) t /\
    a_omega22_analyse a = firstn (Z.to_nat idx) omega22 /\
    a_phase22_analyse a = firstn (Z.to_nat idx) phase22 /\
    List.length (a_t_analyse a) = Z.to_nat idx /\
    List.length (a_omega22_analyse a) = Z.to_nat idx /\
    List.length (a_phase22_analyse a) = Z.to_nat idx.
Proof.
  intros H Hk Hinc Hlt Hlo. unfold init_analyse in H.
  destruct (argmin_abs t t_merger) as [m|] eqn:Em; cbn [bind] in H; [|discriminate].
  destruct (py_index phase22 m) as [pm|] eqn:Epm; cbn [bind] in H; [|discriminate].
  destruct (argmin_abs phase22 (pm - four_pi * k)) as [idx|] eqn:Eidx;
    cbn [bind] in H; [|discriminate].
  injection H as <-. cbn [a_t_analyse a_omega22_analyse a_phase22_analyse].
  unfold argmin_abs in Em, Eidx.
  destruct (np_argmin_spec _ _ Em) as [Hm _].
  destruct (np_argmin_spec _ _ Eidx) as [Hidx [vj [Hvj Hfirst]]].
  unfold len in Hm, Hidx. rewrite length_map in Hm, Hidx. fold (len t) in Hm.
  fold (len phase22) in Hidx.
  assert (Hle : idx <= m).
  { destruct (Z_le_gt_dec idx m) as [Hle|Hgt]; [exact Hle|]. exfalso.
    apply py_index_nth in Epm; [|lia].
    rewrite nth_error_map in Hvj.
    destruct (nth_error phase22 (Z.to_nat idx)) as [pj|] eqn:Epj; [|discriminate].
    cbn in Hvj. injection Hvj as <-.
    assert (Hmj : (Z.to_nat m < Z.to_nat idx)%nat) by lia.
    pose proof (increasingb_nth phase22 Hinc _ _ pm pj Hmj Epm Epj) as Hlt'.
    specialize (Hfirst (Z.to_nat m) (Qabs (pm - (pm - four_pi * k))) Hmj).
    rewrite nth_error_map, Epm in Hfirst. specialize (Hfirst eq_refl).
    assert (H4 : (0 < four_pi)%Q) by reflexivity.
    assert (H4k : (0 <= four_pi * k)%Q)
      by (apply Qmult_le_0_compat; [apply Qlt_le_weak; exact H4 | exact Hk]).
    rewrite (Qabs_pos (pj - (pm - four_pi * k))) in Hfirst by lra.
    rewrite (Qabs_pos (pm - (pm - four_pi * k))) in Hfirst by lra.
    lra. }
  exists m, idx. split; [reflexivity|]. split; [lia|]. split; [lia|].
  destruct (py_prefix_within t idx) as [E1 L1]; [lia|].
  destruct (py_prefix_within omega22 idx) as [E2 L2]; [lia|].
  destruct (py_prefix_within phase22 idx) as [E3 L3]; [lia|].
  auto 10.
Qed.

Lemma init_analyse_stops_before_merger_witness :
  exists a merger_idx idx,
    init_analyse (sample_t 200) (sample_phase22 200)
                 (sample_omega22 200 (regular_bumps 13)) 0%Q (Some 2%Q) = Ok a /\
    argmin_abs (sample_t 200) 0%Q = Ok merger_idx /\
    0 <= idx <= merger_idx /\ merger_idx < len (sample_t 200) /\
    a_t_analyse a = firstn (Z.to_nat idx) (sample_t 200) /\
    a_omega22_analyse a
    = firstn (Z.to_nat idx) (sample_omega22 200 (regular_bumps 13)) /\
    a_phase22_analyse a = firstn (Z.to_nat idx) (sample_phase22 200) /\
    List.length (a_t_analyse a) = Z.to_nat idx /\
    List.length (a_omega22_analyse a) = Z.to_nat idx /\
    List.length (a_phase22_analyse a) = Z.to_nat idx.
Proof.
  eexists.
  assert (H : init_analyse (sample_t 200) (sample_phase22 200)
                (sample_omega22 200 (regular_bumps 13)) 0%Q (Some 2%Q)
              = Ok (mkAnalysed (firstn 174 (sample_t 200))
                               (firstn 174 (sample_omega22 200 (regular_bumps 13)))
                               (firstn 174 (sample_phase22 200))))
    by (vm_compute; reflexivity).
  destruct (init_analyse_stops_before_merger
              (sample_t 200) (sample_phase22 200)
              (sample_omega22 200 (regular_bumps 13)) 0%Q 2%Q _ H)
    as [m [idx Hrest]].
  - discriminate.
  - vm_compute. reflexivity.
  - reflexivity.
  - reflexivity.
  - exists m, idx. split; [exact H | exact Hrest].
Defined.

(** ** Further properties of the tracker *)

Lemma take_at_in_range {A : Type} (l : list A) (idx : list Z) (r : list A) :
  take_at l idx = Ok r -> Forall (fun i => - len l <= i < len l) idx.
Proof.
  revert r. induction idx as [|i idx IH]; intros r H; [constructor|].
  cbn [take_at] in H.
  destruct (py_index l i) as [a|] eqn:Ei; cbn [bind] in H; [|discriminate].
  destruct (take_at l idx) as [r'|] eqn:Er; cbn [bind] in H; [|discriminate].
  constructor; [|exact (IH r' eq_refl)].
  unfold py_index in Ei. cbv zeta in Ei.
  destruct (i <? 0) eqn:Eneg.
  - apply Z.ltb_lt in Eneg.
    destruct ((i + len l <? 0) || (len l <=? i + len l)) eqn:E; [discriminate|].
    apply orb_false_iff in E. destruct E as [E1 E2].
    apply Z.ltb_ge in E1. lia.
  - apply Z.ltb_ge in Eneg.
    destruct ((i <? 0) || (len l <=? i)) eqn:E; [discriminate|].
    apply orb_false_iff in E. destruct E as [E1 E2].
    apply Z.leb_gt in E2. lia.
Qed.

(** X8. Under the guarantees of [find_peaks], the extrema indices handed
    back by FindExtremaNearIdxRef are in strictly increasing order, no two
    of them adjacent, and each is a valid position of the time series
    other than the first. *)
Theorem tracker_extrema_sorted_in_range rpow fp cf pf cb t0 t ph om sign Nb Na bnds TOL
        incr refine idx_ref K p (r : tracker_result) :
  find_peaks_contract fp ->
  FindExtremaNearIdxRef rpow fp cf pf cb t0 t ph om sign Nb Na bnds TOL incr refine
                        idx_ref K p = Ok r ->
  StronglySorted apart (r_idx_extrema r) /\
  Forall (fun i => 0 < i < len t) (r_idx_extrema r).
Proof.
  intros Hc H.
  destruct (tracker_call_loop _ _ _ _ _ _ _ _ _ _ _ _ _ _ _ _ _ _ _ _ H)
    as [s0 [H0 Hloop]].
  destruct (initial_state_facts _ _ _ _ _ _ _ H0)
    as [_ [_ [_ [_ [Hol [Ohi [_ [_ [Hlo Hhi]]]]]]]]].
  refine (loop_invariant rpow fp cf pf cb t0 t ph om sign Nb Na bnds TOL incr refine
            window_inv
            (fun r => StronglySorted apart (r_idx_extrema r) /\
                      Forall (fun i => 0 < i < len t) (r_idx_extrema r))
            _ _ 21%nat s0 r _ Hloop).
  - intros s why s' Hinv Hb.
    exact (body_window_inv rpow fp cf pf cb t0 t ph om sign Nb Na bnds TOL incr refine
                           Hc s s' why Hinv Hb).
  - intros s site r' Hinv Hb.
    destruct (body_return rpow fp cf pf cb t0 t ph om sign Nb Na bnds TOL incr refine
                          s site r' Hb) as [d [Hd [Hidx _]]].
    destruct (detect_range rpow fp t0 t ph om sign Hc s d Hinv Hd) as [Hs [Hr _]].
    destruct (detect_arrays rpow fp t0 t ph om sign s d Hd) as [Ht _].
    pose proof (take_at_in_range _ _ _ Ht) as Hin.
    rewrite Hidx. split; [exact Hs|].
    destruct Hinv as [_ [Hlo' _]].
    rewrite Forall_forall in *. intros i Hi.
    specialize (Hr i Hi). specialize (Hin i Hi). cbv beta in *. lia.
  - unfold window_inv. auto.
Qed.

Lemma tracker_extrema_sorted_in_range_witness :
  exists r,
    sample_tracker 200 (regular_bumps 13) 150 (12 # 10) = Ok r /\
    StronglySorted apart (r_idx_extrema r) /\
    Forall (fun i => 0 < i < len (sample_t 200)) (r_idx_extrema r).
Proof.
  eexists. split; [vm_compute; reflexivity|].
  apply (tracker_extrema_sorted_in_range
           int_rpow local_maxima fit_keeps_guess middle_vertex middle_value
           (-100) (sample_t 200) (sample_phase22 200)
           (sample_omega22 200 (regular_bumps 13))
           1 3 4 sample_bounds (1 # 100000000) true false 150 (12 # 10) sample_p).
  - exact local_maxima_contract.
  - vm_compute. reflexivity.
Defined.

(** X9. When the first pass of FindExtremaNearIdxRef detects no extremum
    in its window, the call returns at once with an empty index list,
    empty arrays, and the fit parameters, [K] and reference index it was
    given: the caller's warm-start values are handed back untouched. *)
Theorem tracker_no_extrema_returns_inputs rpow fp cf pf cb t0 t ph om sign Nb Na bnds TOL
        incr refine idx_ref K p (s0 : tstate) (d : detection) :
  initial_state ph Nb Na idx_ref K p = Ok s0 ->
  detect rpow fp t0 t ph om sign s0 = Ok d ->
  d_idx_extrema d = [] ->
  FindExtremaNearIdxRef rpow fp cf pf cb t0 t ph om sign Nb Na bnds TOL incr refine
                        idx_ref K p
  = Ok (mkResult [] p K idx_ref [] [] []).
Proof.
  intros H0 Hd Hnil.
  destruct (initial_state_facts _ _ _ _ _ _ _ H0) as [Href [_ [HK [Hp _]]]].
  destruct (detect_arrays rpow fp t0 t ph om sign s0 d Hd) as [Ht [Ho Hph]].
  rewrite Hnil in Ht, Ho, Hph. cbn [take_at] in Ht, Ho, Hph.
  injection Ht as Ht. injection Ho as Ho. injection Hph as Hph.
  unfold FindExtremaNearIdxRef. rewrite H0. cbn [bind tracker_loop].
  unfold body. rewrite Hd. cbn [bind]. unfold decide, d_N_extrema.
  rewrite Hnil. cbn [len List.length Z.of_nat Z.eqb orb].
  now rewrite <- Ht, <- Ho, <- Hph, Href, HK, Hp.
Qed.

Lemma tracker_no_extrema_returns_inputs_witness :
  sample_tracker 200 [] 46 (12 # 10) = Ok (mkResult [] sample_p (12 # 10) 46 [] [] []).
Proof.
  unfold sample_tracker.
  eapply (tracker_no_extrema_returns_inputs
            int_rpow local_maxima fit_keeps_guess middle_vertex middle_value
            (-100) (sample_t 200) (sample_phase22 200) (sample_omega22 200 [])
            1 3 4 sample_bounds (1 # 100000000) true false 46 (12 # 10) sample_p).
  - vm_compute. reflexivity.
  - vm_compute. reflexivity.
  - reflexivity.
Defined.

Lemma py_index_last_ok {A : Type} (l : list A) :
  0 < len l -> exists a, py_index l (-1) = Ok a.
Proof.
  intro H. unfold py_index. change (-1 <? 0) with true. cbv zeta iota.
  assert (E1 : (-1 + len l <? 0) = false) by (apply Z.ltb_ge; lia).
  assert (E2 : (len l <=? -1 + len l) = false) by (apply Z.leb_gt; lia).
  rewrite E1, E2. cbn [orb].
  destruct (nth_error l (Z.to_nat (-1 + len l))) as [a|] eqn:E.
  - eexists; reflexivity.
  - apply nth_error_None in E. unfold len in *. lia.
Qed.

Lemma update_K_ok (K : Q) (n : Z) (phase22_extrema : list Q) :
  len phase22_extrema = n -> exists K', update_K K n phase22_extrema = Ok K'.
Proof.
  intro Hn. unfold update_K. destruct (2 <=? n) eqn:E; [|eexists; reflexivity].
  apply Z.leb_le in E. unfold last_and_first.
  destruct (py_index_last_ok phase22_extrema) as [l Hl]; [lia|].
  destruct (py_index_ok phase22_extrema 0) as [f [Hf _]]; [lia|].
  rewrite Hl, Hf. cbn [bind]. eexists; reflexivity.
Qed.

(** X10. With [increase_idx_ref_if_needed] false (and refinement off), a
    pass not beyond the 20th that starts with [idx_lo = 0], finds at least
    one extremum and finds fewer than [Nbefore] of them before the
    reference index raises the 'could not identify ... extrema to the
    left' exception: there is no data to the left and the reference index
    may not be moved. *)
Theorem tracker_raises_when_left_side_short rpow fp cf pf cb t0 t ph om sign Nb Na bnds
        TOL (s : tstate) (d : detection) :
  detect rpow fp t0 t ph om sign s = Ok d ->
  d_N_extrema d <> 0 -> s_it s + 1 <= 20 ->
  d_Nleft d < Nb -> s_idx_lo s = 0 ->
  body rpow fp cf pf cb t0 t ph om sign Nb Na bnds TOL false false s
  = Fail CouldNotIdentifyLeft.
Proof.
  intros Hd HN Hit Hleft Hlo.
  destruct (detect_arrays rpow fp t0 t ph om sign s d Hd) as [_ [_ Hph]].
  pose proof (take_at_length _ _ _ Hph) as Lph.
  destruct (update_K_ok (s_K s) (d_N_extrema d) (d_phase22_extrema d)) as [K' HK].
  { unfold d_N_extrema, len. now rewrite Lph. }
  unfold body. rewrite Hd. cbn [bind]. unfold decide.
  replace (d_N_extrema d =? 0) with false by (symmetry; apply Z.eqb_neq; exact HN).
  replace (20 <? s_it s + 1) with false by (symmetry; apply Z.ltb_ge; exact Hit).
  cbn [orb]. unfold refine. cbn [bind snd]. rewrite HK. cbn [bind].
  replace (d_Nleft d =? Nb) with false by (symmetry; apply Z.eqb_neq; lia).
  cbn [negb orb]. unfold adjust_left.
  replace (Nb <? d_Nleft d) with false by (symmetry; apply Z.ltb_ge; lia).
  replace (d_Nleft d <? Nb) with true by (symmetry; apply Z.ltb_lt; exact Hleft).
  rewrite Hlo. reflexivity.
Qed.

Lemma tracker_raises_when_left_side_short_witness :
  exists s0,
    initial_state (sample_phase22 200) 3 4 10 (12 # 10) sample_p = Ok s0 /\
    body int_rpow local_maxima fit_keeps_guess middle_vertex middle_value
         (-100) (sample_t 200) (sample_phase22 200)
         (sample_omega22 200 (regular_bumps 13))
         1 3 4 sample_bounds (1 # 100000000) false false s0
    = Fail CouldNotIdentifyLeft.
Proof.
  eexists. split; [vm_compute; reflexivity|].
  eapply (tracker_raises_when_left_side_short
            int_rpow local_maxima fit_keeps_guess middle_vertex middle_value
            (-100) (sample_t 200) (sample_phase22 200)
            (sample_omega22 200 (regular_bumps 13))
            1 3 4 sample_bounds (1 # 100000000)).
  - vm_compute. reflexivity.
  - vm_compute. discriminate.
  - vm_compute. discriminate.
  - vm_compute. reflexivity.
  - reflexivity.
Defined.

Lemma py_slice_empty {A : Type} (l : list A) (lo hi : Z) :
  0 <= hi <= lo -> py_slice l lo hi = [].
Proof.
  intro H. unfold py_slice, slice_bound.
  replace (lo <? 0) with false by (symmetry; apply Z.ltb_ge; lia).
  replace (hi <? 0) with false by (symmetry; apply Z.ltb_ge; lia).
  replace (Z.to_nat (Z.min hi (len l) - Z.min lo (len l))) with 0%nat by lia.
  reflexivity.
Qed.

(** X11. A pass of the tracker whose window is empty ([idx_hi <= idx_lo],
    both non-negative) raises ValueError: the trend model is evaluated on
    an empty slice of times, whose maximum does not exist. *)
Theorem tracker_empty_window_raises rpow fp cf pf cb t0 t ph om sign Nb Na bnds TOL
        incr refine (s : tstate) :
  0 <= s_idx_hi s <= s_idx_lo s ->
  body rpow fp cf pf cb t0 t ph om sign Nb Na bnds TOL incr refine s = Fail ValueError.
Proof.
  intro H. unfold body, detect, window_residual, f_fit, envelope_call. cbv zeta.
  rewrite (py_slice_empty t _ _ H). reflexivity.
Qed.

Lemma tracker_empty_window_raises_witness :
  sample_tracker 200 (regular_bumps 13) 46 0 = Raise ValueError.
Proof.
  assert (H0 : initial_state (sample_phase22 200) 3 4 46 0 sample_p
               = Ok (mkState 47 47 46 0 sample_p 0 (repeat 0%Q 7) (-1) (-1) 0 None))
    by (vm_compute; reflexivity).
  unfold sample_tracker, FindExtremaNearIdxRef. rewrite H0.
  cbn [bind tracker_loop].
  rewrite (tracker_empty_window_raises
             int_rpow local_maxima fit_keeps_guess middle_vertex middle_value
             (-100) (sample_t 200) (sample_phase22 200)
             (sample_omega22 200 (regular_bumps 13))
             1 3 4 sample_bounds (1 # 100000000) true false).
  - reflexivity.
  - cbn. lia.
Defined.

(** ** Further properties of the driving loop *)

Lemma extends_aligned (o o' : extrema_out) (new : list Z) :
  aligned o -> extends o o' new -> aligned o'.
Proof.
  intros [A1 [A2 A3]] [H [nt [no [np [Ht [Ho [Hp [Lt [Lo Lp]]]]]]]]].
  unfold aligned. rewrite H, Ht, Ho, Hp, !length_app. lia.
Qed.

Section DrivingOutput.
Variable rpow : Q -> Q -> Q.
Variable find_peaks : list Q -> Z -> Q -> result (list Z).
Variable curve_fit :
  Q -> list Q -> list Q -> params -> bounds -> option Z -> result params.
Variable parabola_fit : list Q -> list Q -> result (Q * Q).
Variable cubic_fit_at : list Q -> list Q -> Q -> result Q.
Variables t_analyse phase22_analyse omega22_analyse : list Q.
Variable refine_extrema : bool.
Variable t0 : Q.
Variable sign : Z.
Variable bounds0 : bounds.

Local Abbreviation tracker' :=
  (tracker rpow find_peaks curve_fit parabola_fit cubic_fit_at
           t_analyse phase22_analyse omega22_analyse refine_extrema t0 sign bounds0).
Local Abbreviation drive_body' :=
  (drive_body rpow find_peaks curve_fit parabola_fit cubic_fit_at
              t_analyse phase22_analyse omega22_analyse refine_extrema t0 sign bounds0).
Local Abbreviation drive' :=
  (fun fuel =>
     drive rpow find_peaks curve_fit parabola_fit cubic_fit_at
           t_analyse phase22_analyse omega22_analyse refine_extrema fuel t0 sign bounds0).

(** The output after one pass that does not raise. *)
Lemma drive_body_output (g : dstate) :
  match drive_body' g with
  | DBreak o => exists r new,
      tracker' (g_idx_ref g) (g_K g) (g_p g) = Ok r /\
      report (g_count g + 1) (g_out g) r = Ok o /\ extends (g_out g) o new
  | DNext g' => exists r new,
      tracker' (g_idx_ref g) (g_K g) (g_p g) = Ok r /\
      report (g_count g + 1) (g_out g) r = Ok (g_out g') /\
      extends (g_out g) (g_out g') new /\
      g_count g' = g_count g + 1 /\ g_count g' <= 1000
  | DFail _ => True
  end.
Proof.
  destruct (tracker' (g_idx_ref g) (g_K g) (g_p g)) as [r|e] eqn:Ht.
  - destruct (drive_body_cases rpow find_peaks curve_fit parabola_fit cubic_fit_at
                               t_analyse phase22_analyse omega22_analyse refine_extrema
                               t0 sign bounds0 g r Ht)
      as [o [new [Hr [He [_ [_ [Hshort Hfull]]]]]]].
    destruct (Z_lt_le_dec (len (r_idx_extrema r)) (2 * N + 1)) as [Hlt|Hge].
    + rewrite (Hshort Hlt). exists r, new. auto.
    + destruct (Hfull Hge) as [Hcap Hgo].
      destruct (Z_lt_le_dec 1000 (g_count g + 1)) as [Hc|Hc].
      * rewrite (Hcap Hc). exact I.
      * destruct (Hgo Hc) as [a [b [_ [_ Hb]]]]. rewrite Hb. cbn.
        exists r, new. auto 6.
  - unfold drive_body. rewrite Ht. exact I.
Qed.

(** The loop only ever appends to its output, and keeps the four lists
    aligned. *)
Lemma drive_appends (fuel : nat) :
  forall (g : dstate) (o : extrema_out),
    aligned (g_out g) -> drive' fuel g = Some (Ok o) ->
    aligned o /\ exists new, extends (g_out g) o new.
Proof.
  induction fuel as [|fuel IH]; intros g o Hal H; [discriminate|].
  cbn [drive] in H. pose proof (drive_body_output g) as Hout.
  destruct (drive_body' g) as [o'|g'|e]; [| |discriminate].
  - injection H as <-. destruct Hout as [r [new [_ [_ He]]]].
    split; [exact (extends_aligned _ _ _ Hal He) | eauto].
  - destruct Hout as [r [new [_ [_ [He _]]]]].
    destruct (IH g' o (extends_aligned _ _ _ Hal He) H) as [Hal' [new' He']].
    split; [exact Hal'|]. exists (new ++ new').
    exact (extends_trans _ _ _ _ _ He He').
Qed.
End DrivingOutput.

(** X12. The driving loop is append-only: from any state whose output
    lists are aligned, a run that ends normally returns the extrema
    confirmed before, in the same order, followed by the new ones, and
    the three lists of times, frequencies and phases have one entry per
    returned extremum. In particular what [find_extrema] returns and what
    it stores in [periastron_info] / [apastron_info] have the same
    length. *)
Theorem find_extrema_output_aligned rpow fp cf pf cb t ph om refine :
  (forall fuel t0 sign bounds0 g o,
      aligned (g_out g) ->
      drive rpow fp cf pf cb t ph om refine fuel t0 sign bounds0 g = Some (Ok o) ->
      aligned o /\ exists new, extends (g_out g) o new) /\
  (forall s o, find_extrema rpow fp cf pf cb t ph om refine s = Ok o -> aligned o).
Proof.
  split.
  - intros fuel t0 sign bounds0 g o Hal H.
    exact (drive_appends rpow fp cf pf cb t ph om refine t0 sign bounds0 fuel g o Hal H).
  - intros s o H. unfold find_extrema in H.
    break_bind H. break_bind H. break_bind H. break_bind H.
    match type of H with
    | context [drive ?a1 ?a2 ?a3 ?a4 ?a5 ?a6 ?a7 ?a8 ?a9 ?f ?b1 ?b2 ?b3 ?g] =>
        destruct (drive a1 a2 a3 a4 a5 a6 a7 a8 a9 f b1 b2 b3 g) as [res|] eqn:Ed;
          [|discriminate]
    end.
    subst res.
    refine (proj1 (drive_appends rpow fp cf pf cb t ph om refine _ _ _ _ _ o _ Ed)).
    unfold initial_dstate in E2. break_bind E2. break_if E2.
    injection E2 as <-. cbn. unfold aligned. cbn. auto.
Qed.

Lemma find_extrema_output_aligned_witness :
  exists o, sample_find_extrema 200 (regular_bumps 13) "maxima" = Ok o /\ aligned o.
Proof.
  unfold sample_find_extrema.
  assert (H : exists o,
             find_extrema int_rpow local_maxima fit_keeps_guess middle_vertex middle_value
                          (sample_t 200) (sample_phase22 200)
                          (sample_omega22 200 (regular_bumps 13)) false "maxima" = Ok o)
    by (eexists; vm_compute; reflexivity).
  destruct H as [o H]. exists o. split; [exact H|].
  exact (proj2 (find_extrema_output_aligned
                  int_rpow local_maxima fit_keeps_guess middle_vertex middle_value
                  (sample_t 200) (sample_phase22 200)
                  (sample_omega22 200 (regular_bumps 13)) false) "maxima"%string o H).
Defined.

Lemma append_at_length (o o' : extrema_out) (r : tracker_result) (k : Z) :
  append_at o r k = Ok o' -> len (extrema o') = len (extrema o) + 1.
Proof.
  unfold append_at. intro H. repeat break_bind H. injection H as <-.
  cbn [extrema]. unfold len. rewrite length_app. cbn [List.length]. lia.
Qed.

Lemma append_range_length (r : tracker_result) (n : nat) :
  forall (o o' : extrema_out) (k : Z),
    append_range o r k n = Ok o' -> len (extrema o') = len (extrema o) + Z.of_nat n.
Proof.
  induction n as [|n IH]; intros o o' k H; cbn [append_range] in H.
  - injection H as <-. lia.
  - break_bind H. apply IH in H. apply append_at_length in E. lia.
Qed.

(** Lines 323-343 add at most one extremum, or at most [N + 1] in the
    first pass. *)
Lemma report_length (count : Z) (o o' : extrema_out) (r : tracker_result) :
  report count o r = Ok o' ->
  len (extrema o) <= len (extrema o') <= len (extrema o) + (if count =? 1 then N + 1 else 1).
Proof.
  unfold report. intro H. break_if H.
  - break_bind H. apply append_at_length in H.
    destruct (count =? 1).
    + apply append_range_length in E0. unfold N in *. lia.
    + injection E0 as <-. lia.
  - injection H as <-. destruct (count =? 1); unfold N; lia.
Qed.

Section DrivingBound.
Variable rpow : Q -> Q -> Q.
Variable find_peaks : list Q -> Z -> Q -> result (list Z).
Variable curve_fit :
  Q -> list Q -> list Q -> params -> bounds -> option Z -> result params.
Variable parabola_fit : list Q -> list Q -> result (Q * Q).
Variable cubic_fit_at : list Q -> list Q -> Q -> result Q.
Variables t_analyse phase22_analyse omega22_analyse : list Q.
Variable refine_extrema : bool.
Variable t0 : Q.
Variable sign : Z.
Variable bounds0 : bounds.

Local Abbreviation drive_body' :=
  (drive_body rpow find_peaks curve_fit parabola_fit cubic_fit_at
              t_analyse phase22_analyse omega22_analyse refine_extrema t0 sign bounds0).
Local Abbreviation drive' :=
  (fun fuel =>
     drive rpow find_peaks curve_fit parabola_fit cubic_fit_at
           t_analyse phase22_analyse omega22_analyse refine_extrema fuel t0 sign bounds0).

Lemma drive_length (fuel : nat) :
  forall (g : dstate) (o : extrema_out),
    0 <= g_count g <= 1000 ->
    (g_count g = 0 -> extrema (g_out g) = []) ->
    len (extrema (g_out g)) <= N + g_count g ->
    drive' fuel g = Some (Ok o) ->
    len (extrema o) <= N + 1001.
Proof.
  induction fuel as [|fuel IH]; intros g o Hc H0 Hlen H; [discriminate|].
  cbn [drive] in H.
  pose proof (drive_body_output rpow find_peaks curve_fit parabola_fit cubic_fit_at
                                t_analyse phase22_analyse omega22_analyse refine_extrema
                                t0 sign bounds0 g) as Hout.
  assert (Hstep : forall r o1,
             report (g_count g + 1) (g_out g) r = Ok o1 ->
             len (extrema o1) <= N + (g_count g + 1)).
  { intros r o1 Hr. apply report_length in Hr.
    destruct (g_count g + 1 =? 1) eqn:E1.
    - apply Z.eqb_eq in E1. rewrite H0 in Hr by lia. cbn [len List.length Z.of_nat] in Hr.
      lia.
    - lia. }
  destruct (drive_body' g) as [o'|g'|e]; [| |discriminate].
  - injection H as <-. destruct Hout as [r [new [_ [Hr _]]]].
    specialize (Hstep r o' Hr). lia.
  - destruct Hout as [r [new [_ [Hr [_ [Hc' Hle]]]]]].
    apply (IH g' o); [lia | lia | | exact H].
    rewrite Hc'. exact (Hstep r _ Hr).
Qed.
End DrivingBound.

(** X13. [find_extrema] never returns more than [N + 1001 = 1004]
    extrema: the first pass confirms at most [N + 1], every later pass at
    most one, and the loop makes at most 1001 passes. *)
Theorem find_extrema_at_most_1004 rpow fp cf pf cb t ph om refine (s : string)
        (o : extrema_out) :
  find_extrema rpow fp cf pf cb t ph om refine s = Ok o ->
  len (extrema o) <= 1004.
Proof.
  intro H. unfold find_extrema in H.
  break_bind H. break_bind H. break_bind H. break_bind H.
  match type of H with
  | context [drive ?a1 ?a2 ?a3 ?a4 ?a5 ?a6 ?a7 ?a8 ?a9 ?f ?b1 ?b2 ?b3 ?g] =>
      destruct (drive a1 a2 a3 a4 a5 a6 a7 a8 a9 f b1 b2 b3 g) as [res|] eqn:Ed;
        [|discriminate]
  end.
  subst res.
  unfold initial_dstate in E2. break_bind E2. break_if E2. injection E2 as <-.
  change 1004 with (N + 1001).
  refine (drive_length rpow fp cf pf cb t ph om refine _ _ _ _ _ o _ _ _ Ed);
    cbn; unfold N; try lia. reflexivity.
Qed.

Lemma find_extrema_at_most_1004_witness :
  exists o, sample_find_extrema 200 (regular_bumps 13) "maxima" = Ok o /\
            len (extrema o) <= 1004.
Proof.
  unfold sample_find_extrema.
  assert (H : exists o,
             find_extrema int_rpow local_maxima fit_keeps_guess middle_vertex middle_value
                          (sample_t 200) (sample_phase22 200)
                          (sample_omega22 200 (regular_bumps 13)) false "maxima" = Ok o)
    by (eexists; vm_compute; reflexivity).
  destruct H as [o H]. exists o. split; [exact H|].
  exact (find_extrema_at_most_1004
           int_rpow local_maxima fit_keeps_guess middle_vertex middle_value
           (sample_t 200) (sample_phase22 200)
           (sample_omega22 200 (regular_bumps 13)) false "maxima"%string o H).
Defined.

(** X14. When the first tracker call of a run finds fewer than
    [2N-1 = 5] extrema (none at all included), [find_extrema] ends
    normally and returns empty lists: too few extrema are reported as no
    extrema, not as an error. *)
Theorem find_extrema_too_few_returns_empty rpow fp cf pf cb t ph om refine (s : string)
        (sg : Z) (gs : global_setup) (p_global : params) (g0 : dstate)
        (r : tracker_result) :
  FrequencyFits.sign_of s = Ok sg ->
  setup_global_fit t ph om = Ok gs ->
  cf (gs_fit_center_time gs) (global_fit_times t gs) (py_prefix om (gs_idx_end gs))
     (gs_p0 gs) (gs_bounds0 gs) None = Ok p_global ->
  initial_dstate ph p_global = Ok g0 ->
  tracker rpow fp cf pf cb t ph om refine (gs_fit_center_time gs) sg (gs_bounds0 gs)
          (g_idx_ref g0) (g_K g0) (g_p g0) = Ok r ->
  len (r_idx_extrema r) < 2 * N - 1 ->
  find_extrema rpow fp cf pf cb t ph om refine s = Ok (mkOut [] [] [] []).
Proof.
  intros Hs Hsetup Hfit Hg0 Ht Hlen.
  unfold find_extrema. rewrite Hs, Hsetup. cbn [bind]. rewrite Hfit. cbn [bind].
  rewrite Hg0. cbn [bind].
  destruct (drive_body_cases rpow fp cf pf cb t ph om refine
                             (gs_fit_center_time gs) sg (gs_bounds0 gs) g0 r Ht)
    as [o [new [_ [_ [_ [Hsame [Hshort _]]]]]]].
  destruct (Hsame Hlen) as [Ho _].
  change 1001%nat with (S 1000). cbn [drive].
  rewrite Hshort by (unfold N in *; lia). rewrite Ho.
  unfold initial_dstate in Hg0. break_bind Hg0. break_if Hg0.
  injection Hg0 as <-. reflexivity.
Qed.

Lemma find_extrema_too_few_returns_empty_witness :
  sample_find_extrema 200 [] "maxima" = Ok (mkOut [] [] [] []).
Proof.
  unfold sample_find_extrema.
  eapply (find_extrema_too_few_returns_empty
            int_rpow local_maxima fit_keeps_guess middle_vertex middle_value
            (sample_t 200) (sample_phase22 200) (sample_omega22 200 []) false "maxima").
  - reflexivity.
  - vm_compute. reflexivity.
  - reflexivity.
  - vm_compute. reflexivity.
  - vm_compute. reflexivity.
  - vm_compute. reflexivity.
Defined.

Lemma sorted_count_nth (l : list Z) (ref : Z) :
  StronglySorted apart l ->
  forall k e, nth_error l k = Some e -> e < ref ->
              Z.of_nat k + 1 <= count_true (map (fun i => i <? ref) l).
Proof.
  induction 1 as [|x l Hs IH Hx]; intros k e Hk He.
  - destruct k; discriminate.
  - cbn [map]. rewrite count_true_cons.
    pose proof (count_true_nonneg (map (fun i => i <? ref) l)) as Hnn.
    destruct k as [|k]; cbn [nth_error] in Hk.
    + injection Hk as <-.
      replace (x <? ref) with true by (symmetry; apply Z.ltb_lt; exact He). lia.
    + rewrite Forall_forall in Hx.
      pose proof (Hx e (nth_error_In _ _ Hk)) as Hxe. unfold apart in Hxe.
      replace (x <? ref) with true by (symmetry; apply Z.ltb_lt; lia).
      specialize (IH k e Hk He). lia.
Qed.

(** A tracker call hands back sorted extrema and a reference index that
    is not smaller than the one it was given. *)
Lemma tracker_call_sorted_mono rpow fp cf pf cb t0 t ph om sign Nb Na bnds TOL incr refine
      idx_ref K p (r : tracker_result) :
  find_peaks_contract fp ->
  FindExtremaNearIdxRef rpow fp cf pf cb t0 t ph om sign Nb Na bnds TOL incr refine
                        idx_ref K p = Ok r ->
  StronglySorted apart (r_idx_extrema r) /\ idx_ref <= r_idx_ref r.
Proof.
  intros Hc H.
  destruct (tracker_call_loop _ _ _ _ _ _ _ _ _ _ _ _ _ _ _ _ _ _ _ _ H)
    as [s0 [H0 Hloop]].
  destruct (initial_state_facts _ _ _ _ _ _ _ H0)
    as [Href [_ [_ [_ [Hol [Ohi [_ [_ [Hlo Hhi]]]]]]]]].
  refine (loop_invariant rpow fp cf pf cb t0 t ph om sign Nb Na bnds TOL incr refine
            (fun s => window_inv s /\ idx_ref <= s_idx_ref s)
            (fun r => StronglySorted apart (r_idx_extrema r) /\ idx_ref <= r_idx_ref r)
            _ _ 21%nat s0 r _ Hloop).
  - intros s why s' [Hinv Hle] Hb. split.
    + exact (body_window_inv rpow fp cf pf cb t0 t ph om sign Nb Na bnds TOL incr refine
                             Hc s s' why Hinv Hb).
    + destruct (body_idx_ref_mono rpow fp cf pf cb t0 t ph om sign Nb Na bnds TOL incr
                                  refine Hc s _ (s_idx_ref s') Hb eq_refl) as [H1 _].
      lia.
  - intros s site r' [Hinv Hle] Hb. split.
    + destruct (body_return rpow fp cf pf cb t0 t ph om sign Nb Na bnds TOL incr refine
                            s site r' Hb) as [d [Hd [Hidx _]]].
      destruct (detect_range rpow fp t0 t ph om sign Hc s d Hinv Hd) as [Hs _].
      now rewrite Hidx.
    + destruct (body_idx_ref_mono rpow fp cf pf cb t0 t ph om sign Nb Na bnds TOL incr
                                  refine Hc s _ (r_idx_ref r') Hb eq_refl) as [H1 _].
      lia.
  - split; [unfold window_inv; auto | lia].
Qed.

Lemma report_ends_with (count : Z) (o o' : extrema_out) (r : tracker_result) (e : Z) :
  report count o r = Ok o' -> 2 * N - 1 <= len (r_idx_extrema r) ->
  py_index (r_idx_extrema r) N = Ok e ->
  exists pre, extrema o' = pre ++ [e].
Proof.
  unfold report. intros H Hlen He.
  replace (2 * N - 1 <=? len (r_idx_extrema r)) with true in H
    by (symmetry; apply Z.leb_le; exact Hlen).
  break_bind H. unfold append_at in H. rewrite He in H. cbn [bind] in H.
  repeat break_bind H. injection H as <-. cbn [extrema]. eauto.
Qed.

(** X15. Under the guarantees of [find_peaks], a pass of the driving loop
    (one of the first 1000) whose tracker result is full ([2N+1] extrema or more) and centred
    (exactly [N] extrema before its reference index) makes progress: the
    extremum it confirms is the last entry of the output, lies at or
    after the pass's reference index, and the reference index of the next
    pass lies strictly beyond it. *)
Theorem drive_pass_progress rpow fp cf pf cb t ph om refine t0 sign bounds0
        (g : dstate) (r : tracker_result) :
  find_peaks_contract fp ->
  tracker rpow fp cf pf cb t ph om refine t0 sign bounds0
          (g_idx_ref g) (g_K g) (g_p g) = Ok r ->
  count_true (map (fun i => i <? r_idx_ref r) (r_idx_extrema r)) = N ->
  2 * N + 1 <= len (r_idx_extrema r) ->
  g_count g + 1 <= 1000 ->
  exists g' e pre,
    drive_body rpow fp cf pf cb t ph om refine t0 sign bounds0 g = DNext g' /\
    py_index (r_idx_extrema r) N = Ok e /\
    extrema (g_out g') = pre ++ [e] /\
    g_idx_ref g <= e /\ e < g_idx_ref g'.
Proof.
  intros Hc Ht Hcount Hlen Hcap.
  destruct (drive_body_cases rpow fp cf pf cb t ph om refine t0 sign bounds0 g r Ht)
    as [o [new [Hr [_ [_ [_ [_ Hfull]]]]]]].
  destruct (Hfull Hlen) as [_ Hgo]. destruct (Hgo Hcap) as [a [b [Ha [Hb Hbody]]]].
  unfold tracker in Ht.
  destruct (tracker_call_sorted_mono _ _ _ _ _ _ _ _ _ _ _ _ _ _ _ _ _ _ _ _ Hc Ht)
    as [Hs Hmono].
  destruct (report_ends_with _ _ _ _ a Hr ltac:(lia) Ha) as [pre Hpre].
  exists (mkDState (g_count g + 1) o (int_mid a b) (r_p r) (r_K r)), a, pre.
  split; [exact Hbody|]. split; [exact Ha|]. split; [exact Hpre|].
  cbn [g_idx_ref].
  pose proof Ha as Ha'. pose proof Hb as Hb'.
  apply py_index_nth in Ha'; [|unfold N; lia].
  apply py_index_nth in Hb'; [|unfold N; lia].
  assert (Hab : apart a b).
  { apply (StronglySorted_nth _ (Z.to_nat N) (Z.to_nat (N + 1)) a b Hs);
      [unfold N; lia | exact Ha' | exact Hb']. }
  pose proof (int_mid_between a b Hab) as Hmid.
  split; [|lia].
  destruct (Z_lt_le_dec a (r_idx_ref r)) as [Hlt|Hge]; [|lia].
  pose proof (sorted_count_nth _ (r_idx_ref r) Hs _ _ Ha' Hlt) as Hcnt.
  rewrite Hcount in Hcnt. unfold N in Hcnt. lia.
Qed.

Lemma drive_pass_progress_witness :
  exists g' e pre,
    sample_drive_body 200 (regular_bumps 13)
                      (mkDState 0 (mkOut [] [] [] []) 46 sample_p (12 # 10))
    = DNext g' /\
    py_index [7; 22; 37; 52; 67; 82; 97] N = Ok e /\
    extrema (g_out g') = pre ++ [e] /\
    46 <= e /\ e < g_idx_ref g'.
Proof.
  unfold sample_drive_body.
  refine (drive_pass_progress
            int_rpow local_maxima fit_keeps_guess middle_vertex middle_value
            (sample_t 200) (sample_phase22 200)
            (sample_omega22 200 (regular_bumps 13)) false (-100) 1 sample_bounds
            (mkDState 0 (mkOut [] [] [] []) 46 sample_p (12 # 10))
            (mkResult [7; 22; 37; 52; 67; 82; 97] sample_p
                      (6333186975989760 # 5305678314021330) 46
                      [-193; -178; -163; -148; -133; -118; -103]%Q
                      [2; 2; 2; 2; 2; 2; 2]%Q
                      [7; 22; 37; 52; 67; 82; 97]%Q)
            local_maxima_contract _ _ _ _).
  - vm_compute. reflexivity.
  - vm_compute. reflexivity.
  - vm_compute. discriminate.
  - vm_compute. discriminate.
Defined.

(** ** The periastron-advance estimate handed back *)

Lemma take_at_nth {A : Type} (l : list A) (idx : list Z) (r : list A) :
  take_at l idx = Ok r ->
  forall k v, nth_error r k = Some v ->
              exists i, nth_error idx k = Some i /\ py_index l i = Ok v.
Proof.
  revert r. induction idx as [|i idx IH]; intros r H k v Hk; cbn [take_at] in H.
  - injection H as <-. destruct k; discriminate.
  - destruct (py_index l i) as [a|] eqn:Ei; cbn [bind] in H; [|discriminate].
    destruct (take_at l idx) as [r'|] eqn:Er; cbn [bind] in H; [|discriminate].
    injection H as <-. destruct k as [|k]; cbn [nth_error] in *.
    + injection Hk as <-. eauto.
    + exact (IH r' eq_refl k v Hk).
Qed.

Lemma py_index_minus_one_nth {A : Type} (l : list A) (a : A) :
  py_index l (-1) = Ok a -> nth_error l (List.length l - 1) = Some a.
Proof.
  unfold py_index. change (-1 <? 0) with true. cbv zeta iota.
  destruct ((-1 + len l <? 0) || (len l <=? -1 + len l)) eqn:E; [discriminate|].
  apply orb_false_iff in E. destruct E as [E1 _]. apply Z.ltb_ge in E1.
  replace (Z.to_nat (-1 + len l)) with (List.length l - 1)%nat
    by (unfold len in *; lia).
  destruct (nth_error l (List.length l - 1)); [congruence | discriminate].
Qed.

Lemma inject_Z_pos (z : Z) : 0 < z -> (0 < inject_Z z)%Q.
Proof. intro H. unfold Qlt, inject_Z. cbn. lia. Qed.

Section TrackerK.
Variable rpow : Q -> Q -> Q.
Variable find_peaks : list Q -> Z -> Q -> result (list Z).
Variable curve_fit :
  Q -> list Q -> list Q -> params -> bounds -> option Z -> result params.
Variable parabola_fit : list Q -> list Q -> result (Q * Q).
Variable cubic_fit_at : list Q -> list Q -> Q -> result Q.
Variable t0 : Q.
Variables t phase22 omega22 : list Q.
Variable sign : Z.
Variables Nbefore Nafter : Z.
Variable bnds : bounds.
Variable TOL : Q.
Variable increase_idx_ref_if_needed : bool.
Variable refine_extrema : bool.

Hypothesis peaks_contract : find_peaks_contract find_peaks.

Local Abbreviation detect' :=
  (detect rpow find_peaks t0 t phase22 omega22 sign).
Local Abbreviation body' :=
  (body rpow find_peaks curve_fit parabola_fit cubic_fit_at t0 t phase22 omega22
        sign Nbefore Nafter bnds TOL increase_idx_ref_if_needed refine_extrema).
Local Abbreviation loop' :=
  (tracker_loop rpow find_peaks curve_fit parabola_fit cubic_fit_at t0 t phase22
                omega22 sign Nbefore Nafter bnds TOL increase_idx_ref_if_needed
                refine_extrema).

(** The pass in which a loop returns. *)
Lemma loop_returning_pass (fuel : nat) :
  forall (s : tstate) (r : tracker_result),
    window_inv s -> s_it s + Z.of_nat fuel <= 20 ->
    loop' fuel s = Some (Ok r) ->
    exists s' site, window_inv s' /\ s_it s' + 1 <= 20 /\ body' s' = Return site r.
Proof.
  induction fuel as [|fuel IH]; intros s r Hinv Hit H; [discriminate|].
  cbn [tracker_loop] in H. destruct (body' s) as [site r'|why s'|e] eqn:Eb.
  - injection H as <-. exists s, site. split; [exact Hinv|]. split; [lia | exact Eb].
  - destruct (body_next_it rpow find_peaks curve_fit parabola_fit cubic_fit_at t0 t
                           phase22 omega22 sign Nbefore Nafter bnds TOL
                           increase_idx_ref_if_needed refine_extrema s s' why Eb)
      as [Hs' _].
    apply (IH s' r); [|lia | exact H].
    exact (body_window_inv rpow find_peaks curve_fit parabola_fit cubic_fit_at t0 t
                           phase22 omega22 sign Nbefore Nafter bnds TOL
                           increase_idx_ref_if_needed refine_extrema peaks_contract
                           s s' why Hinv Eb).
  - discriminate.
Qed.

(** The estimate of [K] handed back by a pass that returns at least one
    extremum not beyond the 20th pass is computed from the phases handed
    back. *)
Lemma body_return_K (s : tstate) (site : exit_site) (r : tracker_result) :
  body' s = Return site r -> s_it s + 1 <= 20 -> r_idx_extrema r <> [] ->
  update_K (s_K s) (len (r_idx_extrema r)) (r_phase22_extrema r) = Ok (r_K r).
Proof.
  intros H Hit Hne.
  destruct (body_decide rpow find_peaks curve_fit parabola_fit cubic_fit_at t0 t
                        phase22 omega22 sign Nbefore Nafter bnds TOL
                        increase_idx_ref_if_needed refine_extrema s _ H)
    as [d [Hd Hdec]]; [discriminate|].
  destruct (decide_cases _ _ _ _ _ _ _ _ _ _ _ _ _ _ _ _ _ Hdec)
    as [[Hst [HN|HN]]|[_ [_ [arrs [K [_ [HK Hrest]]]]]]]; [| lia |].
  { exfalso. injection Hst as _ ->. cbn in Hne. unfold d_N_extrema, len in HN.
    destruct (d_idx_extrema d); [congruence | cbn in HN; lia]. }
  cbv zeta in Hrest.
  assert (Hc : forall lo hi ref C,
             conclude curve_fit t0 bnds TOL s d (s_it s + 1) arrs K C lo hi ref
             = Ok (Return site r) ->
             r_idx_extrema r = d_idx_extrema d /\ r_K r = K /\
             r_phase22_extrema r = snd arrs).
  { intros lo hi ref C Hc.
    destruct (conclude_cases _ _ _ _ _ _ _ _ _ _ _ _ _ _ Hc)
      as [[Hst _]|[[Hst _]|[p' [_ [Hst _]]]]]; try discriminate;
      injection Hst as _ ->; cbn; auto. }
  assert (Hfin : r_idx_extrema r = d_idx_extrema d /\ r_K r = K /\
                 r_phase22_extrema r = snd arrs).
  { destruct Hrest as [[_ [_ Hcon]]|[_ [lo [hi [ref [Nr [_ [_ [[_ Hst]|[_ [_ Hcon]]]]]]]]]]];
      [exact (Hc _ _ _ _ Hcon) | discriminate | exact (Hc _ _ _ _ Hcon)]. }
  destruct Hfin as [E1 [E2 E3]]. rewrite E1, E2, E3. exact HK.
Qed.
End TrackerK.

(** X16. With refinement off, strictly increasing phase samples and the
    guarantees of [find_peaks], a call of FindExtremaNearIdxRef that
    returns at least two extrema within its first 20 passes hands back
    [K = (phase22[last extremum] - phase22[first extremum])
         / (4*pi*(number of extrema - 1))],
    computed from the phases it hands back, and this [K] is positive. *)
Theorem tracker_K_positive rpow fp cf pf cb t0 t ph om sign Nb Na bnds TOL incr
        idx_ref K p (s0 : tstate) (r : tracker_result) :
  find_peaks_contract fp -> increasingb ph = true ->
  initial_state ph Nb Na idx_ref K p = Ok s0 ->
  tracker_loop rpow fp cf pf cb t0 t ph om sign Nb Na bnds TOL incr false 20 s0
  = Some (Ok r) ->
  2 <= len (r_idx_extrema r) ->
  exists l f,
    py_index (r_phase22_extrema r) (-1) = Ok l /\
    py_index (r_phase22_extrema r) 0 = Ok f /\
    r_K r = ((l - f) / (four_pi * inject_Z (len (r_idx_extrema r) - 1)))%Q /\
    (f < l)%Q /\ (0 < r_K r)%Q.
Proof.
  intros Hc Hinc H0 Hloop Hlen.
  destruct (initial_state_facts _ _ _ _ _ _ _ H0)
    as [_ [Hit [_ [_ [Hol [Ohi [_ [_ [Hlo Hhi]]]]]]]]].
  assert (Hinv0 : window_inv s0) by (unfold window_inv; auto).
  destruct (loop_returning_pass rpow fp cf pf cb t0 t ph om sign Nb Na bnds TOL incr false
                                Hc 20 s0 r Hinv0 ltac:(rewrite Hit; cbn; lia) Hloop)
    as [s [site [Hinv [Hit' Hb]]]].
  assert (Hne : r_idx_extrema r <> []).
  { intro E. rewrite E in Hlen. cbn in Hlen. lia. }
  pose proof (body_return_K rpow fp cf pf cb t0 t ph om sign Nb Na bnds TOL incr false
                            s site r Hb Hit' Hne) as HK.
  unfold update_K in HK.
  replace (2 <=? len (r_idx_extrema r)) with true in HK
    by (symmetry; apply Z.leb_le; exact Hlen).
  unfold last_and_first in HK.
  destruct (py_index (r_phase22_extrema r) (-1)) as [l|] eqn:El; cbn [bind] in HK;
    [|discriminate].
  destruct (py_index (r_phase22_extrema r) 0) as [f|] eqn:Ef; cbn [bind] in HK;
    [|discriminate].
  injection HK as HK. exists l, f.
  split; [reflexivity|]. split; [reflexivity|]. split; [now rewrite HK|].
  destruct (body_return_arrays rpow fp cf pf cb t0 t ph om sign Nb Na bnds TOL incr false
                               s site r Hb) as [[_ [_ Lp]] Hoff].
  destruct (Hoff eq_refl) as [_ [_ Htake]].
  destruct (body_return rpow fp cf pf cb t0 t ph om sign Nb Na bnds TOL incr false
                        s site r Hb) as [d [Hd [Hidx _]]].
  destruct (detect_range rpow fp t0 t ph om sign Hc s d Hinv Hd) as [Hs [Hr _]].
  rewrite <- Hidx in Hs, Hr. destruct Hinv as [_ [Hlo' _]].
  apply py_index_nth in Ef; [|lia]. apply py_index_minus_one_nth in El.
  destruct (take_at_nth _ _ _ Htake _ _ Ef) as [i0 [Hi0 Hp0]].
  destruct (take_at_nth _ _ _ Htake _ _ El) as [i1 [Hi1 Hp1]].
  rewrite Forall_forall in Hr.
  pose proof (Hr i0 (nth_error_In _ _ Hi0)) as R0.
  pose proof (Hr i1 (nth_error_In _ _ Hi1)) as R1.
  cbn [Z.to_nat] in Hi0.
  assert (Hk : (0 < List.length (r_phase22_extrema r) - 1)%nat)
    by (unfold len in Hlen; lia).
  pose proof (StronglySorted_nth _ _ _ i0 i1 Hs Hk Hi0 Hi1) as Hap. unfold apart in Hap.
  apply py_index_nth in Hp0; [|lia]. apply py_index_nth in Hp1; [|lia].
  assert (Hfl : (f < l)%Q).
  { apply (increasingb_nth ph Hinc (Z.to_nat i0) (Z.to_nat i1)); [lia | exact Hp0 | exact Hp1]. }
  split; [exact Hfl|].
  rewrite <- HK. unfold Qdiv. apply Qmult_lt_0_compat; [lra|].
  apply Qinv_lt_0_compat. apply Qmult_lt_0_compat; [reflexivity|].
  apply inject_Z_pos. lia.
Qed.

Lemma tracker_K_positive_witness :
  exists r l f,
    initial_state (sample_phase22 200) 3 4 150 (12 # 10) sample_p = Ok near_end_s0 /\
    sample_tracker 200 (regular_bumps 13) 150 (12 # 10) = Ok r /\
    py_index (r_phase22_extrema r) (-1) = Ok l /\
    py_index (r_phase22_extrema r) 0 = Ok f /\
    r_K r = ((l - f) / (four_pi * inject_Z (len (r_idx_extrema r) - 1)))%Q /\
    (f < l)%Q /\ (0 < r_K r)%Q.
Proof.
  assert (H0 : initial_state (sample_phase22 200) 3 4 150 (12 # 10) sample_p
               = Ok near_end_s0) by (vm_compute; reflexivity).
  assert (Hr : sample_tracker 200 (regular_bumps 13) 150 (12 # 10)
               = Ok (mkResult [112; 127; 142; 157; 172; 187] sample_p
                              (5277655813324800 # 4421398595017775) 150
                              [-88; -73; -58; -43; -28; -13]%Q
                              [2; 2; 2; 2; 2; 2]%Q
                              [112; 127; 142; 157; 172; 187]%Q))
    by (vm_compute; reflexivity).
  assert (Hl : tracker_loop
                 int_rpow local_maxima fit_keeps_guess middle_vertex middle_value
                 (-100) (sample_t 200) (sample_phase22 200)
                 (sample_omega22 200 (regular_bumps 13))
                 1 3 4 sample_bounds (1 # 100000000) true false 20 near_end_s0
               = Some (Ok (mkResult [112; 127; 142; 157; 172; 187] sample_p
                                    (5277655813324800 # 4421398595017775) 150
                                    [-88; -73; -58; -43; -28; -13]%Q
                                    [2; 2; 2; 2; 2; 2]%Q
                                    [112; 127; 142; 157; 172; 187]%Q)))
    by (vm_compute; reflexivity).
  assert (Hinc : increasingb (sample_phase22 200) = true) by (vm_compute; reflexivity).
  assert (Hlen : 2 <= len [112; 127; 142; 157; 172; 187]) by (vm_compute; discriminate).
  destruct (tracker_K_positive
              int_rpow local_maxima fit_keeps_guess middle_vertex middle_value
              (-100) (sample_t 200) (sample_phase22 200)
              (sample_omega22 200 (regular_bumps 13))
              1 3 4 sample_bounds (1 # 100000000) true 150 (12 # 10) sample_p
              near_end_s0 _ local_maxima_contract Hinc H0 Hl Hlen)
    as [l [f Hrest]].
  eexists. exists l, f. split; [exact H0|]. split; [exact Hr|]. exact Hrest.
Defined.

Lemma fold_Qminb_le (l : list Q) (x : Q) :
  (fold_left Qminb l x <= x)%Q /\
  (forall y, In y l -> (fold_left Qminb l x <= y)%Q).
Proof.
  revert x. induction l as [|a l IH]; intro x; cbn [fold_left].
  - split; [apply Qle_refl | intros y []].
  - destruct (IH (Qminb x a)) as [H1 H2].
    assert (Hx : (Qminb x a <= x)%Q /\ (Qminb x a <= a)%Q).
    { unfold Qminb. destruct (Qltb a x) eqn:E.
      - apply Qltb_lt in E. split; [apply Qlt_le_weak; exact E | apply Qle_refl].
      - apply Qltb_ge in E. split; [apply Qle_refl | exact E]. }
    destruct Hx as [Hx Ha]. split.
    + eapply Qle_trans; [exact H1 | exact Hx].
    + intros y [<-|Hy]; [eapply Qle_trans; [exact H1 | exact Ha] | exact (H2 y Hy)].
Qed.

Lemma np_min_le_max (l : list Q) (lo hi : Q) :
  np_min l = Ok lo -> np_max l = Ok hi -> (lo <= hi)%Q.
Proof.
  destruct l as [|x l]; cbn [np_min np_max]; [discriminate|].
  intros Hlo Hhi. injection Hlo as <-. injection Hhi as <-.
  eapply Qle_trans; [exact (proj1 (fold_Qminb_le l x)) | exact (proj1 (fold_Qmaxb_ge l x))].
Qed.

Lemma np_diff_increasing (l : list Q) :
  increasingb l = true -> forall d, In d (np_diff l) -> (0 < d)%Q.
Proof.
  induction l as [|x l IH]; intros H d Hd; [destruct Hd|].
  destruct l as [|y l]; [destruct Hd|].
  cbn [np_diff] in Hd. cbn [increasingb] in H.
  apply andb_true_iff in H. destruct H as [Hxy Hrest].
  destruct Hd as [<-|Hd].
  - apply Qltb_lt in Hxy. lra.
  - exact (IH Hrest d Hd).
Qed.

Lemma py_int_nonneg (x : Q) : (0 <= x)%Q -> 0 <= py_int x.
Proof.
  intro H. unfold py_int. destruct x as [n d]. unfold Qle in H. cbn in *.
  apply Z.quot_pos; lia.
Qed.

(** X18. The peak-detector configuration computed at lines 535-539 is
    never negative in its prominence: it is 3% of the peak-to-trough
    amplitude of the residual. The width, in samples, is not negative
    either when the times of the window increase and some frequency in
    the window is positive. *)
Theorem peak_config_nonnegative (t omega22 : list Q) (idx_lo idx_hi : Z)
        (omega_residual : list Q) (width : Z) (prominence : Q) :
  fresh_peak_config t omega22 idx_lo idx_hi omega_residual = Ok (width, prominence) ->
  (0 <= prominence)%Q /\
  (increasingb (py_slice t idx_lo idx_hi) = true ->
   (exists x, In x (py_slice omega22 idx_lo idx_hi) /\ (0 < x)%Q) ->
   0 <= width).
Proof.
  intro H. unfold fresh_peak_config in H.
  break_bind H. break_bind H. break_if H. break_bind H. break_bind H.
  injection H as <- <-.
  split.
  - pose proof (np_min_le_max _ _ _ E3 E2). lra.
  - intros Hinc [x [Hx Hpos]].
    destruct (np_max_spec _ _ E) as [Hd _].
    pose proof (np_diff_increasing _ Hinc _ Hd) as Hdt.
    destruct (np_max_spec _ _ E0) as [_ Hom]. pose proof (Hom x Hx) as Hxm.
    apply py_int_nonneg.
    assert (H1 : (0 < one_pi)%Q) by (vm_compute; reflexivity).
    assert (H2 : (0 < one_pi / a0)%Q).
    { apply Qlt_shift_div_l; lra. }
    apply Qlt_le_weak. apply Qlt_shift_div_l; lra.
Qed.

Lemma peak_config_nonnegative_witness :
  exists prominence,
    fresh_peak_config [0; 1; 2; 3; 4; 5]%Q
                      [1 # 10; 3 # 10; 2 # 10; 4 # 10; 3 # 10; 5 # 10]%Q
                      1 5 [0; 1; -1; 0]%Q
    = Ok (7, prominence) /\ (0 <= prominence)%Q /\ 0 <= 7.
Proof.
  assert (H : fresh_peak_config [0; 1; 2; 3; 4; 5]%Q
                                [1 # 10; 3 # 10; 2 # 10; 4 # 10; 3 # 10; 5 # 10]%Q
                                1 5 [0; 1; -1; 0]%Q
              = Ok (7, (6 # 100)%Q)) by (vm_compute; reflexivity).
  destruct (peak_config_nonnegative _ _ _ _ _ _ _ H) as [Hp Hw].
  eexists. split; [exact H|]. split; [exact Hp|].
  apply Hw; [vm_compute; reflexivity|].
  exists (3 # 10)%Q. split; [vm_compute; tauto | vm_compute; reflexivity].
Defined.
